(** * Water Reminder: a shallow embedding of [main.py]

    The program is a thin layer over three collaborators: a JSON settings
    file, a desktop-notification call and the host's task scheduler.  The
    embedding keeps the program's own structure: the [WaterReminder]
    methods are functions in a state-and-exception monad, the settings
    dictionary is a finite map from field names to Python values, and the
    collaborators (clock, notifier, scheduler query, path functions) are the
    fields of an environment record that every run is given.

    Conventions.
    - A Python [str] is a Rocq [string], one character per code point; the
      character classes used by [str.strip], [int] and [strptime] are
      written out for the code points below 256.  The fixed messages that
      hold characters beyond that range are kept as their UTF-8 bytes: the
      program only prints or stores them.
    - Python values are those JSON carries: [None], booleans, integers,
      strings, lists and string-keyed dictionaries.  Floating-point numbers
      are left out.  The library is that of CPython 3.11: [int] and
      [json.load] refuse a literal of more than 4300 digits, so the
      integers of the settings have no more digits than that, and [str]
      converts every one of them.
    - The settings dictionary is kept in two parts: its string keys, which
      the program reads and writes, as a finite map, and the keys that are
      no strings (only [dict.update] with a JSON array can store them), in
      the order in which they were stored.
    - A file is described by what reading it yields (see [file]): the
      [json] module of the standard library is not re-implemented, a
      document written by [json.dump] reads back as the value that the
      text written denotes.
    - Whether the host lets a file be written, and what it leaves at the
      path when it does not, is part of the state (see [write_failure]);
      which lengths of sleep the host refuses is part of the environment
      (see [sleep_refused]). *)

From Stdlib Require Import ZArith Lia Ascii.
From stdpp Require Import base strings gmap list pretty.

Open Scope Z_scope.

(** ** Python values *)

#[warnings="-register-all"]
Inductive pyval : Type :=
  | PyNone
  | PyBool (b : bool)
  | PyInt (n : Z)
  | PyStr (s : string)
  | PyList (items : list pyval)
  | PyDict (members : list (string * pyval)).

(** Truth value of an object, as tested by [if] and [not]. *)
Definition truthy (v : pyval) : bool :=
  match v with
  | PyNone => false
  | PyBool b => b
  | PyInt n => negb (n =? 0)
  | PyStr s => negb (bool_decide (s = ""))
  | PyList l => negb (bool_decide (l = []))
  | PyDict d => match d with [] => false | _ => true end
  end.

(** *** Characters and strings *)

Definition dq : string := String "034"%char "".
Definition bs : string := String "092"%char "".
Definition nl : string := String "010"%char "".

Definition code (c : ascii) : N := N_of_ascii c.

(** [str.isspace] on one character. *)
Definition py_isspace (c : ascii) : bool :=
  let n := code c in
  ((9 <=? n) && (n <=? 13) || (28 <=? n) && (n <=? 32)
   || (n =? 133) || (n =? 160))%N.

(** [str.isprintable] on one character, as [repr] uses it. *)
Definition py_isprintable (c : ascii) : bool :=
  let n := code c in
  ((32 <=? n) && (n <=? 126) || (161 <=? n) && negb (n =? 173))%N.

Fixpoint drop_while (p : ascii -> bool) (s : string) : string :=
  match s with
  | String c r => if p c then drop_while p r else s
  | EmptyString => EmptyString
  end.

Definition strip_with (p : ascii -> bool) (s : string) : string :=
  String.rev (drop_while p (String.rev (drop_while p s))).

(** [s.strip()] *)
Definition strip (s : string) : string := strip_with py_isspace s.

Fixpoint contains_char (c : ascii) (s : string) : bool :=
  match s with
  | String d r => bool_decide (c = d) || contains_char c r
  | EmptyString => false
  end.

Definition hex_digit (n : N) : ascii :=
  ascii_of_N (if (n <? 10)%N then 48 + n else 87 + n)%N.

Definition repr_char (quote c : ascii) : string :=
  if bool_decide (c = quote) || bool_decide (c = "092"%char)
  then String "092"%char (String c "")
  else if bool_decide (c = "009"%char) then bs +:+ "t"
  else if bool_decide (c = "010"%char) then bs +:+ "n"
  else if bool_decide (c = "013"%char) then bs +:+ "r"
  else if py_isprintable c then String c ""
  else bs +:+ "x" +:+
       String (hex_digit (code c / 16)) (String (hex_digit (code c mod 16)) "").

Fixpoint repr_chars (quote : ascii) (s : string) : string :=
  match s with
  | String c r => repr_char quote c +:+ repr_chars quote r
  | EmptyString => EmptyString
  end.

(** [repr] of a [str]: single quotes unless the text holds a single quote
    and no double quote. *)
Definition str_repr (s : string) : string :=
  let quote : ascii :=
    if contains_char "039"%char s && negb (contains_char "034"%char s)
    then "034"%char else "039"%char in
  String quote (repr_chars quote s) +:+ String quote "".

Fixpoint join (sep : string) (l : list string) : string :=
  match l with
  | [] => ""
  | [x] => x
  | x :: r => x +:+ sep +:+ join sep r
  end.

Fixpoint py_repr (v : pyval) : string :=
  match v with
  | PyNone => "None"
  | PyBool true => "True"
  | PyBool false => "False"
  | PyInt n => pretty n
  | PyStr s => str_repr s
  | PyList l => "[" +:+ join ", " (map py_repr l) +:+ "]"
  | PyDict d =>
      "{" +:+ join ", " (map (fun kv => match kv with
                                        | (k, x) => str_repr k +:+ ": " +:+ py_repr x
                                        end) d) +:+ "}"
  end.

(** [str(v)], which is also what a replacement field [{v}] of an f-string
    inserts. *)
Definition py_str (v : pyval) : string :=
  match v with
  | PyStr s => s
  | _ => py_repr v
  end.

(** [int(s)] for a [str] argument: surrounding whitespace is dropped, a
    sign may lead, and single underscores may separate digits.  [None]
    stands for [ValueError].  The whitespace that [int] drops is the
    whitespace of C plus the spaces beyond ASCII: the separators 28-31,
    which [str.strip] removes, are not part of it. *)
Definition int_isspace (c : ascii) : bool :=
  let n := code c in
  ((9 <=? n) && (n <=? 13) || (n =? 32) || (n =? 133) || (n =? 160))%N.

Definition digit (c : ascii) : option Z :=
  let n := code c in
  if ((48 <=? n) && (n <=? 57))%N then Some (Z.of_N n - 48) else None.

Fixpoint int_digits (acc : Z) (s : string) : option Z :=
  match s with
  | EmptyString => Some acc
  | String c r =>
      match digit c with
      | Some d => int_digits (10 * acc + d) r
      | None =>
          if bool_decide (c = "_"%char)
          then match r with
               | String c' _ => if digit c' is Some _ then int_digits acc r else None
               | EmptyString => None
               end
          else None
      end
  end.

(** The digits of a literal, underscores apart. *)
Fixpoint digit_count (s : string) : nat :=
  match s with
  | EmptyString => O
  | String c r => if digit c is Some _ then S (digit_count r) else digit_count r
  end.

(** A literal of more than 4300 digits is refused, whatever its value
    ([sys.get_int_max_str_digits()]). *)
Definition int_unsigned (s : string) : option Z :=
  match s with
  | String c _ =>
      if digit c is Some _
      then if (4300 <? digit_count s)%nat then None else int_digits 0 s
      else None
  | EmptyString => None
  end.

Definition py_int (s : string) : option Z :=
  match strip_with int_isspace s with
  | String "-" r => Z.opp <$> int_unsigned r
  | String "+" r => int_unsigned r
  | t => int_unsigned t
  end.

(** ** Dates and times *)

(** A naive [datetime.datetime]. *)
Record datetime : Type := mkdatetime {
  year : Z; month : Z; day : Z;
  hour : Z; minute : Z; second : Z; microsecond : Z
}.

(** A naive [datetime.time]. *)
Record time : Type := mktime {
  t_hour : Z; t_minute : Z; t_second : Z; t_microsecond : Z
}.

(** [d.time()] *)
Definition datetime_time (d : datetime) : time :=
  mktime (hour d) (minute d) (second d) (microsecond d).

(** [a <= b] on [time] objects: the tuples (hour, minute, second,
    microsecond) are compared. *)
Definition time_le (a b : time) : bool :=
  if t_hour a =? t_hour b then
    if t_minute a =? t_minute b then
      if t_second a =? t_second b then t_microsecond a <=? t_microsecond b
      else t_second a <? t_second b
    else t_minute a <? t_minute b
  else t_hour a <? t_hour b.

(** The fields of a time of day are in range. *)
Definition time_valid (t : time) : Prop :=
  0 <= t_hour t < 24 /\ 0 <= t_minute t < 60 /\ 0 <= t_second t < 60 /\
  0 <= t_microsecond t < 1000000.

(** Microseconds since midnight. *)
Definition time_micros (t : time) : Z :=
  ((t_hour t * 60 + t_minute t) * 60 + t_second t) * 1000000 + t_microsecond t.

Fixpoint zeros (n : nat) : string :=
  match n with O => "" | S k => String "0" (zeros k) end.

(** A non-negative number in decimal, zero-filled to [width] characters. *)
Definition pad (width : nat) (n : Z) : string :=
  let s := pretty n in zeros (width - String.length s) +:+ s.

(** [d.isoformat()] *)
Definition isoformat (d : datetime) : string :=
  pad 4 (year d) +:+ "-" +:+ pad 2 (month d) +:+ "-" +:+ pad 2 (day d) +:+ "T" +:+
  pad 2 (hour d) +:+ ":" +:+ pad 2 (minute d) +:+ ":" +:+ pad 2 (second d) +:+
  (if microsecond d =? 0 then "" else "." +:+ pad 6 (microsecond d)).

(** [d.strftime('%H:%M:%S')] *)
Definition strftime_HMS (d : datetime) : string :=
  pad 2 (hour d) +:+ ":" +:+ pad 2 (minute d) +:+ ":" +:+ pad 2 (second d).

(** *** [datetime.strptime(s, "%H:%M").time()]

    [strptime] compiles the format to the regular expression
    [(?P<H>2[0-3]|[0-1]\d|\d):(?P<M>[0-5]\d|\d)], matches it at the start
    of the text and rejects text left over after the match.  The
    alternatives are tried in order, each with the rest of the pattern as
    its continuation. *)

Definition or_else {A} (x y : option A) : option A :=
  match x with Some _ => x | None => y end.

Definition digit_in (lo hi : Z) (c : ascii) : option Z :=
  match digit c with
  | Some d => if (lo <=? d) && (d <=? hi) then Some d else None
  | None => None
  end.

(** Two characters, the first in [[lo1-hi1]] and the second in
    [[lo2-hi2]], read as a number. *)
Definition two_digits {A} (lo1 hi1 lo2 hi2 : Z) (s : string)
    (k : Z -> string -> option A) : option A :=
  match s with
  | String a (String b r) =>
      match digit_in lo1 hi1 a, digit_in lo2 hi2 b with
      | Some x, Some y => k (10 * x + y) r
      | _, _ => None
      end
  | _ => None
  end.

Definition one_digit {A} (s : string) (k : Z -> string -> option A) : option A :=
  match s with
  | String a r => match digit a with Some x => k x r | None => None end
  | EmptyString => None
  end.

Definition re_H {A} (s : string) (k : Z -> string -> option A) : option A :=
  or_else (two_digits 2 2 0 3 s k)
    (or_else (two_digits 0 1 0 9 s k) (one_digit s k)).

Definition re_M {A} (s : string) (k : Z -> string -> option A) : option A :=
  or_else (two_digits 0 5 0 9 s k) (one_digit s k).

Definition re_colon {A} (s : string) (k : string -> option A) : option A :=
  match s with
  | String ":" r => k r
  | _ => None
  end.

(** The match of the whole pattern: hour, minute and the text after the
    match. *)
Definition re_HM (s : string) : option (Z * Z * string) :=
  re_H s (fun h r => re_colon r (fun r' => re_M r' (fun m rest => Some (h, m, rest)))).

(** [None] stands for [ValueError] (no match, or unconverted data
    remains). *)
Definition strptime_HM (s : string) : option time :=
  match re_HM s with
  | Some (h, m, "") => Some (mktime h m 0 0)
  | _ => None
  end.

(** ** Exceptions *)

Inductive exn_class : Type :=
  | AttributeError | KeyError | ValueError | TypeError | OSError
  | JSONDecodeError | EOFError | RuntimeError | KeyboardInterrupt | SystemExit
  | OverflowError.

(** An exception object: its class and [str(e)].  The text is exact where
    the program prints it (see [send_notification]) and descriptive
    elsewhere. *)
Record exn : Type := Exn { exn_cls : exn_class; exn_text : string }.

(** [except Exception] catches every class but the two that derive from
    [BaseException] only. *)
Definition is_Exception (e : exn) : bool :=
  match exn_cls e with
  | KeyboardInterrupt | SystemExit => false
  | _ => true
  end.

Definition is_KeyboardInterrupt (e : exn) : bool :=
  match exn_cls e with KeyboardInterrupt => true | _ => false end.

Definition is_ValueError (e : exn) : bool :=
  match exn_cls e with ValueError | JSONDecodeError => true | _ => false end.

(** A bare [except:] catches everything. *)
Definition any_exn (e : exn) : bool := true.

Definition key_error (k : string) : exn := Exn KeyError (str_repr k).

Definition attribute_error (name : string) : exn :=
  Exn AttributeError
    ("'WaterReminder' object has no attribute '" +:+ name +:+ "'").

Inductive result (A : Type) : Type :=
  | Ok (a : A)
  | Raise (e : exn).
Arguments Ok {A} a.
Arguments Raise {A} e.

(** ** The environment and the program state *)

(** ** Keys that are no strings

    [dict.update] with a JSON array of pairs can store keys that are
    [None], booleans or integers.  [True] and [1] are one key, as are
    [False] and [0]; the key object that was stored first stays. *)
Inductive pykey : Type :=
  | KNone
  | KBool (b : bool)
  | KInt (n : Z).

Definition key_number (k : pykey) : option Z :=
  match k with
  | KNone => None
  | KBool b => Some (if b then 1 else 0)
  | KInt n => Some n
  end.

(** [k1 == k2] *)
Definition same_key (k1 k2 : pykey) : bool :=
  bool_decide (key_number k1 = key_number k2).

(** The name under which [json.dump] writes the key. *)
Definition json_key (k : pykey) : string :=
  match k with
  | KNone => "null"
  | KBool true => "true"
  | KBool false => "false"
  | KInt n => pretty n
  end.

(** An item of the dictionary whose key is no string.  [after_name]
    tells whether the string key of the same name as [json_key] was in
    the dictionary when the item was stored: the item then follows that
    key in the order of the dictionary. *)
Record other_item : Type := OtherItem {
  item_key : pykey; item_value : pyval; after_name : bool
}.

(** What reading a file yields. *)
Inductive file : Type :=
  | Unreadable               (* [open] or [read] fails with [OSError] *)
  | Text (s : string)        (* text that [json.load] rejects *)
  | Document (v : pyval).    (* a JSON document, as the value it denotes *)

(** The collaborators of one run. *)
Record Env : Type := {
  (* the successive readings of [datetime.now()] *)
  clock : nat -> datetime;
  (* the n-th call of [notification.notify]: it returns, or raises *)
  notify : nat -> option exn;
  (* [schtasks /query /tn WaterReminder_Task]: the return code, or the
     call raises *)
  schtasks : option Z;
  (* Ctrl+C arrives during the sleep of this (0-based) index *)
  sigint_after : nat;
  (* [time.sleep(seconds)] for a length in range: the host sleeps, or
     refuses the length (Linux answers [OSError] to the longest ones) *)
  sleep_refused : Z -> option exn;
  (* [__file__], [os.path.abspath], [os.path.dirname] *)
  script : string;
  abspath : string -> string;
  dirname : string -> string;
  (* [datetime.fromisoformat]; [None] stands for [ValueError] *)
  fromisoformat : string -> option datetime;
  (* [from plyer import notification] succeeds *)
  plyer_installed : bool
}.

(** The [WaterReminder] object and what the run has done so far. *)
Record State : Type := {
  config_file : string;                 (* [self.config_file] *)
  config : gmap string pyval;           (* [self.config] *)
  files : gmap string file;             (* the working directory *)
  clock_reads : nat;                    (* readings of the clock taken *)
  notify_calls : nat;                   (* calls of the notifier made *)
  shown : list (pyval * pyval);         (* notifications displayed: title, message *)
  stdin : list string;                  (* lines still to be read *)
  stdout : list string;                 (* what was printed, oldest first *)
  (* the items of [self.config] whose keys are no strings, oldest first *)
  config_other : list other_item;
  (* [open(path, 'w')] and the write of this content: [None] when they
     succeed; otherwise the exception raised (the path is a directory, the
     file or the directory is read-only, the text cannot be encoded), and
     what the path holds afterwards when that is not what it held before
     (a file that was truncated before the failure) *)
  write_failure : string -> file -> option (exn * option file)
}.

Definition with_config_file (x : string) (s : State) : State :=
  {| config_file := x; config := config s; files := files s;
     clock_reads := clock_reads s; notify_calls := notify_calls s;
     shown := shown s; stdin := stdin s; stdout := stdout s;
     config_other := config_other s; write_failure := write_failure s |}.
Definition with_config (x : gmap string pyval) (s : State) : State :=
  {| config_file := config_file s; config := x; files := files s;
     clock_reads := clock_reads s; notify_calls := notify_calls s;
     shown := shown s; stdin := stdin s; stdout := stdout s;
     config_other := config_other s; write_failure := write_failure s |}.
Definition with_files (x : gmap string file) (s : State) : State :=
  {| config_file := config_file s; config := config s; files := x;
     clock_reads := clock_reads s; notify_calls := notify_calls s;
     shown := shown s; stdin := stdin s; stdout := stdout s;
     config_other := config_other s; write_failure := write_failure s |}.
Definition with_clock_reads (x : nat) (s : State) : State :=
  {| config_file := config_file s; config := config s; files := files s;
     clock_reads := x; notify_calls := notify_calls s;
     shown := shown s; stdin := stdin s; stdout := stdout s;
     config_other := config_other s; write_failure := write_failure s |}.
Definition with_notify_calls (x : nat) (s : State) : State :=
  {| config_file := config_file s; config := config s; files := files s;
     clock_reads := clock_reads s; notify_calls := x;
     shown := shown s; stdin := stdin s; stdout := stdout s;
     config_other := config_other s; write_failure := write_failure s |}.
Definition with_shown (x : list (pyval * pyval)) (s : State) : State :=
  {| config_file := config_file s; config := config s; files := files s;
     clock_reads := clock_reads s; notify_calls := notify_calls s;
     shown := x; stdin := stdin s; stdout := stdout s;
     config_other := config_other s; write_failure := write_failure s |}.
Definition with_stdin (x : list string) (s : State) : State :=
  {| config_file := config_file s; config := config s; files := files s;
     clock_reads := clock_reads s; notify_calls := notify_calls s;
     shown := shown s; stdin := x; stdout := stdout s;
     config_other := config_other s; write_failure := write_failure s |}.
Definition with_stdout (x : list string) (s : State) : State :=
  {| config_file := config_file s; config := config s; files := files s;
     clock_reads := clock_reads s; notify_calls := notify_calls s;
     shown := shown s; stdin := stdin s; stdout := x;
     config_other := config_other s; write_failure := write_failure s |}.

Definition with_config_other (x : list other_item) (s : State) : State :=
  {| config_file := config_file s; config := config s; files := files s;
     clock_reads := clock_reads s; notify_calls := notify_calls s;
     shown := shown s; stdin := stdin s; stdout := stdout s;
     config_other := x; write_failure := write_failure s |}.
Definition with_write_failure
    (x : string -> file -> option (exn * option file)) (s : State) : State :=
  {| config_file := config_file s; config := config s; files := files s;
     clock_reads := clock_reads s; notify_calls := notify_calls s;
     shown := shown s; stdin := stdin s; stdout := stdout s;
     config_other := config_other s; write_failure := x |}.

(** ** The monad of statements *)

Definition M (A : Type) : Type := State -> result A * State.

Definition ret {A} (a : A) : M A := fun s => (Ok a, s).

Definition bind {A B} (m : M A) (k : A -> M B) : M B :=
  fun s => match m s with
           | (Ok a, s') => k a s'
           | (Raise e, s') => (Raise e, s')
           end.

Definition raise {A} (e : exn) : M A := fun s => (Raise e, s).

(** [try: body  except <caught> as e: handler e] *)
Definition try_except {A} (body : M A) (caught : exn -> bool)
    (handler : exn -> M A) : M A :=
  fun s => match body s with
           | (Raise e, s') => if caught e then handler e s' else (Raise e, s')
           | r => r
           end.

Definition gets {A} (f : State -> A) : M A := fun s => (Ok (f s), s).
Definition modify (f : State -> State) : M unit := fun s => (Ok tt, f s).

Declare Scope py_scope.
Delimit Scope py_scope with py.
Notation "x <- m ;; k" := (bind m (fun x => k))
  (at level 100, m at next level, right associativity) : py_scope.
Notation "m ;; k" := (bind m (fun _ => k))
  (at level 100, right associativity) : py_scope.
Open Scope py_scope.

Definition when (b : bool) (m : M unit) : M unit := if b then m else ret tt.

(** *** Built-in statements *)

(** [print(line)] *)
Definition print (line : string) : M unit :=
  modify (fun s => with_stdout (stdout s ++ [line]) s).

(** [input(prompt)]: the prompt is written, one line is read;
    [EOFError] at the end of the input. *)
Definition input (prompt : string) : M string :=
  print prompt ;;
  l <- gets stdin ;;
  match l with
  | line :: rest => modify (with_stdin rest) ;; ret line
  | [] => raise (Exn EOFError "EOF when reading a line")
  end.

(** [os.path.exists(path)] *)
Definition path_exists (path : string) : M bool :=
  gets (fun s => bool_decide (is_Some (files s !! path))).

(** [open(path, 'w')] and the write of [content], as one step: the file
    holds the content afterwards, or the step raises and the path holds
    what the host left there. *)
Definition open_write (path : string) (content : file) : M unit :=
  fun s =>
    match write_failure s path content with
    | None => (Ok tt, with_files (<[path := content]> (files s)) s)
    | Some (e, None) => (Raise e, s)
    | Some (e, Some f) => (Raise e, with_files (<[path := f]> (files s)) s)
    end.

(** [with open(path, 'w') as f: f.write(text)] *)
Definition write_text (path text : string) : M unit :=
  open_write path (Text text).

(** [with open(path, 'w') as f: json.dump(v, f, indent=2)], for the
    value [v] that the text written denotes. *)
Definition json_dump (path : string) (v : pyval) : M unit :=
  open_write path (Document v).

(** [with open(path, 'r') as f: json.load(f)] *)
Definition json_load (path : string) : M pyval :=
  f <- gets (fun s => files s !! path) ;;
  match f with
  | None => raise (Exn OSError "No such file or directory")
  | Some Unreadable => raise (Exn OSError "cannot read")
  | Some (Text _) => raise (Exn JSONDecodeError "Expecting value")
  | Some (Document v) => ret v
  end.

(** ** Dictionaries *)

(** [d.update(other)] with a mapping argument stores every member of
    [other]; with any other argument it iterates over it and takes each
    element as a key/value pair.  The function returns the dictionary as
    the call leaves it, and the exception that ended the call early, if
    any: what was stored before the failure stays stored.

    An element is turned into a pair by iterating over it: a list gives
    its items, a string its characters, a dictionary its keys. *)
Definition pair_of (e : pyval) : exn + pyval * pyval :=
  match e with
  | PyList [k; v] => inr (k, v)
  | PyStr (String a (String b "")) => inr (PyStr (String a ""), PyStr (String b ""))
  | PyDict [(k1, _); (k2, _)] => inr (PyStr k1, PyStr k2)
  | PyList _ | PyStr _ | PyDict _ =>
      inl (Exn ValueError "dictionary update sequence element has wrong length")
  | PyNone | PyBool _ | PyInt _ =>
      inl (Exn TypeError "cannot convert dictionary update sequence element to a sequence")
  end.

(** The string keys after the update.  Keys that are not strings
    ([None], booleans, integers) can enter the dictionary only here; no
    statement of the program reads them, and they are kept apart (see
    [others_from_pairs]).  A list or a dictionary is not hashable. *)
Fixpoint update_from_pairs (d : gmap string pyval) (es : list pyval)
    : gmap string pyval * option exn :=
  match es with
  | [] => (d, None)
  | e :: rest =>
      match pair_of e with
      | inl x => (d, Some x)
      | inr (PyStr k, v) => update_from_pairs (<[k := v]> d) rest
      | inr (PyNone, _) | inr (PyBool _, _) | inr (PyInt _, _) =>
          update_from_pairs d rest
      | inr (PyList _, _) | inr (PyDict _, _) =>
          (d, Some (Exn TypeError "unhashable type"))
      end
  end.

(** [d[k] = v] for a key that is no string: the value of an equal key is
    replaced, a new key is added at the end. *)
Definition other_store (d : gmap string pyval) (o : list other_item)
    (k : pykey) (v : pyval) : list other_item :=
  if existsb (fun i => same_key (item_key i) k) o
  then map (fun i => if same_key (item_key i) k
                     then OtherItem (item_key i) v (after_name i)
                     else i) o
  else o ++ [OtherItem k v (bool_decide (is_Some (d !! json_key k)))].

(** The keys that are no strings after the update that
    [update_from_pairs] describes: the same pairs, taken in the same
    order and up to the same failure. *)
Fixpoint others_from_pairs (d : gmap string pyval) (o : list other_item)
    (es : list pyval) : list other_item :=
  match es with
  | [] => o
  | e :: rest =>
      match pair_of e with
      | inl _ => o
      | inr (PyStr k, v) => others_from_pairs (<[k := v]> d) o rest
      | inr (PyNone, v) => others_from_pairs d (other_store d o KNone v) rest
      | inr (PyBool b, v) => others_from_pairs d (other_store d o (KBool b) v) rest
      | inr (PyInt n, v) => others_from_pairs d (other_store d o (KInt n) v) rest
      | inr (PyList _, _) | inr (PyDict _, _) => o
      end
  end.

Definition update_from_members (d : gmap string pyval)
    (kvs : list (string * pyval)) : gmap string pyval :=
  foldl (fun acc kv => <[kv.1 := kv.2]> acc) d kvs.

Definition dict_update (d : gmap string pyval) (other : pyval)
    : gmap string pyval * option exn :=
  match other with
  | PyDict kvs => (update_from_members d kvs, None)
  | PyList es => update_from_pairs d es
  | PyStr "" => (d, None)
  | PyStr _ =>
      (d, Some (Exn ValueError "dictionary update sequence element #0 has length 1; 2 is required"))
  | PyNone | PyBool _ | PyInt _ =>
      (d, Some (Exn TypeError "object is not iterable"))
  end.

(** The keys that are no strings after [d.update(other)]. *)
Definition dict_update_other (d : gmap string pyval) (o : list other_item)
    (other : pyval) : list other_item :=
  match other with
  | PyList es => others_from_pairs d o es
  | _ => o
  end.

(** The value that the text of [json.dump(d)] denotes: every key is
    written under its name, in the order of the dictionary, and of two
    members of one name the later one is read back. *)
Definition dumped (c : gmap string pyval) (o : list other_item)
    : gmap string pyval :=
  foldl (fun acc i =>
           let name := json_key (item_key i) in
           if bool_decide (is_Some (c !! name)) && negb (after_name i)
           then acc
           else <[name := item_value i]> acc)
        c o.

Definition settings_document (c : gmap string pyval) (o : list other_item)
    : pyval :=
  PyDict (map_to_list (dumped c o)).

(** [self.config[key]] *)
Definition getitem (key : string) : M pyval :=
  c <- gets config ;;
  match c !! key with
  | Some v => ret v
  | None => raise (key_error key)
  end.

(** [self.config[key] = v] *)
Definition setitem (key : string) (v : pyval) : M unit :=
  modify (fun s => with_config (<[key := v]> (config s)) s).

(** [self.config.get(key)] *)
Definition config_get (key : string) : M pyval :=
  gets (fun s => default PyNone (config s !! key)).

(** [d[key]] on a value. *)
Definition py_getitem (d : pyval) (key : string) : M pyval :=
  match d with
  | PyDict kvs =>
      match list_find (fun kv => kv.1 = key) kvs with
      | Some (_, (_, v)) => ret v
      | None => raise (key_error key)
      end
  | _ => raise (Exn TypeError "object is not subscriptable")
  end.

(** [v * k] for an integer [k]. *)
Definition py_mul (v : pyval) (k : Z) : M pyval :=
  match v with
  | PyInt n => ret (PyInt (n * k))
  | PyBool b => ret (PyInt ((if b then 1 else 0) * k))
  | PyStr s => ret (PyStr (fold_right String.app "" (replicate (Z.to_nat k) s)))
  | PyList l => ret (PyList (concat (replicate (Z.to_nat k) l)))
  | PyNone | PyDict _ =>
      raise (Exn TypeError "unsupported operand type(s) for *")
  end.

(** ** class WaterReminder *)

Section WaterReminder.

Variable E : Env.

(** [datetime.now()] *)
Definition datetime_now : M datetime :=
  n <- gets clock_reads ;;
  modify (with_clock_reads (S n)) ;;
  ret (clock E n).

(** [notification.notify(title=..., message=..., app_name="Water Reminder",
    timeout=10)] *)
Definition notification_notify (title message : pyval) : M unit :=
  n <- gets notify_calls ;;
  modify (with_notify_calls (S n)) ;;
  match notify E n with
  | None => modify (fun s => with_shown (shown s ++ [(title, message)]) s)
  | Some e => raise e
  end.

(** [datetime.strptime(v, "%H:%M").time()] *)
Definition strptime_time (v : pyval) : M time :=
  match v with
  | PyStr s =>
      match strptime_HM s with
      | Some t => ret t
      | None => raise (Exn ValueError
                         ("time data " +:+ str_repr s +:+ " does not match format '%H:%M'"))
      end
  | _ => raise (Exn TypeError "strptime() argument 1 must be str")
  end.

(** [time.sleep(n)] for an integer [n]; [interrupted] tells whether
    Ctrl+C arrives during this sleep.  The length is converted to a 64-bit
    count of nanoseconds first, then its sign is tested, then the host is
    asked to sleep. *)
Definition sleep_seconds (n : Z) (interrupted : bool) : M unit :=
  if (n <? -9223372036) || (9223372036 <? n)
  then raise (Exn OverflowError "timestamp too large to convert to C _PyTime_t")
  else if n <? 0 then raise (Exn ValueError "sleep length must be non-negative")
  else match sleep_refused E n with
       | Some e => raise e
       | None => if interrupted then raise (Exn KeyboardInterrupt "")
                 else ret tt
       end.

(** [time.sleep(v)]: a boolean counts as the integer it is. *)
Definition time_sleep (v : pyval) (interrupted : bool) : M unit :=
  match v with
  | PyInt n => sleep_seconds n interrupted
  | PyBool b => sleep_seconds (if b then 1 else 0) interrupted
  | _ => raise (Exn TypeError "an integer is required")
  end.

Definition default_config : gmap string pyval :=
  list_to_map
    [ ("interval_minutes", PyInt 60);
      ("start_time", PyStr "08:00");
      ("end_time", PyStr "22:00");
      ("message", PyStr "💧 Time to drink water! Stay hydrated! 💧");
      ("title", PyStr "Water Reminder");
      ("sound_enabled", PyBool true);
      ("last_reminder", PyNone) ].

(** [load_config]: the bare [except: pass] swallows whatever the read, the
    parse or the update raises, and the dictionary is returned as the
    update left it. *)
Definition load_config : M (gmap string pyval) :=
  path <- gets config_file ;;
  present <- path_exists path ;;
  if present then
    try_except
      (loaded_config <- json_load path ;;
       ret (dict_update default_config loaded_config).1)
      any_exn
      (fun _ => ret default_config)
  else ret default_config.

(** The keys that are no strings of the dictionary that [load_config]
    returns: the same statements, for the other part of the dictionary. *)
Definition load_config_other : M (list other_item) :=
  path <- gets config_file ;;
  present <- path_exists path ;;
  if present then
    try_except
      (loaded_config <- json_load path ;;
       ret (dict_update_other default_config [] loaded_config))
      any_exn
      (fun _ => ret [])
  else ret [].

(** [__init__] *)
Definition WaterReminder_init (config_file : string) : M unit :=
  modify (with_config_file config_file) ;;
  c <- load_config ;;
  o <- load_config_other ;;
  modify (fun s => with_config_other o (with_config c s)).

Definition save_config : M unit :=
  path <- gets config_file ;;
  c <- gets config ;;
  o <- gets config_other ;;
  json_dump path (settings_document c o).

Definition send_notification : M bool :=
  try_except
    (title <- getitem "title" ;;
     message <- getitem "message" ;;
     notification_notify title message ;;
     now <- datetime_now ;;
     print ("Notification sent at " +:+ strftime_HMS now) ;;
     ret true)
    is_Exception
    (fun e =>
       print ("Error sending notification: " +:+ exn_text e) ;;
       ret false).

Definition is_within_active_hours : M bool :=
  now <- datetime_now ;;
  let now := datetime_time now in
  s <- getitem "start_time" ;;
  start_time <- strptime_time s ;;
  e <- getitem "end_time" ;;
  end_time <- strptime_time e ;;
  ret (time_le start_time now && time_le now end_time).

(** The body of [while True:], run until Ctrl+C arrives during the sleep
    that is [n] sleeps ahead. *)
Fixpoint continuous_loop (n : nat) : M unit :=
  active <- is_within_active_hours ;;
  when active
    (send_notification ;;
     now <- datetime_now ;;
     setitem "last_reminder" (PyStr (isoformat now)) ;;
     save_config) ;;
  interval <- getitem "interval_minutes" ;;
  seconds <- py_mul interval 60 ;;
  match n with
  | O => time_sleep seconds true
  | S n' => time_sleep seconds false ;; continuous_loop n'
  end.

Definition run_continuous : M unit :=
  print "Water reminder started!" ;;
  interval <- getitem "interval_minutes" ;;
  print ("Interval: " +:+ py_str interval +:+ " minutes") ;;
  s <- getitem "start_time" ;;
  e <- getitem "end_time" ;;
  print ("Active hours: " +:+ py_str s +:+ " - " +:+ py_str e) ;;
  print "Press Ctrl+C to stop" ;;
  try_except
    (continuous_loop (sigint_after E))
    is_KeyboardInterrupt
    (fun _ => print (nl +:+ "Water reminder stopped.")).

Definition create_task_scheduler_batch : M string :=
  let script_content :=
    "@echo off" +:+ nl +:+
    "cd /d " +:+ dq +:+ dirname E (abspath E (script E)) +:+ dq +:+ nl +:+
    "python " +:+ dq +:+ abspath E (script E) +:+ dq +:+ " --notify" +:+ nl in
  let script_path := "water_reminder_task.bat" in
  write_text script_path script_content ;;
  print ("✅ Created batch script: " +:+ script_path) ;;
  ret (abspath E script_path).

(** The lines of the descriptor that precede the interval field, lie
    between the three configured fields, and follow them. *)
Definition xml_head : list string :=
  [ "<?xml version=" +:+ dq +:+ "1.0" +:+ dq +:+ " encoding=" +:+ dq +:+ "UTF-16" +:+ dq +:+ "?>";
    "<Task version=" +:+ dq +:+ "1.4" +:+ dq +:+ " xmlns=" +:+ dq +:+
      "http://schemas.microsoft.com/windows/2004/02/mit/task" +:+ dq +:+ ">";
    "  <RegistrationInfo>";
    "    <Date>2024-01-01T12:00:00</Date>";
    "    <Author>Water Reminder</Author>";
    "    <Description>Reminds you to drink water regularly</Description>";
    "  </RegistrationInfo>";
    "  <Triggers>";
    "    <TimeTrigger>";
    "      <Repetition>" ].

Definition xml_after_interval : list string :=
  [ "        <StopAtDurationEnd>false</StopAtDurationEnd>";
    "      </Repetition>" ].

Definition xml_after_boundaries : list string :=
  [ "      <ExecutionTimeLimit>PT1M</ExecutionTimeLimit>";
    "      <Enabled>true</Enabled>";
    "    </TimeTrigger>";
    "  </Triggers>";
    "  <Principals>";
    "    <Principal id=" +:+ dq +:+ "Author" +:+ dq +:+ ">";
    "      <LogonType>InteractiveToken</LogonType>";
    "      <RunLevel>LeastPrivilege</RunLevel>";
    "    </Principal>";
    "  </Principals>";
    "  <Settings>";
    "    <MultipleInstancesPolicy>IgnoreNew</MultipleInstancesPolicy>";
    "    <DisallowStartIfOnBatteries>false</DisallowStartIfOnBatteries>";
    "    <StopIfGoingOnBatteries>false</StopIfGoingOnBatteries>";
    "    <AllowHardTerminate>true</AllowHardTerminate>";
    "    <StartWhenAvailable>false</StartWhenAvailable>";
    "    <RunOnlyIfNetworkAvailable>false</RunOnlyIfNetworkAvailable>";
    "    <IdleSettings>";
    "      <StopOnIdleEnd>true</StopOnIdleEnd>";
    "      <RestartOnIdle>false</RestartOnIdle>";
    "    </IdleSettings>";
    "    <AllowStartOnDemand>true</AllowStartOnDemand>";
    "    <Enabled>true</Enabled>";
    "    <Hidden>false</Hidden>";
    "    <RunOnlyIfIdle>false</RunOnlyIfIdle>";
    "    <DisallowStartOnRemoteAppSession>false</DisallowStartOnRemoteAppSession>";
    "    <UseUnifiedSchedulingEngine>true</UseUnifiedSchedulingEngine>";
    "    <WakeToRun>false</WakeToRun>";
    "    <ExecutionTimeLimit>PT1M</ExecutionTimeLimit>";
    "    <Priority>7</Priority>";
    "  </Settings>";
    "  <Actions Context=" +:+ dq +:+ "Author" +:+ dq +:+ ">";
    "    <Exec>" ].

Definition interval_field (interval : pyval) : string :=
  "        <Interval>PT" +:+ py_str interval +:+ "M</Interval>".
Definition start_boundary_field (start_time : pyval) : string :=
  "      <StartBoundary>2024-01-01T" +:+ py_str start_time +:+ ":00</StartBoundary>".
Definition end_boundary_field (end_time : pyval) : string :=
  "      <EndBoundary>2024-01-01T" +:+ py_str end_time +:+ ":00</EndBoundary>".

(** The f-string of [create_task_scheduler_xml], line by line. *)
Definition xml_content (interval start_time end_time : pyval)
    (batch_path : string) : string :=
  join nl
    (xml_head ++
     [ interval_field interval ] ++
     xml_after_interval ++
     [ start_boundary_field start_time;
       end_boundary_field end_time ] ++
     xml_after_boundaries ++
     [ "      <Command>" +:+ batch_path +:+ "</Command>";
       "      <WorkingDirectory>" +:+ dirname E batch_path +:+ "</WorkingDirectory>";
       "    </Exec>";
       "  </Actions>";
       "</Task>" ]).

Definition create_task_scheduler_xml (batch_path : string) : M string :=
  interval <- getitem "interval_minutes" ;;
  start_time <- getitem "start_time" ;;
  end_time <- getitem "end_time" ;;
  let xml_path := "WaterReminder_Task.xml" in
  write_text xml_path (xml_content interval start_time end_time batch_path) ;;
  print ("✅ Created Task Scheduler XML: " +:+ xml_path) ;;
  ret (abspath E xml_path).

Definition setup_task_scheduler : M unit :=
  print "🔧 Setting up Windows Task Scheduler..." ;;
  print (fold_right String.app "" (replicate 50 "=")) ;;
  batch_path <- create_task_scheduler_batch ;;
  xml_path <- create_task_scheduler_xml batch_path ;;
  print (nl +:+ "📋 SETUP INSTRUCTIONS:") ;;
  print (fold_right String.app "" (replicate 30 "=")) ;;
  print (nl +:+ "🎯 METHOD 1 - Easy Import (Recommended):") ;;
  print "1. Press Win + R, type 'taskschd.msc' and press Enter" ;;
  print "2. In Task Scheduler, click 'Import Task...' in the right panel" ;;
  print ("3. Browse and select: " +:+ xml_path) ;;
  print "4. Click 'OK' to import the task" ;;
  print "5. The task 'WaterReminder_Task' will be created automatically!" ;;
  print (nl +:+ "🔧 METHOD 2 - Manual Setup:") ;;
  print "1. Press Win + R, type 'taskschd.msc' and press Enter" ;;
  print "2. Click 'Create Basic Task...' in the right panel" ;;
  print "3. Name: 'Water Reminder'" ;;
  print "4. Trigger: Select 'Daily'" ;;
  print "5. Start time: Set to your preferred start time" ;;
  print "6. Action: 'Start a program'" ;;
  print ("7. Program/script: " +:+ batch_path) ;;
  print "8. In Advanced settings:" ;;
  interval <- getitem "interval_minutes" ;;
  print ("   - Check 'Repeat task every: " +:+ py_str interval +:+ " minutes'") ;;
  print "   - For a duration of: 14 hours (or your active period)" ;;
  print "9. Click 'Finish'" ;;
  print (nl +:+ "✅ VERIFICATION:") ;;
  print "- You can test the task by right-clicking it and selecting 'Run'" ;;
  print "- Check 'Task Scheduler Library' to see your created task" ;;
  print "- The task will run automatically based on your schedule" ;;
  print (nl +:+ "⚙️  CURRENT SETTINGS:") ;;
  interval <- getitem "interval_minutes" ;;
  print ("- Interval: Every " +:+ py_str interval +:+ " minutes") ;;
  s <- getitem "start_time" ;;
  e <- getitem "end_time" ;;
  print ("- Active hours: " +:+ py_str s +:+ " to " +:+ py_str e) ;;
  message <- getitem "message" ;;
  print ("- Message: " +:+ py_str message) ;;
  print (nl +:+ "📁 FILES CREATED:") ;;
  print ("- Batch file: " +:+ batch_path) ;;
  print ("- XML file: " +:+ xml_path) ;;
  path <- gets config_file ;;
  print ("- Config file: " +:+ abspath E path).

(** [subprocess.run(['schtasks', '/query', '/tn', 'WaterReminder_Task'], ...)],
    giving the return code. *)
Definition subprocess_run_schtasks : M Z :=
  match schtasks E with
  | Some returncode => ret returncode
  | None => raise (Exn OSError "schtasks could not be run")
  end.

Definition check_task_scheduler_status : M bool :=
  try_except
    (returncode <- subprocess_run_schtasks ;;
     ret (returncode =? 0))
    any_exn
    (fun _ => ret false).

(** [get_status_info] ends at [return status]; the statements that follow
    it in the source (a docstring and a comparison of the time since
    [last_reminder] with the interval) are never executed. *)
Definition get_status_info : M pyval :=
  batch_exists <- path_exists "water_reminder_task.bat" ;;
  xml_exists <- path_exists "WaterReminder_Task.xml" ;;
  task_exists <- check_task_scheduler_status ;;
  last_reminder <- config_get "last_reminder" ;;
  is_active_time <- is_within_active_hours ;;
  ret (PyDict
         [ ("files_created", PyBool (batch_exists && xml_exists));
           ("task_scheduled", PyBool task_exists);
           ("last_reminder", last_reminder);
           ("is_active_time", PyBool is_active_time) ]).

(** [int(text)] as a statement. *)
Definition int_of (text : string) : M Z :=
  match py_int text with
  | Some n => ret n
  | None => raise (Exn ValueError
                     ("invalid literal for int() with base 10: " +:+ str_repr text))
  end.

(** [if text.strip():] *)
Definition nonblank (text : string) : bool :=
  truthy (PyStr (strip text)).

Definition configure : M unit :=
  print "=== Water Reminder Configuration ===" ;;
  current_interval <- getitem "interval_minutes" ;;
  new_interval <- input ("Reminder interval in minutes (current: " +:+
                         py_str current_interval +:+ "): ") ;;
  when (nonblank new_interval)
    (try_except
       (n <- int_of new_interval ;;
        setitem "interval_minutes" (PyInt n))
       is_ValueError
       (fun _ => print "Invalid interval, keeping current value")) ;;
  s <- getitem "start_time" ;;
  e <- getitem "end_time" ;;
  print ("Current active hours: " +:+ py_str s +:+ " - " +:+ py_str e) ;;
  new_start <- input "Start time (HH:MM, or press Enter to keep current): " ;;
  when (nonblank new_start) (setitem "start_time" (PyStr new_start)) ;;
  new_end <- input "End time (HH:MM, or press Enter to keep current): " ;;
  when (nonblank new_end) (setitem "end_time" (PyStr new_end)) ;;
  message <- getitem "message" ;;
  print ("Current message: " +:+ py_str message) ;;
  new_message <- input "New message (or press Enter to keep current): " ;;
  when (nonblank new_message) (setitem "message" (PyStr new_message)) ;;
  save_config ;;
  print "✅ Configuration saved!" ;;
  print (nl +:+ "⚠️  Note: If you already set up Task Scheduler, you may need to") ;;
  print "update the task or recreate it to use the new settings.".

(** *** Method calls on the instance

    [reminder.name()] looks [name] up in the class.  The table lists what
    the class body defines, each method with its result as a Python
    value; a name it does not list raises [AttributeError].  (The names
    inherited from [object] are not listed: the program calls none.) *)

Definition as_bool (m : M bool) : M pyval := b <- m ;; ret (PyBool b).
Definition as_none (m : M unit) : M pyval := m ;; ret PyNone.

Definition WaterReminder_class : list (string * M pyval) :=
  [ ("__init__", as_none (WaterReminder_init "water_reminder_config.json"));
    ("load_config", c <- load_config ;; ret (PyDict (map_to_list c)));
    ("save_config", as_none save_config);
    ("send_notification", as_bool send_notification);
    ("is_within_active_hours", as_bool is_within_active_hours);
    ("run_continuous", as_none run_continuous);
    ("create_task_scheduler_batch", p <- create_task_scheduler_batch ;; ret (PyStr p));
    ("create_task_scheduler_xml",
       raise (Exn TypeError "missing 1 required positional argument: 'batch_path'"));
    ("setup_task_scheduler", as_none setup_task_scheduler);
    ("check_task_scheduler_status", as_bool check_task_scheduler_status);
    ("get_status_info", get_status_info);
    ("configure", as_none configure) ].

Fixpoint class_lookup (name : string) (table : list (string * M pyval))
    : option (M pyval) :=
  match table with
  | [] => None
  | (n, m) :: rest => if String.eqb n name then Some m else class_lookup name rest
  end.

(** [reminder.name()] *)
Definition call (name : string) : M pyval :=
  match class_lookup name WaterReminder_class with
  | Some m => m
  | None => raise (attribute_error name)
  end.

(** ** main *)

(** The flags as [argparse] returns them. *)
Record Args : Type := {
  arg_notify : bool; arg_continuous : bool; arg_configure : bool; arg_setup : bool
}.

(** [datetime.fromisoformat(v)] *)
Definition fromisoformat_of (v : pyval) : M datetime :=
  match v with
  | PyStr s =>
      match fromisoformat E s with
      | Some d => ret d
      | None => raise (Exn ValueError ("Invalid isoformat string: " +:+ str_repr s))
      end
  | _ => raise (Exn TypeError "fromisoformat: argument must be str")
  end.

(** The menu entry "Send test notification", written out three times in
    the source. *)
Definition test_notification : M unit :=
  sent <- call "send_notification" ;;
  if truthy sent then print "✅ Test notification sent!"
  else print "❌ Failed to send notification".

Definition call_ (name : string) : M unit := call name ;; ret tt.

Definition menu_scheduled : M unit :=
  print "🎉 Your water reminder is running automatically!" ;;
  print "1. Send test notification" ;;
  print "2. Configure settings" ;;
  print "3. View detailed status" ;;
  print "4. Re-setup Task Scheduler" ;;
  print "5. Run continuously (manual mode)" ;;
  print "6. Exit" ;;
  choice <- input "Choose option (1-6): " ;;
  if String.eqb choice "1" then test_notification
  else if String.eqb choice "2" then call_ "configure"
  else if String.eqb choice "3" then call_ "show_detailed_status"
  else if String.eqb choice "4" then call_ "setup_task_scheduler"
  else if String.eqb choice "5" then call_ "run_continuous"
  else if String.eqb choice "6" then print "Goodbye! Stay hydrated! 💧"
  else print "Invalid choice".

Definition menu_not_scheduled : M unit :=
  print "⚠️  Task Scheduler task not found. You may need to set it up." ;;
  print "1. Setup Task Scheduler" ;;
  print "2. Send test notification" ;;
  print "3. Configure settings" ;;
  print "4. Run continuously (manual mode)" ;;
  print "5. Exit" ;;
  choice <- input "Choose option (1-5): " ;;
  if String.eqb choice "1" then call_ "setup_task_scheduler"
  else if String.eqb choice "2" then test_notification
  else if String.eqb choice "3" then call_ "configure"
  else if String.eqb choice "4" then call_ "run_continuous"
  else if String.eqb choice "5" then print "Goodbye! Stay hydrated! 💧"
  else print "Invalid choice".

Definition menu_welcome : M unit :=
  print "🚀 Welcome! Let's set up your water reminder." ;;
  print "1. Setup Task Scheduler (recommended - works in background)" ;;
  print "2. Run continuously (keep program running)" ;;
  print "3. Configure settings first" ;;
  print "4. Send test notification" ;;
  print "5. Exit" ;;
  choice <- input "Choose option (1-5): " ;;
  if String.eqb choice "1" then call_ "setup_task_scheduler"
  else if String.eqb choice "2" then call_ "run_continuous"
  else if String.eqb choice "3" then call_ "configure"
  else if String.eqb choice "4" then test_notification
  else if String.eqb choice "5" then print "Goodbye! Stay hydrated! 💧"
  else print "Invalid choice".

(** The branch of [main] taken when no flag is given. *)
Definition interactive : M unit :=
  batch_exists <- path_exists "water_reminder_task.bat" ;;
  xml_exists <- path_exists "WaterReminder_Task.xml" ;;
  print "🚰 === Windows Water Reminder ===" ;;
  status <- call "get_status_info" ;;
  print "🚰 === Windows Water Reminder ===" ;;
  files_created <- py_getitem status "files_created" ;;
  if truthy files_created then
    print "📊 STATUS:" ;;
    print "✅ Setup files: Created" ;;
    scheduled <- py_getitem status "task_scheduled" ;;
    scheduled' <- py_getitem status "task_scheduled" ;;
    print ((if truthy scheduled then "✅" else "❌") +:+ " Task Scheduler: " +:+
           (if truthy scheduled' then "Active" else "Not found")) ;;
    last_reminder <- py_getitem status "last_reminder" ;;
    (if truthy last_reminder then
       last_reminder <- py_getitem status "last_reminder" ;;
       d <- fromisoformat_of last_reminder ;;
       print ("🕒 Last reminder: " +:+ strftime_HMS d)
     else ret tt) ;;
    active <- py_getitem status "is_active_time" ;;
    s <- getitem "start_time" ;;
    e <- getitem "end_time" ;;
    print ("⏰ Currently " +:+ (if truthy active then "ACTIVE" else "INACTIVE") +:+
           " (Active: " +:+ py_str s +:+ "-" +:+ py_str e +:+ ")") ;;
    print "" ;;
    scheduled <- py_getitem status "task_scheduled" ;;
    if truthy scheduled then menu_scheduled else menu_not_scheduled
  else menu_welcome.

(** The branch of [main] taken under [--notify]: [a and b] evaluates [b]
    only when [a] is true. *)
Definition notify_once : M unit :=
  active <- call "is_within_active_hours" ;;
  fire <- (if truthy active then call "check_reminder_due" else ret active) ;;
  if truthy fire then
    sent <- call "send_notification" ;;
    if truthy sent then
      now <- datetime_now ;;
      setitem "last_reminder" (PyStr (isoformat now)) ;;
      call_ "save_config"
    else ret tt
  else ret tt.

Definition main (args : Args) : M unit :=
  WaterReminder_init "water_reminder_config.json" ;;
  if arg_notify args then notify_once
  else if arg_continuous args then call_ "run_continuous"
  else if arg_configure args then call_ "configure"
  else if arg_setup args then call_ "setup_task_scheduler"
  else interactive.

(** The module as run: the import of the notification library comes
    first, and its failure ends the process. *)
Definition program (args : Args) : M unit :=
  if plyer_installed E then main args
  else
    print "plyer not found. Install it with: pip install plyer" ;;
    raise (Exn SystemExit "1").

End WaterReminder.

(** ** Vocabulary of the properties *)

(** The fields of the settings record. *)
Definition documented_fields : list string :=
  [ "interval_minutes"; "start_time"; "end_time"; "message"; "title";
    "sound_enabled"; "last_reminder" ].

(** The record holds every documented field. *)
Definition has_all_fields (c : gmap string pyval) : bool :=
  forallb (fun k => bool_decide (is_Some (c !! k))) documented_fields.

(** The value that a settings file associates with a field name: a member
    of the JSON object, or a pair in a JSON array of pairs. *)
Definition stored_on_disk (s : State) (k : string) (v : pyval) : Prop :=
  match files s !! config_file s with
  | Some (Document (PyDict kvs)) => (k, v) ∈ kvs
  | Some (Document (PyList es)) => exists e, e ∈ es /\ pair_of e = inr (PyStr k, v)
  | _ => False
  end.

(** The last member of an object with the given name. *)
Definition last_member (k : string) (kvs : list (string * pyval)) : option pyval :=
  snd <$> last (filter (fun kv => kv.1 = k) kvs).

(** The host lets the path be written, whatever the content. *)
Definition writable (s : State) (path : string) : Prop :=
  forall content, write_failure s path content = None.

(** ** Sample environments and states *)

(** A clock that reads 09:00:00, 09:00:01, ... on 1 May 2024. *)
Definition morning_clock (n : nat) : datetime :=
  mkdatetime 2024 5 1 9 0 (Z.of_nat n) 0.

(** A host where everything works: notifications are displayed and the
    scheduled task is registered.  Ctrl+C arrives during the first
    sleep. *)
Definition working_env : Env :=
  {| clock := morning_clock;
     notify := fun _ => None;
     schtasks := Some 0;
     sigint_after := 0;
     sleep_refused := fun _ => None;
     script := "main.py";
     abspath := fun p => "C:/water/" +:+ p;
     dirname := fun _ => "C:/water";
     fromisoformat := fun _ => None;
     plyer_installed := true |}.

(** The same host with a notifier that raises on every call. *)
Definition failing_notifier_env : Env :=
  {| clock := morning_clock;
     notify := fun _ => Some (Exn RuntimeError "No usable implementation found!");
     schtasks := Some 0;
     sigint_after := 0;
     sleep_refused := fun _ => None;
     script := "main.py";
     abspath := fun p => "C:/water/" +:+ p;
     dirname := fun _ => "C:/water";
     fromisoformat := fun _ => None;
     plyer_installed := true |}.

(** The start of a process in an empty working directory. *)
Definition empty_state : State :=
  {| config_file := ""; config := ∅; files := ∅;
     clock_reads := 0; notify_calls := 0; shown := [];
     stdin := []; stdout := [];
     config_other := []; write_failure := fun _ _ => None |}.

(** A [WaterReminder] constructed without a settings file. *)
Definition default_state : State :=
  with_config default_config
    (with_config_file "water_reminder_config.json" empty_state).

(** Both scheduler artifacts exist and the user types 3 at the menu. *)
Definition menu_state : State :=
  with_stdin ["3"]
    (with_files (<["water_reminder_task.bat" := Text ""]>
                   (<["WaterReminder_Task.xml" := Text ""]> ∅))
       empty_state).

(** A settings file that holds one field only. *)
Definition partial_state : State :=
  with_files (<["water_reminder_config.json" :=
                  Document (PyDict [("interval_minutes", PyInt 30)])]> ∅)
    (with_config_file "water_reminder_config.json" empty_state).

(** The working host at a given time of day, and the default settings
    with another window. *)
Definition env_at (h m sec us : Z) : Env :=
  {| clock := fun _ => mkdatetime 2024 5 1 h m sec us;
     notify := notify working_env;
     schtasks := schtasks working_env;
     sigint_after := sigint_after working_env;
     sleep_refused := sleep_refused working_env;
     script := script working_env;
     abspath := abspath working_env;
     dirname := dirname working_env;
     fromisoformat := fromisoformat working_env;
     plyer_installed := plyer_installed working_env |}.

Definition window_state (start_time end_time : string) : State :=
  with_config
    (<["end_time" := PyStr end_time]>
       (<["start_time" := PyStr start_time]> default_config))
    default_state.

Definition notify_flags : Args :=
  {| arg_notify := true; arg_continuous := false;
     arg_configure := false; arg_setup := false |}.
Definition continuous_flags : Args :=
  {| arg_notify := false; arg_continuous := true;
     arg_configure := false; arg_setup := false |}.
Definition no_flags : Args :=
  {| arg_notify := false; arg_continuous := false;
     arg_configure := false; arg_setup := false |}.

(** A settings file that holds the JSON array [[[1, 2]]]: a list of one
    pair whose key is the integer 1. *)
Definition pairs_state : State :=
  with_files (<["water_reminder_config.json" :=
                  Document (PyList [PyList [PyInt 1; PyInt 2]])]> ∅)
    empty_state.

(** The working host with a notifier during whose call Ctrl+C arrives. *)
Definition interrupted_notifier_env : Env :=
  {| clock := morning_clock;
     notify := fun _ => Some (Exn KeyboardInterrupt "");
     schtasks := Some 0;
     sigint_after := 0;
     sleep_refused := fun _ => None;
     script := "main.py";
     abspath := fun p => "C:/water/" +:+ p;
     dirname := fun _ => "C:/water";
     fromisoformat := fun _ => None;
     plyer_installed := true |}.

(** The instance that [main] constructs at the start of a process. *)
Definition started (s : State) : State :=
  (WaterReminder_init "water_reminder_config.json" s).2.

(** ** Vocabulary of the further properties *)

(** The setting is a string that [strptime] accepts. *)
Definition parses (v : option pyval) : bool :=
  match v with
  | Some (PyStr a) => bool_decide (is_Some (strptime_HM a))
  | _ => false
  end.

(** Both ends of the window are strings that [strptime] accepts. *)
Definition window_parses (c : gmap string pyval) : bool :=
  parses (c !! "start_time") && parses (c !! "end_time").

(** Whether the reading [d] of the clock lies in the window of the
    settings [c]. *)
Definition active_at (c : gmap string pyval) (d : datetime) : bool :=
  match c !! "start_time", c !! "end_time" with
  | Some (PyStr a), Some (PyStr b) =>
      match strptime_HM a, strptime_HM b with
      | Some ta, Some tb =>
          time_le ta (datetime_time d) && time_le (datetime_time d) tb
      | _, _ => false
      end
  | _, _ => false
  end.

(** [time.sleep] accepts the number of seconds: it is not negative, its
    count of nanoseconds fits 64 bits, and the host does not refuse it. *)
Definition sleeps (E : Env) (seconds : Z) : bool :=
  (0 <=? seconds) && (seconds <=? 9223372036) &&
  match sleep_refused E seconds with None => true | Some _ => false end.

(** The interval is a number of minutes that [time.sleep] accepts. *)
Definition sleepable (E : Env) (c : gmap string pyval) : bool :=
  match c !! "interval_minutes" with
  | Some (PyInt i) => sleeps E (i * 60)
  | Some (PyBool b) => sleeps E ((if b then 1 else 0) * 60)
  | _ => false
  end.

(** The class of the exception that ends [time.sleep(v * 60)] on every
    host, if there is one: the product is not a number, is negative, or
    its count of nanoseconds does not fit 64 bits. *)
Definition interval_error (v : pyval) : option exn_class :=
  match v with
  | PyInt i =>
      if (i * 60 <? -9223372036) || (9223372036 <? i * 60) then Some OverflowError
      else if i * 60 <? 0 then Some ValueError
      else None
  | PyBool _ => None
  | _ => Some TypeError
  end.

(** The notifier fails with errors only, never with [KeyboardInterrupt]
    or [SystemExit]. *)
Definition notifier_errors_only (E : Env) : Prop :=
  forall k e, notify E k = Some e -> is_Exception e = true.

(** A conditional assignment [c[k] = v]. *)
Definition set_opt (o : option pyval) (k : string) (c : gmap string pyval)
    : gmap string pyval :=
  match o with
  | Some v => <[k := v]> c
  | None => c
  end.

(** What an answer of [configure] assigns: nothing when it is blank. *)
Definition answer (line : string) : option pyval :=
  if nonblank line then Some (PyStr line) else None.

Definition interval_answer (line : string) : option pyval :=
  if nonblank line then PyInt <$> py_int line else None.

(** The settings after [configure] has read the four answers. *)
Definition configured (l1 l2 l3 l4 : string) (c : gmap string pyval)
    : gmap string pyval :=
  set_opt (answer l4) "message"
    (set_opt (answer l3) "end_time"
       (set_opt (answer l2) "start_time"
          (set_opt (interval_answer l1) "interval_minutes" c))).

(** Two records that differ in [last_reminder] at most. *)
Definition same_schedule (c1 c2 : gmap string pyval) : Prop :=
  forall k, k <> "last_reminder" -> c1 !! k = c2 !! k.

(** The keys that [configure] can change. *)
Definition configurable : list string :=
  [ "interval_minutes"; "start_time"; "end_time"; "message" ].


(** ** Further sample environments and states *)

(** A host where the scheduler knows no task of that name. *)
Definition unregistered_env : Env :=
  {| clock := morning_clock;
     notify := fun _ => None;
     schtasks := Some 1;
     sigint_after := 0;
     sleep_refused := fun _ => None;
     script := "main.py";
     abspath := fun p => "C:/water/" +:+ p;
     dirname := fun _ => "C:/water";
     fromisoformat := fun _ => None;
     plyer_installed := true |}.

(** A settings file whose start of the window is not a time. *)
Definition malformed_state : State :=
  with_files (<["water_reminder_config.json" :=
                  Document (PyDict [("start_time", PyStr "8am")])]> ∅)
    empty_state.

(** The default instance in a working directory where no file can be
    opened for writing. *)
Definition readonly_state : State :=
  with_write_failure
    (fun _ _ => Some (Exn OSError "[Errno 13] Permission denied", None))
    default_state.

Definition setup_flags : Args :=
  {| arg_notify := false; arg_continuous := false;
     arg_configure := false; arg_setup := true |}.

(** A host whose clock stands at the full hour [h], whose notifier works,
    and where Ctrl+C arrives during the sleep that follows [sleeps]
    others. *)
Definition host_at (h : Z) (sleeps : nat) : Env :=
  {| clock := fun _ => mkdatetime 2024 5 1 h 0 0 0;
     notify := fun _ => None;
     schtasks := Some 0;
     sigint_after := sleeps;
     sleep_refused := fun _ => None;
     script := "main.py";
     abspath := fun p => "C:/water/" +:+ p;
     dirname := fun _ => "C:/water";
     fromisoformat := fun _ => None;
     plyer_installed := true |}.

(** Both scheduler artifacts exist, and the settings give a time of the
    last reminder that is no ISO time. *)
Definition edited_state : State :=
  with_files (<["water_reminder_task.bat" := Text ""]>
                (<["WaterReminder_Task.xml" := Text ""]> ∅))
    (with_config (<["last_reminder" := PyStr "yesterday"]> default_config)
       default_state).

Definition configure_flags : Args :=
  {| arg_notify := false; arg_continuous := false;
     arg_configure := true; arg_setup := false |}.

(** * Properties *)

(** ** Running statements *)

Lemma bind_Ok {A B} (m : M A) (k : A -> M B) (s s' : State) (a : A) :
  m s = (Ok a, s') -> bind m k s = k a s'.
Proof. unfold bind. by intros ->. Qed.

Lemma getitem_Some (key : string) (v : pyval) (s : State) :
  config s !! key = Some v -> getitem key s = (Ok v, s).
Proof. unfold getitem, bind, gets. simpl. by intros ->. Qed.

Lemma input_line (prompt line : string) (rest : list string) (s : State) :
  stdin s = line :: rest ->
  input prompt s = (Ok line, with_stdin rest (with_stdout (stdout s ++ [prompt]) s)).
Proof. unfold input, print, bind, gets, modify. simpl. by intros ->. Qed.

(** ** Config Store *)

Lemma update_from_members_lookup (kvs : list (string * pyval))
    (d : gmap string pyval) (k : string) :
  update_from_members d kvs !! k =
    match last_member k kvs with
    | Some v => Some v
    | None => d !! k
    end.
Proof.
  unfold update_from_members, last_member.
  revert d. induction kvs as [|[k1 v1] kvs IH]; intros d; simpl; [done|].
  rewrite IH. rewrite filter_cons. simpl.
  destruct (decide (k1 = k)) as [->|Hne].
  - rewrite last_cons. destruct (last (filter _ kvs)); simpl; [done|].
    by rewrite lookup_insert_eq.
  - destruct (last (filter _ kvs)); simpl; [done|].
    by rewrite lookup_insert_ne.
Qed.

Lemma last_member_elem (k : string) (v : pyval) (kvs : list (string * pyval)) :
  last_member k kvs = Some v -> (k, v) ∈ kvs.
Proof.
  unfold last_member. intros H.
  destruct (last (filter _ kvs)) as [[k' v']|] eqn:Hl; simplify_eq/=.
  apply last_Some_elem_of in Hl. apply list_elem_of_filter in Hl as [? ?].
  by simplify_eq/=.
Qed.

(** Every stored value comes from the previous dictionary or from a pair
    of the array. *)
Lemma update_from_pairs_lookup (es : list pyval) (d : gmap string pyval)
    (k : string) (v : pyval) :
  (update_from_pairs d es).1 !! k = Some v ->
  d !! k = Some v \/ exists e, e ∈ es /\ pair_of e = inr (PyStr k, v).
Proof.
  revert d. induction es as [|e es IH]; intros d; simpl; [by left|].
  destruct (pair_of e) as [x|[key val]] eqn:He; simpl; [by left|].
  destruct key as [| | |k'| |]; simpl; try by left.
  - intros H. apply IH in H as [H|(e' & ? & ?)]; [by left|].
    right. exists e'. split; [by apply list_elem_of_further|done].
  - intros H. apply IH in H as [H|(e' & ? & ?)]; [by left|].
    right. exists e'. split; [by apply list_elem_of_further|done].
  - intros H. apply IH in H as [H|(e' & ? & ?)]; [by left|].
    right. exists e'. split; [by apply list_elem_of_further|done].
  - intros H. apply IH in H as [H|(e' & ? & ?)].
    + destruct (decide (k' = k)) as [->|Hne].
      * rewrite lookup_insert_eq in H. simplify_eq.
        right. exists e. split; [apply list_elem_of_here|done].
      * rewrite lookup_insert_ne in H by done. by left.
    + right. exists e'. split; [by apply list_elem_of_further|done].
Qed.

(** [update] never removes a key. *)
Lemma update_from_pairs_keeps (es : list pyval) (d : gmap string pyval) (k : string) :
  is_Some (d !! k) -> is_Some ((update_from_pairs d es).1 !! k).
Proof.
  revert d. induction es as [|e es IH]; intros d Hd; simpl; [done|].
  destruct (pair_of e) as [x|[key val]]; simpl; [done|].
  destruct key as [| | |k'| |]; simpl; try done; try by apply IH.
  apply IH. destruct (decide (k' = k)) as [->|Hne].
  - rewrite lookup_insert_eq. eauto.
  - by rewrite lookup_insert_ne.
Qed.

Lemma default_config_fields (k : string) :
  k ∈ documented_fields -> is_Some (default_config !! k).
Proof.
  unfold documented_fields. intros H.
  repeat (apply elem_of_cons in H as [->|H]; [vm_compute; eauto|]).
  by apply not_elem_of_nil in H.
Qed.

(** The documented defaults. *)
Lemma default_config_values :
  default_config !! "interval_minutes" = Some (PyInt 60) /\
  default_config !! "start_time" = Some (PyStr "08:00") /\
  default_config !! "end_time" = Some (PyStr "22:00") /\
  default_config !! "title" = Some (PyStr "Water Reminder") /\
  default_config !! "sound_enabled" = Some (PyBool true) /\
  default_config !! "last_reminder" = Some PyNone /\
  is_Some (default_config !! "message").
Proof. split_and!; vm_compute; eauto. Qed.

Lemma load_config_eval (s : State) :
  load_config s =
    (Ok match files s !! config_file s with
        | Some (Document v) => (dict_update default_config v).1
        | _ => default_config
        end, s).
Proof.
  unfold load_config, bind, gets, path_exists, try_except, json_load, bind, gets.
  simpl. destruct (files s !! config_file s) as [[|t|v]|] eqn:Hf; simpl;
    by rewrite ?Hf.
Qed.

(** Every documented field of the loaded record holds a value that the
    file stores for it, or else its default. *)
Lemma dict_update_fields (s : State) (k : string) :
  k ∈ documented_fields ->
  exists v,
    match files s !! config_file s with
    | Some (Document v) => (dict_update default_config v).1
    | _ => default_config
    end !! k = Some v /\
    (stored_on_disk s k v \/ default_config !! k = Some v).
Proof.
  intros Hk. destruct (default_config_fields k Hk) as [d Hd].
  unfold stored_on_disk.
  destruct (files s !! config_file s) as [[|t|v]|] eqn:Hf;
    try (exists d; by eauto).
  destruct v as [| | |str|es|kvs]; simpl; try (exists d; by eauto).
  - destruct str; simpl; exists d; by eauto.
  - destruct (update_from_pairs_keeps es default_config k) as [v Hv]; [by eauto|].
    exists v. split; [done|].
    apply update_from_pairs_lookup in Hv as [?|?]; by eauto.
  - rewrite update_from_members_lookup.
    destruct (last_member k kvs) as [v|] eqn:Hl.
    + exists v. split; [done|]. left. by apply last_member_elem.
    + exists d. by eauto.
Qed.

(** C6. Whatever the settings file holds (no file, an unreadable file,
    text that is not JSON, a JSON object with some of the fields, or any
    other JSON value), [load_config] returns a record and raises
    nothing; every documented field of the record holds a value that the
    file stores for it or else its default; without a readable JSON
    document the record is the default one, and with a JSON object each
    name takes the object's (last) member of that name when there is one
    and its default otherwise. *)
Theorem load_config_defaults_or_disk (s : State) :
  exists c,
    load_config s = (Ok c, s) /\
    (forall k, k ∈ documented_fields ->
       exists v, c !! k = Some v /\
                 (stored_on_disk s k v \/ default_config !! k = Some v)) /\
    (forall kvs, files s !! config_file s = Some (Document (PyDict kvs)) ->
       forall k, c !! k = match last_member k kvs with
                          | Some v => Some v
                          | None => default_config !! k
                          end) /\
    match files s !! config_file s with
    | Some (Document _) => True
    | _ => c = default_config
    end.
Proof.
  eexists. split; [apply load_config_eval|].
  split; [apply dict_update_fields|]. split.
  - intros kvs -> k. simpl. apply update_from_members_lookup.
  - by destruct (files s !! config_file s) as [[|t|v]|].
Qed.

(** The theorem at a settings file that holds the interval only: the
    interval comes from the file, the start time is the default. *)
Lemma load_config_defaults_or_disk_witness :
  exists c,
    load_config partial_state = (Ok c, partial_state) /\
    c !! "interval_minutes" = Some (PyInt 30) /\
    c !! "start_time" = Some (PyStr "08:00").
Proof.
  destruct (load_config_defaults_or_disk partial_state) as (c & Hrun & _ & Hobj & _).
  exists c. split; [exact Hrun|].
  split; [exact (Hobj _ eq_refl "interval_minutes")|exact (Hobj _ eq_refl "start_time")].
Defined.

(** The record that [load_config] returns holds every documented field. *)
Lemma load_config_has_all_fields (s : State) (c : gmap string pyval) :
  (load_config s).1 = Ok c -> has_all_fields c = true.
Proof.
  rewrite load_config_eval. intros [= <-].
  unfold has_all_fields. apply forallb_forall. intros k Hk.
  apply bool_decide_eq_true_2.
  destruct (dict_update_fields s k) as (v & -> & _); [by apply list_elem_of_In|eauto].
Qed.

Lemma last_member_list_to_map (k : string) (kvs : list (string * pyval)) :
  NoDup kvs.*1 ->
  last_member k kvs = (list_to_map kvs : gmap string pyval) !! k.
Proof.
  unfold last_member.
  induction kvs as [|[k1 v1] kvs IH]; intros Hnd; simpl; [done|].
  apply NoDup_cons in Hnd as [Hk1 Hnd]. specialize (IH Hnd).
  rewrite filter_cons. simpl. destruct (decide (k1 = k)) as [->|Hne].
  - rewrite lookup_insert_eq, last_cons.
    apply (not_elem_of_list_to_map_1 (M:=gmap string)) in Hk1.
    simpl in Hk1. rewrite Hk1 in IH. by destruct (last (filter _ kvs)).
  - by rewrite lookup_insert_ne.
Qed.

Lemma update_from_members_map_to_list (c d : gmap string pyval) :
  update_from_members d (map_to_list c) = c ∪ d.
Proof.
  apply map_eq. intros k.
  rewrite update_from_members_lookup, last_member_list_to_map
    by apply NoDup_fst_map_to_list.
  rewrite list_to_map_to_list, lookup_union.
  by destruct (c !! k), (d !! k).
Qed.

Lemma default_config_documented (k : string) (v : pyval) :
  default_config !! k = Some v -> k ∈ documented_fields.
Proof.
  unfold default_config. intros H. apply elem_of_list_to_map_2 in H.
  apply list_elem_of_fmap_2 with (f := fst) in H. exact H.
Qed.

Lemma union_default_config (c : gmap string pyval) :
  has_all_fields c = true -> c ∪ default_config = c.
Proof.
  unfold has_all_fields. rewrite forallb_forall. intros Hall.
  apply map_eq. intros k. rewrite lookup_union.
  destruct (c !! k) as [v|] eqn:Hc; [by destruct (default_config !! k)|].
  destruct (default_config !! k) as [d|] eqn:Hd; [|done].
  apply default_config_documented, list_elem_of_In, Hall in Hd.
  apply bool_decide_eq_true_1 in Hd. rewrite Hc in Hd. by destruct Hd.
Qed.

(** A write that the host lets through. *)
Lemma open_write_Ok (path : string) (content : file) (s : State) :
  write_failure s path content = None ->
  open_write path content s =
    (Ok tt, with_files (<[path := content]> (files s)) s).
Proof. unfold open_write. by intros ->. Qed.

(** A write changes nothing but the files, whatever its outcome. *)
Lemma open_write_state (path : string) (content : file) (s : State) :
  let s' := (open_write path content s).2 in
  config s' = config s /\ config_other s' = config_other s /\
  config_file s' = config_file s /\ shown s' = shown s /\
  notify_calls s' = notify_calls s /\ clock_reads s' = clock_reads s /\
  stdin s' = stdin s /\ stdout s' = stdout s.
Proof.
  unfold open_write.
  by destruct (write_failure s path content) as [[e [f|]]|].
Qed.

(** The run of [save_config] when the settings file can be written. *)
Lemma save_config_run (s : State) :
  writable s (config_file s) ->
  save_config s =
    (Ok tt,
     with_files
       (<[config_file s :=
            Document (settings_document (config s) (config_other s))]> (files s))
       s).
Proof.
  intros Hw. unfold save_config, json_dump, bind, gets. by apply open_write_Ok.
Qed.

Lemma load_config_other_eval (s : State) :
  load_config_other s =
    (Ok match files s !! config_file s with
        | Some (Document v) => dict_update_other default_config [] v
        | _ => []
        end, s).
Proof.
  unfold load_config_other, bind, gets, path_exists, try_except, json_load,
    bind, gets.
  simpl. destruct (files s !! config_file s) as [[|t|v]|] eqn:Hf; simpl;
    by rewrite ?Hf.
Qed.

(** C7, as amended.  For every record [c] that holds all documented
    fields and has string keys only, once [c] was saved (the settings
    file can be written), loading the settings returns [c] itself,
    whatever the instance that loads holds in memory. *)
Theorem save_then_load_roundtrip (s : State) (c : gmap string pyval) :
  has_all_fields c = true ->
  config_other s = [] ->
  writable s (config_file s) ->
  exists s',
    save_config (with_config c s) = (Ok tt, s') /\
    forall c0 o0,
      let fresh := with_config_other o0 (with_config c0 s') in
      load_config fresh = (Ok c, fresh) /\
      load_config_other fresh = (Ok [], fresh).
Proof.
  intros Hall Ho Hw. eexists. split; [by apply save_config_run|].
  intros c0 o0 fresh. subst fresh.
  rewrite load_config_eval, load_config_other_eval. simpl.
  rewrite lookup_insert_eq, Ho. simpl. split; [|done].
  by rewrite update_from_members_map_to_list, union_default_config.
Qed.

(** The theorem at the default record with the interval changed, loaded
    by an instance that holds an empty record. *)
Lemma save_then_load_roundtrip_witness :
  let c := <["interval_minutes" := PyInt 30]> default_config in
  has_all_fields c = true /\
  config_other default_state = [] /\
  writable default_state (config_file default_state) /\
  exists s',
    save_config (with_config c default_state) = (Ok tt, s') /\
    load_config (with_config_other [] (with_config ∅ s')) =
      (Ok c, with_config_other [] (with_config ∅ s')).
Proof.
  intros c.
  assert (Hw : writable default_state (config_file default_state))
    by (by intros content).
  split; [vm_compute; reflexivity|]. split; [reflexivity|]. split; [exact Hw|].
  destruct (save_then_load_roundtrip default_state c) as (s' & Hsave & Hload);
    [vm_compute; reflexivity | reflexivity | exact Hw |].
  exists s'. split; [exact Hsave|].
  exact (proj1 (Hload ∅ [])).
Defined.

(** Saving and loading a record with one key that is no string. *)
Lemma roundtrip_other_key (s : State) (k : pykey) (v : pyval) :
  writable s (config_file s) ->
  config_other s = [OtherItem k v false] ->
  config s !! json_key k = None ->
  exists s' c',
    save_config s = (Ok tt, s') /\
    load_config s' = (Ok c', s') /\
    load_config_other s' = (Ok [], s') /\
    c' !! json_key k = Some v.
Proof.
  intros Hw Ho Hk. do 2 eexists. split; [by apply save_config_run|].
  rewrite load_config_eval, load_config_other_eval. simpl.
  rewrite lookup_insert_eq. simpl. split; [reflexivity|]. split; [done|].
  rewrite update_from_members_map_to_list, lookup_union, Ho.
  unfold dumped. cbn [foldl item_key item_value after_name]. rewrite Hk.
  rewrite (bool_decide_eq_false_2 (is_Some None)) by (by intros [? ?]).
  cbn [andb]. rewrite lookup_insert_eq. by destruct (default_config !! _).
Qed.

(** C7 as stated fails: the settings file [[[1, 2]]] gives a record that
    holds all documented fields and the integer key 1, which [json.dump]
    accepts; it is written under the name ["1"], and the record loaded
    after the save holds the string key ["1"] instead. *)
Lemma roundtrip_loses_integer_key :
  let s := started pairs_state in
  has_all_fields (config s) = true /\
  config_other s = [OtherItem (KInt 1) (PyInt 2) false] /\
  exists s' c',
    save_config s = (Ok tt, s') /\
    load_config s' = (Ok c', s') /\
    load_config_other s' = (Ok [], s') /\
    config s !! "1" = None /\
    c' !! "1" = Some (PyInt 2) /\
    c' <> config s.
Proof.
  intros s.
  assert (H1 : config s !! "1" = None) by (vm_compute; reflexivity).
  assert (Ho : config_other s = [OtherItem (KInt 1) (PyInt 2) false])
    by (vm_compute; reflexivity).
  assert (Hw : writable s (config_file s))
    by (intros content; vm_compute; reflexivity).
  split; [vm_compute; reflexivity|]. split; [exact Ho|].
  destruct (roundtrip_other_key s (KInt 1) (PyInt 2) Hw Ho H1)
    as (s' & c' & Hsave & Hload & Hother & Hc).
  change (json_key (KInt 1)) with "1" in Hc.
  exists s', c'. split_and!; try done. intros ->. congruence.
Qed.

(** ** Active-Window Evaluator *)

Lemma digit_range (c : ascii) (d : Z) : digit c = Some d -> 0 <= d <= 9.
Proof.
  unfold digit. destruct (_ && _)%bool eqn:Hc; [|done].
  apply andb_prop in Hc as [H1%N.leb_le H2%N.leb_le]. intros [= <-]. lia.
Qed.

Lemma digit_in_range (lo hi : Z) (c : ascii) (d : Z) :
  digit_in lo hi c = Some d -> lo <= d <= hi /\ 0 <= d <= 9.
Proof.
  unfold digit_in. destruct (digit c) as [x|] eqn:Hd; [|done].
  destruct (_ && _)%bool eqn:Hc; [|done].
  apply andb_prop in Hc as [H1%Z.leb_le H2%Z.leb_le]. intros [= <-].
  apply digit_range in Hd. lia.
Qed.

Lemma or_else_Some {A} (x y : option A) (a : A) :
  or_else x y = Some a -> x = Some a \/ y = Some a.
Proof. destruct x; simpl; auto. Qed.

Lemma two_digits_Some {A} (lo1 hi1 lo2 hi2 : Z) (s : string)
    (k : Z -> string -> option A) (a : A) :
  two_digits lo1 hi1 lo2 hi2 s k = Some a ->
  exists x y r, lo1 <= x <= hi1 /\ lo2 <= y <= hi2 /\ 0 <= y <= 9 /\
                k (10 * x + y) r = Some a.
Proof.
  unfold two_digits. destruct s as [|c1 [|c2 r]]; try done.
  destruct (digit_in lo1 hi1 c1) as [x|] eqn:H1; [|done].
  destruct (digit_in lo2 hi2 c2) as [y|] eqn:H2; [|done].
  apply digit_in_range in H1, H2. intros Hk. exists x, y, r. intuition.
Qed.

Lemma one_digit_Some {A} (s : string) (k : Z -> string -> option A) (a : A) :
  one_digit s k = Some a -> exists x r, 0 <= x <= 9 /\ k x r = Some a.
Proof.
  unfold one_digit. destruct s as [|c r]; [done|].
  destruct (digit c) as [x|] eqn:Hd; [|done].
  apply digit_range in Hd. eauto.
Qed.

Lemma re_H_Some {A} (s : string) (k : Z -> string -> option A) (a : A) :
  re_H s k = Some a -> exists h r, 0 <= h <= 23 /\ k h r = Some a.
Proof.
  unfold re_H. intros [H|[H|H]%or_else_Some]%or_else_Some.
  - apply two_digits_Some in H as (x & y & r & ? & ? & ? & ?).
    exists (10 * x + y), r. split; [lia|done].
  - apply two_digits_Some in H as (x & y & r & ? & ? & ? & ?).
    exists (10 * x + y), r. split; [lia|done].
  - apply one_digit_Some in H as (x & r & ? & ?).
    exists x, r. split; [lia|done].
Qed.

Lemma re_M_Some {A} (s : string) (k : Z -> string -> option A) (a : A) :
  re_M s k = Some a -> exists m r, 0 <= m <= 59 /\ k m r = Some a.
Proof.
  unfold re_M. intros [H|H]%or_else_Some.
  - apply two_digits_Some in H as (x & y & r & ? & ? & ? & ?).
    exists (10 * x + y), r. split; [lia|done].
  - apply one_digit_Some in H as (x & r & ? & ?).
    exists x, r. split; [lia|done].
Qed.

(** What [strptime] accepts is a time of day. *)
Lemma strptime_HM_valid (s : string) (t : time) :
  strptime_HM s = Some t -> time_valid t.
Proof.
  unfold strptime_HM, re_HM. destruct (re_H s _) as [[[h m] rest]|] eqn:H; [|done].
  apply re_H_Some in H as (h' & r & Hh & H).
  unfold re_colon in H. destruct r as [|c r]; [done|].
  destruct (Ascii.eq_dec c ":"%char) as [->|Hne].
  - apply re_M_Some in H as (m' & r' & Hm & [= <- <- <-]).
    destruct r'; [|done]. intros [= <-]. unfold time_valid. simpl. lia.
  - exfalso. revert H.
    by destruct c as [[] [] [] [] [] [] [] []].
Qed.

(** On times of day the tuple order is the order of the instants. *)
Lemma time_le_micros (a b : time) :
  time_valid a -> time_valid b ->
  time_le a b = true <-> time_micros a <= time_micros b.
Proof.
  unfold time_valid, time_le, time_micros.
  destruct a as [h1 m1 s1 u1], b as [h2 m2 s2 u2]. simpl. intros Ha Hb.
  repeat match goal with
         | |- context [?x =? ?y] => destruct (Z.eqb_spec x y)
         end;
  rewrite ?Z.leb_le, ?Z.ltb_lt; lia.
Qed.

(** The run of [is_within_active_hours] when both bounds parse. *)
Lemma is_within_active_hours_eval (E : Env) (s : State) (a b : string)
    (start_time end_time : time) :
  config s !! "start_time" = Some (PyStr a) ->
  config s !! "end_time" = Some (PyStr b) ->
  strptime_HM a = Some start_time ->
  strptime_HM b = Some end_time ->
  is_within_active_hours E s =
    (Ok (time_le start_time (datetime_time (clock E (clock_reads s))) &&
         time_le (datetime_time (clock E (clock_reads s))) end_time),
     with_clock_reads (S (clock_reads s)) s).
Proof.
  intros Hs He Ha Hb.
  unfold is_within_active_hours, datetime_now, getitem, strptime_time,
    bind, gets, modify, ret. simpl.
  rewrite Hs. simpl. rewrite Ha. simpl. rewrite He. simpl. by rewrite Hb.
Qed.

(** C5. With start and end settings that [strptime] accepts, the
    active-window check returns true exactly when the time of day of the
    clock reading lies between the two bounds, both included; the date
    plays no part.  Hence with a start later than the end it returns false
    at every time. *)
Theorem active_window_iff (E : Env) (s : State) (a b : string)
    (start_time end_time : time) :
  config s !! "start_time" = Some (PyStr a) ->
  config s !! "end_time" = Some (PyStr b) ->
  strptime_HM a = Some start_time ->
  strptime_HM b = Some end_time ->
  time_valid (datetime_time (clock E (clock_reads s))) ->
  exists r s',
    is_within_active_hours E s = (Ok r, s') /\
    (r = true <->
       time_micros start_time
         <= time_micros (datetime_time (clock E (clock_reads s)))
         <= time_micros end_time) /\
    (time_micros end_time < time_micros start_time -> r = false).
Proof.
  intros Hs He Ha Hb Hnow.
  do 2 eexists. split; [by eapply is_within_active_hours_eval|].
  pose proof (strptime_HM_valid _ _ Ha) as Hva.
  pose proof (strptime_HM_valid _ _ Hb) as Hvb.
  rewrite andb_true_iff, !time_le_micros by done.
  split; [done|]. intros Hlt.
  apply not_true_is_false. rewrite andb_true_iff, !time_le_micros by done. lia.
Qed.

(** The theorem at the default window and 09:00. *)
Lemma active_window_iff_witness :
  config default_state !! "start_time" = Some (PyStr "08:00") /\
  config default_state !! "end_time" = Some (PyStr "22:00") /\
  strptime_HM "08:00" = Some (mktime 8 0 0 0) /\
  strptime_HM "22:00" = Some (mktime 22 0 0 0) /\
  time_valid (datetime_time (clock working_env (clock_reads default_state))) /\
  exists r s',
    is_within_active_hours working_env default_state = (Ok r, s') /\
    (r = true <->
       time_micros (mktime 8 0 0 0)
         <= time_micros (datetime_time (clock working_env (clock_reads default_state)))
         <= time_micros (mktime 22 0 0 0)) /\
    (time_micros (mktime 22 0 0 0) < time_micros (mktime 8 0 0 0) -> r = false).
Proof.
  assert (Hv : time_valid (datetime_time (clock working_env (clock_reads default_state)))).
  { unfold time_valid. simpl. lia. }
  split; [reflexivity|]. split; [reflexivity|].
  split; [reflexivity|]. split; [reflexivity|]. split; [exact Hv|].
  exact (active_window_iff working_env default_state "08:00" "22:00"
           (mktime 8 0 0 0) (mktime 22 0 0 0)
           eq_refl eq_refl eq_refl eq_refl Hv).
Defined.

(** The window 08:00-22:00 at 09:00, at 23:00, and at its two ends. *)
Example active_at_0900 :
  (is_within_active_hours (env_at 9 0 0 0) (window_state "08:00" "22:00")).1 = Ok true.
Proof. reflexivity. Qed.

Example inactive_at_2300 :
  (is_within_active_hours (env_at 23 0 0 0) (window_state "08:00" "22:00")).1 = Ok false.
Proof. reflexivity. Qed.

Example active_at_start :
  (is_within_active_hours (env_at 8 0 0 0) (window_state "08:00" "22:00")).1 = Ok true.
Proof. reflexivity. Qed.

Example active_at_end :
  (is_within_active_hours (env_at 22 0 0 0) (window_state "08:00" "22:00")).1 = Ok true.
Proof. reflexivity. Qed.

Example inactive_just_after_end :
  (is_within_active_hours (env_at 22 0 0 1) (window_state "08:00" "22:00")).1 = Ok false.
Proof. reflexivity. Qed.

(** A window that spans midnight is never active. *)
Example overnight_window_at_2300 :
  (is_within_active_hours (env_at 23 0 0 0) (window_state "22:00" "06:00")).1 = Ok false.
Proof. reflexivity. Qed.

Example overnight_window_at_0300 :
  (is_within_active_hours (env_at 3 0 0 0) (window_state "22:00" "06:00")).1 = Ok false.
Proof. reflexivity. Qed.

(** ** Notifier *)

(** The run of [send_notification] when the notification call returns. *)
Lemma send_notification_returns (E : Env) (s : State) (title message : pyval) :
  config s !! "title" = Some title ->
  config s !! "message" = Some message ->
  notify E (notify_calls s) = None ->
  send_notification E s =
    (Ok true,
     with_stdout
       (stdout s ++ ["Notification sent at " +:+ strftime_HMS (clock E (clock_reads s))])
       (with_clock_reads (S (clock_reads s))
          (with_shown (shown s ++ [(title, message)])
             (with_notify_calls (S (notify_calls s)) s)))).
Proof.
  intros Ht Hm Hn.
  unfold send_notification, try_except, getitem, notification_notify,
    datetime_now, print, modify, gets, bind, ret. simpl.
  rewrite Ht. simpl. rewrite Hm. simpl. by rewrite Hn.
Qed.

(** The run of [send_notification] when the notification call raises. *)
Lemma send_notification_raises (E : Env) (s : State) (title message : pyval)
    (e : exn) :
  config s !! "title" = Some title ->
  config s !! "message" = Some message ->
  notify E (notify_calls s) = Some e ->
  is_Exception e = true ->
  send_notification E s =
    (Ok false,
     with_stdout (stdout s ++ ["Error sending notification: " +:+ exn_text e])
       (with_notify_calls (S (notify_calls s)) s)).
Proof.
  intros Ht Hm Hn He.
  unfold send_notification, try_except, getitem, notification_notify,
    datetime_now, print, modify, gets, bind, ret. simpl.
  rewrite Ht. simpl. rewrite Hm. simpl. rewrite Hn. simpl. by rewrite He.
Qed.

(** The run of [send_notification] when the notification call raises
    an exception that [except Exception] does not catch. *)
Lemma send_notification_propagates (E : Env) (s : State) (title message : pyval)
    (e : exn) :
  config s !! "title" = Some title ->
  config s !! "message" = Some message ->
  notify E (notify_calls s) = Some e ->
  is_Exception e = false ->
  send_notification E s = (Raise e, with_notify_calls (S (notify_calls s)) s).
Proof.
  intros Ht Hm Hn He.
  unfold send_notification, try_except, getitem, notification_notify,
    datetime_now, print, modify, gets, bind, ret. simpl.
  rewrite Ht. simpl. rewrite Hm. simpl. rewrite Hn. simpl. by rewrite He.
Qed.

(** C8, as amended.  With a title and a message in the settings,
    [send_notification] returns true when the notification call returns,
    and the notification is displayed; when the call raises an exception
    of a class that derives from [Exception], it returns false after
    printing the error, raises nothing itself, and leaves the settings
    and the files as they were; when the call raises [KeyboardInterrupt]
    or [SystemExit], that exception goes on past [send_notification]. *)
Theorem send_notification_contract (E : Env) (s : State) (title message : pyval) :
  config s !! "title" = Some title ->
  config s !! "message" = Some message ->
  match notify E (notify_calls s) with
  | None =>
      exists s', send_notification E s = (Ok true, s') /\
                 shown s' = shown s ++ [(title, message)]
  | Some e =>
      (is_Exception e = true ->
       exists s', send_notification E s = (Ok false, s') /\
                  stdout s' = stdout s ++ ["Error sending notification: " +:+ exn_text e] /\
                  shown s' = shown s /\ config s' = config s /\ files s' = files s) /\
      (is_Exception e = false ->
       exists s', send_notification E s = (Raise e, s') /\
                  stdout s' = stdout s /\ shown s' = shown s)
  end.
Proof.
  intros Ht Hm. destruct (notify E (notify_calls s)) as [e|] eqn:Hn.
  - split; intros He.
    + eexists. split; [by eapply send_notification_raises|done].
    + eexists. split; [by eapply send_notification_propagates|done].
  - eexists. split; [by eapply send_notification_returns|done].
Qed.

(** The theorem with a notifier that works and with one that raises. *)
Lemma send_notification_contract_witness :
  config default_state !! "title" = Some (PyStr "Water Reminder") /\
  config default_state !! "message" =
    Some (PyStr "💧 Time to drink water! Stay hydrated! 💧") /\
  is_Exception (Exn RuntimeError "No usable implementation found!") = true /\
  (exists s', send_notification working_env default_state = (Ok true, s') /\
              shown s' = [(PyStr "Water Reminder",
                           PyStr "💧 Time to drink water! Stay hydrated! 💧")]) /\
  (exists s', send_notification failing_notifier_env default_state = (Ok false, s') /\
              stdout s' = ["Error sending notification: No usable implementation found!"] /\
              shown s' = [] /\ config s' = default_config /\ files s' = ∅).
Proof.
  split; [reflexivity|]. split; [reflexivity|]. split; [reflexivity|].
  split.
  - exact (send_notification_contract working_env default_state _ _ eq_refl eq_refl).
  - exact (proj1 (send_notification_contract failing_notifier_env default_state _ _
                    eq_refl eq_refl) eq_refl).
Defined.

(** C8 as stated fails: when Ctrl+C arrives during the notification
    call, [send_notification] does not return false; the
    [KeyboardInterrupt] goes on past it, and no error is printed. *)
Lemma send_notification_lets_interrupt_through :
  notify interrupted_notifier_env 0 = Some (Exn KeyboardInterrupt "") /\
  is_Exception (Exn KeyboardInterrupt "") = false /\
  exists s',
    send_notification interrupted_notifier_env default_state =
      (Raise (Exn KeyboardInterrupt ""), s') /\
    stdout s' = [] /\ shown s' = [].
Proof.
  split; [reflexivity|]. split; [reflexivity|].
  exists (with_notify_calls 1 default_state).
  split_and!; vm_compute; reflexivity.
Qed.

(** ** Scheduler Integration *)

Lemma string_app_assoc (s1 s2 s3 : string) :
  (s1 +:+ s2) +:+ s3 = s1 +:+ (s2 +:+ s3).
Proof.
  induction s1 as [|c s1 IH]; [reflexivity|].
  change (String c ((s1 +:+ s2) +:+ s3) = String c (s1 +:+ (s2 +:+ s3))).
  by rewrite IH.
Qed.

Lemma join_cons (sep x y : string) (l : list string) :
  join sep (x :: y :: l) = x +:+ sep +:+ join sep (y :: l).
Proof. reflexivity. Qed.

Lemma join_singleton (sep x : string) : join sep [x] = x.
Proof. reflexivity. Qed.

Lemma join_app (sep : string) (l1 l2 : list string) :
  l1 <> [] -> l2 <> [] ->
  join sep (l1 ++ l2) = join sep l1 +:+ sep +:+ join sep l2.
Proof.
  intros H1 H2. induction l1 as [|x [|y l1] IH]; [done| |].
  - destruct l2; [done|]. reflexivity.
  - specialize (IH ltac:(done)). simpl app in *.
    rewrite !join_cons, IH. by rewrite !string_app_assoc.
Qed.

Lemma xml_content_fields (E : Env) (interval start_time end_time : pyval)
    (batch_path : string) :
  xml_content E interval start_time end_time batch_path =
    join nl xml_head +:+ nl +:+
    "        <Interval>PT" +:+ py_str interval +:+ "M</Interval>" +:+ nl +:+
    join nl xml_after_interval +:+ nl +:+
    "      <StartBoundary>2024-01-01T" +:+ py_str start_time +:+
      ":00</StartBoundary>" +:+ nl +:+
    "      <EndBoundary>2024-01-01T" +:+ py_str end_time +:+
      ":00</EndBoundary>" +:+ nl +:+
    join nl (xml_after_boundaries ++
             [ "      <Command>" +:+ batch_path +:+ "</Command>";
               "      <WorkingDirectory>" +:+ dirname E batch_path +:+ "</WorkingDirectory>";
               "    </Exec>";
               "  </Actions>";
               "</Task>" ]).
Proof.
  unfold xml_content, interval_field, start_boundary_field, end_boundary_field.
  rewrite (join_app nl xml_head) by done.
  rewrite (join_app nl [_]) by done.
  rewrite (join_app nl xml_after_interval) by done.
  rewrite (join_app nl [_; _]) by done.
  rewrite join_cons, !join_singleton.
  rewrite !string_app_assoc.
  reflexivity.
Qed.

(** C9. For every settings record, whenever the host lets the
    descriptor file be written, [create_task_scheduler_xml] returns and
    the file that it wrote holds, inside the time trigger, the
    text of [interval_minutes] between [<Interval>PT] and [M</Interval>],
    the text of [start_time] between [<StartBoundary>2024-01-01T] and
    [:00</StartBoundary>], and the text of [end_time] between
    [<EndBoundary>2024-01-01T] and [:00</EndBoundary>]. *)
Theorem descriptor_embeds_settings (E : Env) (s : State)
    (interval start_time end_time : pyval) (batch_path : string) :
  config s !! "interval_minutes" = Some interval ->
  config s !! "start_time" = Some start_time ->
  config s !! "end_time" = Some end_time ->
  writable s "WaterReminder_Task.xml" ->
  exists s' rest,
    create_task_scheduler_xml E batch_path s =
      (Ok (abspath E "WaterReminder_Task.xml"), s') /\
    files s' !! "WaterReminder_Task.xml" =
      Some (Text
        (join nl xml_head +:+ nl +:+
         "        <Interval>PT" +:+ py_str interval +:+ "M</Interval>" +:+ nl +:+
         join nl xml_after_interval +:+ nl +:+
         "      <StartBoundary>2024-01-01T" +:+ py_str start_time +:+
           ":00</StartBoundary>" +:+ nl +:+
         "      <EndBoundary>2024-01-01T" +:+ py_str end_time +:+
           ":00</EndBoundary>" +:+ nl +:+
         rest)).
Proof.
  intros Hi Hs He Hw.
  unfold create_task_scheduler_xml, getitem, write_text, open_write, print,
    modify, gets, bind, ret.
  cbn -[xml_content]. rewrite Hi. cbn -[xml_content].
  rewrite Hs. cbn -[xml_content]. rewrite He. cbn -[xml_content].
  rewrite Hw.
  do 2 eexists. split; [reflexivity|]. cbn -[xml_content].
  rewrite lookup_insert_eq, xml_content_fields. reflexivity.
Qed.

(** The theorem at the default settings. *)
Lemma descriptor_embeds_settings_witness :
  config default_state !! "interval_minutes" = Some (PyInt 60) /\
  config default_state !! "start_time" = Some (PyStr "08:00") /\
  config default_state !! "end_time" = Some (PyStr "22:00") /\
  writable default_state "WaterReminder_Task.xml" /\
  exists s' rest,
    create_task_scheduler_xml working_env "C:/water/water_reminder_task.bat"
      default_state = (Ok "C:/water/WaterReminder_Task.xml", s') /\
    files s' !! "WaterReminder_Task.xml" =
      Some (Text
        (join nl xml_head +:+ nl +:+
         "        <Interval>PT" +:+ "60" +:+ "M</Interval>" +:+ nl +:+
         join nl xml_after_interval +:+ nl +:+
         "      <StartBoundary>2024-01-01T" +:+ "08:00" +:+
           ":00</StartBoundary>" +:+ nl +:+
         "      <EndBoundary>2024-01-01T" +:+ "22:00" +:+
           ":00</EndBoundary>" +:+ nl +:+
         rest)).
Proof.
  assert (Hw : writable default_state "WaterReminder_Task.xml")
    by (by intros content).
  split; [reflexivity|]. split; [reflexivity|]. split; [reflexivity|].
  split; [exact Hw|].
  exact (descriptor_embeds_settings working_env default_state
           (PyInt 60) (PyStr "08:00") (PyStr "22:00")
           "C:/water/water_reminder_task.bat" eq_refl eq_refl eq_refl Hw).
Defined.

(** ** Interactive reconfiguration *)

(** With a bound that [strptime] rejects, the active-window check raises
    [ValueError]. *)
Lemma active_window_parse_error (E : Env) (s : State) (a b : string) :
  config s !! "start_time" = Some (PyStr a) ->
  config s !! "end_time" = Some (PyStr b) ->
  strptime_HM a = None \/ strptime_HM b = None ->
  exists e s', is_within_active_hours E s = (Raise e, s') /\ exn_cls e = ValueError.
Proof.
  intros Hs He Hp.
  unfold is_within_active_hours, datetime_now, getitem, strptime_time,
    modify, gets, bind, ret. cbn -[lookup].
  rewrite Hs. cbn -[lookup]. destruct (strptime_HM a) as [ta|] eqn:Ha; cbn -[lookup].
  - rewrite He. cbn -[lookup]. destruct Hp as [?| ->]; [done|]. by do 2 eexists.
  - by do 2 eexists.
Qed.

Lemma bind_Raise {A B} (m : M A) (k : A -> M B) (s s' : State) (e : exn) :
  m s = (Raise e, s') -> bind m k s = (Raise e, s').
Proof. unfold bind. by intros ->. Qed.

Lemma input_eof (prompt : string) (s : State) :
  stdin s = [] ->
  input prompt s =
    (Raise (Exn EOFError "EOF when reading a line"),
     with_stdout (stdout s ++ [prompt]) s).
Proof. unfold input, print, bind, gets, modify, raise. simpl. by intros ->. Qed.

Lemma lookup_set_opt_ne (o : option pyval) (k k' : string) (c : gmap string pyval) :
  k <> k' -> set_opt o k c !! k' = c !! k'.
Proof. intros H. destruct o; simpl; [by rewrite lookup_insert_ne|done]. Qed.

Lemma lookup_set_opt_eq (o : option pyval) (k : string) (c : gmap string pyval) :
  set_opt o k c !! k = match o with Some v => Some v | None => c !! k end.
Proof. destruct o; simpl; [by rewrite lookup_insert_eq|done]. Qed.

(** [if answer.strip(): self.config[k] = answer] *)
Lemma when_setitem (line k : string) (s : State) :
  when (nonblank line) (setitem k (PyStr line)) s =
    (Ok tt, with_config (set_opt (answer line) k (config s)) s).
Proof. unfold when, setitem, modify, answer. by destruct s, (nonblank line). Qed.

(** The statement that reads the new interval. *)
Lemma configure_interval_run (line : string) (s : State) :
  when (nonblank line)
    (try_except
       (n <- int_of line ;; setitem "interval_minutes" (PyInt n))
       is_ValueError
       (fun _ => print "Invalid interval, keeping current value")) s =
  (Ok tt,
   with_stdout
     (stdout s ++
      (if nonblank line && bool_decide (py_int line = None)
       then ["Invalid interval, keeping current value"] else []))
     (with_config (set_opt (interval_answer line) "interval_minutes" (config s)) s)).
Proof.
  unfold when, try_except, int_of, setitem, print, modify, bind, ret, raise,
    interval_answer.
  destruct s, (nonblank line); [destruct (py_int line)|]; cbn;
    by rewrite ?app_nil_r.
Qed.

(** The state as a record of its parts. *)
Ltac norm_state :=
  unfold with_config_file, with_config, with_files, with_clock_reads,
    with_notify_calls, with_shown, with_stdin, with_stdout,
    with_config_other, with_write_failure;
  cbn [config_file config files clock_reads notify_calls shown stdin stdout
       config_other write_failure].

(** One statement of a run: a print, a lookup in the settings, a line of
    input, or a save that the host lets through. *)
Ltac run_step :=
  first
    [ erewrite bind_Ok by reflexivity
    | erewrite bind_Ok
        by (apply getitem_Some; norm_state;
            rewrite ?lookup_set_opt_ne by done;
            rewrite ?lookup_insert_ne by done; eassumption)
    | erewrite bind_Ok by (apply input_line; norm_state; eassumption)
    | erewrite bind_Ok by (apply input_line; reflexivity)
    | erewrite bind_Ok by apply when_setitem
    | erewrite bind_Ok by apply configure_interval_run
    | erewrite bind_Ok by (apply save_config_run; assumption) ];
  norm_state.

(** The run of [configure] on four lines of input, with the state it
    ends in, when the settings file can be written. *)
Lemma configure_run (s : State) (l1 l2 l3 l4 : string) (rest : list string)
    (i0 s0 e0 m0 : pyval) :
  stdin s = l1 :: l2 :: l3 :: l4 :: rest ->
  config s !! "interval_minutes" = Some i0 ->
  config s !! "start_time" = Some s0 ->
  config s !! "end_time" = Some e0 ->
  config s !! "message" = Some m0 ->
  writable s (config_file s) ->
  exists s',
    configure s = (Ok tt, s') /\
    config s' = configured l1 l2 l3 l4 (config s) /\
    config_other s' = config_other s /\
    stdin s' = rest /\ config_file s' = config_file s /\
    files s' = <[config_file s :=
                   Document (settings_document (configured l1 l2 l3 l4 (config s))
                               (config_other s))]>
                 (files s) /\
    shown s' = shown s /\ notify_calls s' = notify_calls s /\
    write_failure s' = write_failure s /\
    (nonblank l1 = true -> py_int l1 = None ->
     "Invalid interval, keeping current value" ∈ stdout s').
Proof.
  intros Hin Hi Hs He Hm Hw. unfold configure.
  do 18 run_step. unfold print, modify.
  eexists. split; [reflexivity|]. norm_state. split_and!; try done.
  intros -> ->. rewrite bool_decide_eq_true_2 by done. simpl andb. cbv iota.
  rewrite !elem_of_app, !list_elem_of_singleton. tauto.
Qed.

(** C10, as amended.  [configure] stores a start or end time exactly
    when the line typed holds a character that is not whitespace, stores
    it as typed, without any check of its format, and, when the settings
    file can be written, saves the settings; a blank line keeps the
    previous value.  In every state whose start and end settings are
    strings of which [strptime] rejects one, the active-window check
    raises [ValueError]. *)
Theorem configure_keeps_unvalidated_times (E : Env) (s : State)
    (l1 l2 l3 l4 : string) (rest : list string) (i0 s0 e0 m0 : pyval) :
  stdin s = l1 :: l2 :: l3 :: l4 :: rest ->
  config s !! "interval_minutes" = Some i0 ->
  config s !! "start_time" = Some s0 ->
  config s !! "end_time" = Some e0 ->
  config s !! "message" = Some m0 ->
  writable s (config_file s) ->
  exists s',
    configure s = (Ok tt, s') /\
    config s' !! "start_time" = Some (if nonblank l2 then PyStr l2 else s0) /\
    config s' !! "end_time" = Some (if nonblank l3 then PyStr l3 else e0) /\
    files s' !! config_file s' =
      Some (Document (settings_document (config s') (config_other s'))) /\
    forall s2 a b,
      config s2 !! "start_time" = Some (PyStr a) ->
      config s2 !! "end_time" = Some (PyStr b) ->
      strptime_HM a = None \/ strptime_HM b = None ->
      exists e s3, is_within_active_hours E s2 = (Raise e, s3) /\
                   exn_cls e = ValueError.
Proof.
  intros Hin Hi Hs He Hm Hw.
  destruct (configure_run s l1 l2 l3 l4 rest i0 s0 e0 m0 Hin Hi Hs He Hm Hw)
    as (s' & Hrun & Hc & Ho & _ & Hp & Hf & _).
  exists s'. split; [done|]. rewrite Hf, Hp, Hc, Ho, lookup_insert_eq.
  split_and!.
  - unfold configured, answer.
    rewrite !lookup_set_opt_ne, lookup_set_opt_eq, lookup_set_opt_ne by done.
    by destruct (nonblank l2).
  - unfold configured, answer.
    rewrite !lookup_set_opt_ne, lookup_set_opt_eq, !lookup_set_opt_ne by done.
    by destruct (nonblank l3).
  - done.
  - intros. by eapply active_window_parse_error.
Qed.

(** The theorem at the input [25:00] for the start time: the text is
    stored and saved, and the active-window check raises from then on. *)
Lemma configure_keeps_unvalidated_times_witness :
  let s := with_stdin [""; "25:00"; ""; ""] default_state in
  stdin s = [""; "25:00"; ""; ""] /\
  writable s (config_file s) /\
  nonblank "25:00" = true /\
  strptime_HM "25:00" = None /\
  exists s',
    configure s = (Ok tt, s') /\
    config s' !! "start_time" = Some (PyStr "25:00") /\
    files s' !! config_file s' =
      Some (Document (settings_document (config s') (config_other s'))) /\
    exists e s3, is_within_active_hours working_env s' = (Raise e, s3) /\
                 exn_cls e = ValueError.
Proof.
  intros s.
  assert (Hw : writable s (config_file s)) by (by intros content).
  split; [reflexivity|]. split; [exact Hw|].
  split; [reflexivity|]. split; [reflexivity|].
  destruct (configure_keeps_unvalidated_times working_env s
              "" "25:00" "" "" [] (PyInt 60) (PyStr "08:00") (PyStr "22:00")
              (PyStr "💧 Time to drink water! Stay hydrated! 💧")
              eq_refl eq_refl eq_refl eq_refl eq_refl Hw)
    as (s' & Hrun & Hstart & Hend & Hfile & Hraise).
  exists s'. split; [exact Hrun|]. split; [exact Hstart|]. split; [exact Hfile|].
  exact (Hraise s' "25:00" "22:00" Hstart Hend (or_introl eq_refl)).
Defined.

(** C10 as stated fails: a line of one space is a non-empty string, and
    [configure] does not store it as the start time. *)
Lemma configure_ignores_blank_start :
  " " <> "" /\
  exists s',
    configure (with_stdin [""; " "; ""; ""] default_state) = (Ok tt, s') /\
    config s' !! "start_time" = Some (PyStr "08:00") /\
    config s' !! "start_time" <> Some (PyStr " ").
Proof.
  split; [done|]. eexists. split; [vm_compute; reflexivity|].
  split; [vm_compute; reflexivity|]. vm_compute. discriminate.
Qed.

(** ** Trigger mode and continuous mode *)

(** C4. The class defines no method [check_reminder_due]: the call
    raises [AttributeError] in every state, and computes nothing. *)
Theorem check_reminder_due_undefined (E : Env) (s : State) :
  class_lookup "check_reminder_due" (WaterReminder_class E) = None /\
  call E "check_reminder_due" s = (Raise (attribute_error "check_reminder_due"), s).
Proof. split; reflexivity. Qed.

Lemma call_is_within_active_hours (E : Env) (s : State) :
  call E "is_within_active_hours" s = as_bool (is_within_active_hours E) s.
Proof. reflexivity. Qed.

(** The active-window check reads the clock once and changes nothing
    else, whatever its outcome. *)
Lemma is_within_active_hours_state (E : Env) (s s1 : State) (r : result bool) :
  is_within_active_hours E s = (r, s1) ->
  s1 = with_clock_reads (S (clock_reads s)) s.
Proof.
  unfold is_within_active_hours, datetime_now, getitem, strptime_time,
    modify, gets, bind, ret, raise. cbn -[lookup].
  destruct (config s !! "start_time") as [[| | |a| |]|]; cbn -[lookup];
    try by intros [= _ <-].
  destruct (strptime_HM a); cbn -[lookup]; try by intros [= _ <-].
  destruct (config s !! "end_time") as [[| | |b| |]|]; cbn -[lookup];
    try by intros [= _ <-].
  destruct (strptime_HM b); cbn -[lookup]; by intros [= _ <-].
Qed.

(** Outside the active window the trigger mode does nothing. *)
Lemma notify_once_outside_window (E : Env) (s s1 : State) :
  is_within_active_hours E s = (Ok false, s1) ->
  notify_once E s = (Ok tt, s1).
Proof.
  intros H. unfold notify_once, bind at 1.
  rewrite call_is_within_active_hours. unfold as_bool, bind at 1.
  rewrite H. reflexivity.
Qed.

(** C1. Under [--notify], whenever the active-window check holds the run
    ends with the [AttributeError] of the call of [check_reminder_due]:
    the state is the one the window check left, so nothing is sent and
    nothing is recorded or saved. *)
Theorem notify_mode_stops_at_due_check (E : Env) (s s1 : State) :
  is_within_active_hours E s = (Ok true, s1) ->
  notify_once E s = (Raise (attribute_error "check_reminder_due"), s1) /\
  shown s1 = shown s /\ config s1 = config s /\ files s1 = files s.
Proof.
  intros H. split.
  - unfold notify_once, bind at 1.
    rewrite call_is_within_active_hours. unfold as_bool, bind at 1.
    rewrite H. reflexivity.
  - by rewrite (is_within_active_hours_state _ _ _ _ H).
Qed.

(** The failing input: no settings file (so no [last_reminder]), 09:00
    inside the default window 08:00-22:00, a notifier that works. *)
Lemma notify_mode_stops_at_due_check_witness :
  is_within_active_hours working_env default_state =
    (Ok true, with_clock_reads 1 default_state) /\
  config default_state !! "last_reminder" = Some PyNone /\
  notify working_env 0 = None /\
  notify_once working_env default_state =
    (Raise (attribute_error "check_reminder_due"), with_clock_reads 1 default_state) /\
  shown (with_clock_reads 1 default_state) = [] /\
  config (with_clock_reads 1 default_state) = default_config /\
  files (with_clock_reads 1 default_state) = ∅.
Proof.
  split; [reflexivity|]. split; [reflexivity|]. split; [reflexivity|].
  exact (notify_mode_stops_at_due_check working_env default_state
           (with_clock_reads 1 default_state) eq_refl).
Defined.

(** The menu entry "View detailed status" calls a method that the class
    does not define. *)
Lemma menu_choice_3_raises (E : Env) (s : State) (rest : list string) :
  stdin s = "3" :: rest ->
  (menu_scheduled E s).1 = Raise (attribute_error "show_detailed_status").
Proof.
  intros H. unfold menu_scheduled, input, print, modify, gets, bind. simpl.
  by rewrite H.
Qed.

(** C2. Two runs of the program that end with an uncaught exception:
    [--notify] at 09:00 with the default settings, and the menu entry
    "View detailed status". *)
Theorem normal_flow_uncaught_exceptions :
  (program working_env notify_flags empty_state).1 =
    Raise (attribute_error "check_reminder_due") /\
  (program working_env no_flags menu_state).1 =
    Raise (attribute_error "show_detailed_status").
Proof. split; vm_compute; reflexivity. Qed.

(** The sleep at the end of an iteration changes no part of the state,
    whatever its outcome. *)
Lemma sleep_step_state (E : Env) (s : State) (interrupted : bool) :
  ((interval <- getitem "interval_minutes" ;;
    seconds <- py_mul interval 60 ;;
    time_sleep E seconds interrupted) s).2 = s.
Proof.
  unfold getitem, py_mul, time_sleep, sleep_seconds, gets, bind, ret, raise.
  cbn -[lookup].
  destruct (config s !! "interval_minutes") as [[|b|n|str|l|d]|]; cbn -[lookup];
    try done.
  - destruct (_ || _); [done|]. destruct (_ <? 0); [done|].
    destruct (sleep_refused E _); [done|]. by destruct interrupted.
  - destruct (_ || _); [done|]. destruct (_ <? 0); [done|].
    destruct (sleep_refused E _); [done|]. by destruct interrupted.
Qed.

(** The save changes neither the settings in memory nor what is on
    display, whatever its outcome. *)
Lemma save_config_state (s : State) :
  let s' := (save_config s).2 in
  config s' = config s /\ config_other s' = config_other s /\
  shown s' = shown s /\ config_file s' = config_file s.
Proof.
  unfold save_config, json_dump, bind, gets. cbn [fst snd].
  destruct (open_write_state (config_file s)
              (Document (settings_document (config s) (config_other s))) s)
    as (? & ? & ? & ? & _).
  by destruct (open_write _ _ s) as [[[]|e] s1].
Qed.

(** The state in which one iteration of the loop comes to its save,
    inside the active window and with a notification call that raises. *)
Lemma continuous_iteration_failed_send (E : Env) (s s1 : State)
    (title message : pyval) (e : exn) :
  is_within_active_hours E s = (Ok true, s1) ->
  config s !! "title" = Some title ->
  config s !! "message" = Some message ->
  notify E (notify_calls s) = Some e ->
  is_Exception e = true ->
  (continuous_loop E 0 s).2 =
    let c := <["last_reminder" := PyStr (isoformat (clock E (S (clock_reads s))))]>
               (config s) in
    (save_config
       (with_config c
          (with_clock_reads (S (S (clock_reads s)))
             (with_stdout (stdout s ++ ["Error sending notification: " +:+ exn_text e])
                (with_notify_calls (S (notify_calls s))
                   (with_clock_reads (S (clock_reads s)) s)))))).2.
Proof.
  intros Hw Ht Hm Hn He.
  pose proof (is_within_active_hours_state _ _ _ _ Hw) as ->.
  cbn [continuous_loop]. rewrite (bind_Ok _ _ _ _ _ Hw). unfold when.
  unfold bind at 1.
  erewrite (bind_Ok (send_notification E)) by (by eapply send_notification_raises).
  erewrite bind_Ok by reflexivity.
  erewrite bind_Ok by reflexivity.
  cbv zeta.
  match goal with
  | |- _ = (save_config ?st).2 => set (saved := save_config st)
  end.
  match goal with
  | |- context [save_config ?st] => change (save_config st) with saved
  end.
  destruct saved as [[[]|x] s2]; [apply sleep_step_state|done].
Qed.

(** C3. In continuous mode, when the clock is inside the active window
    and the notification call raises, the iteration still sets
    [last_reminder] to the next clock reading and, when the settings file
    can be written, writes the file with it, although nothing was
    displayed. *)
Theorem continuous_mode_records_failed_send (E : Env) (s s1 : State)
    (title message : pyval) (e : exn) :
  is_within_active_hours E s = (Ok true, s1) ->
  config s !! "title" = Some title ->
  config s !! "message" = Some message ->
  notify E (notify_calls s) = Some e ->
  is_Exception e = true ->
  let s' := (continuous_loop E 0 s).2 in
  shown s' = shown s /\
  config s' !! "last_reminder" =
    Some (PyStr (isoformat (clock E (S (clock_reads s))))) /\
  (writable s (config_file s) ->
   files s' !! config_file s =
     Some (Document (settings_document (config s') (config_other s')))).
Proof.
  intros Hw Ht Hm Hn He s'. subst s'.
  rewrite (continuous_iteration_failed_send E s s1 title message e Hw Ht Hm Hn He).
  cbv zeta.
  match goal with
  | |- context [save_config ?st] =>
      destruct (save_config_state st) as (Hc & Ho & Hsh & _);
      pose proof (save_config_run st) as Hrun
  end.
  cbv zeta in Hc, Ho, Hsh. rewrite Hc, Ho, Hsh.
  split; [done|]. split; [cbn -[lookup insert]; by rewrite lookup_insert_eq|].
  intros Hwr. rewrite (Hrun Hwr). cbn -[lookup insert settings_document].
  by rewrite lookup_insert_eq.
Qed.

(** The failing input: the default settings at 09:00 and a notifier that
    raises; before the iteration [last_reminder] is [None]. *)
Lemma continuous_mode_records_failed_send_witness :
  is_within_active_hours failing_notifier_env default_state =
    (Ok true, with_clock_reads 1 default_state) /\
  notify failing_notifier_env 0 =
    Some (Exn RuntimeError "No usable implementation found!") /\
  config default_state !! "last_reminder" = Some PyNone /\
  files default_state !! "water_reminder_config.json" = None /\
  let s' := (continuous_loop failing_notifier_env 0 default_state).2 in
  shown s' = [] /\
  config s' !! "last_reminder" = Some (PyStr "2024-05-01T09:00:01") /\
  files s' !! "water_reminder_config.json" =
    Some (Document (PyDict (map_to_list (config s')))).
Proof.
  split; [reflexivity|]. split; [reflexivity|]. split; [reflexivity|].
  split; [reflexivity|].
  destruct (continuous_mode_records_failed_send failing_notifier_env default_state
              (with_clock_reads 1 default_state) _ _ _
              eq_refl eq_refl eq_refl eq_refl eq_refl) as (Hsh & Hlast & Hfile).
  split; [exact Hsh|]. split; [exact Hlast|].
  apply Hfile. by intros content.
Defined.

(** The same run from the command line. *)
Lemma continuous_run_failed_send :
  let r := program failing_notifier_env continuous_flags empty_state in
  r.1 = Ok tt /\
  shown r.2 = [] /\
  stdout r.2 =
    [ "Water reminder started!"; "Interval: 60 minutes";
      "Active hours: 08:00 - 22:00"; "Press Ctrl+C to stop";
      "Error sending notification: No usable implementation found!";
      nl +:+ "Water reminder stopped." ] /\
  config r.2 !! "last_reminder" = Some (PyStr "2024-05-01T09:00:01") /\
  files r.2 !! "water_reminder_config.json" =
    Some (Document (PyDict (map_to_list (config r.2)))).
Proof. intros r. split_and!; vm_compute; reflexivity. Qed.

(** * Further properties *)

(** Membership in a list that is written out. *)
Ltac in_list :=
  repeat first [apply list_elem_of_here | apply list_elem_of_further].

(** ** Construction and the notifier *)

Lemma has_all_fields_insert (c : gmap string pyval) (k : string) (v : pyval) :
  has_all_fields c = true -> has_all_fields (<[k := v]> c) = true.
Proof.
  unfold has_all_fields. rewrite !forallb_forall. intros H x Hx.
  specialize (H x Hx). apply bool_decide_eq_true_1 in H.
  apply bool_decide_eq_true_2.
  destruct (decide (k = x)) as [->|Hne].
  - rewrite lookup_insert_eq. eauto.
  - by rewrite lookup_insert_ne.
Qed.

Lemma has_all_fields_lookup (c : gmap string pyval) (k : string) :
  has_all_fields c = true -> k ∈ documented_fields -> is_Some (c !! k).
Proof.
  unfold has_all_fields. rewrite forallb_forall. intros H Hk.
  apply list_elem_of_In, H in Hk. by apply bool_decide_eq_true_1 in Hk.
Qed.

(** The run of [__init__]. *)
Lemma WaterReminder_init_run (path : string) (s : State) :
  exists c o,
    WaterReminder_init path s =
      (Ok tt, with_config_other o (with_config c (with_config_file path s))) /\
    load_config (with_config_file path s) = (Ok c, with_config_file path s) /\
    load_config_other (with_config_file path s) =
      (Ok o, with_config_file path s) /\
    has_all_fields c = true.
Proof.
  unfold WaterReminder_init, modify. unfold bind at 1. unfold bind at 1.
  rewrite load_config_eval. unfold bind at 1. rewrite load_config_other_eval.
  do 2 eexists. split; [reflexivity|]. split; [done|]. split; [done|].
  apply (load_config_has_all_fields (with_config_file path s)).
  by rewrite load_config_eval.
Qed.

(** X1. Constructing a [WaterReminder] never raises and writes nothing,
    whatever the working directory holds; the settings it ends with hold
    every documented field. *)
Theorem init_gives_all_fields (path : string) (s : State) :
  exists s',
    WaterReminder_init path s = (Ok tt, s') /\
    has_all_fields (config s') = true /\
    config_file s' = path /\ files s' = files s /\
    stdout s' = stdout s /\ shown s' = shown s.
Proof.
  destruct (WaterReminder_init_run path s) as (c & o & Hrun & _ & _ & Hall).
  eexists. split; [exact Hrun|]. by split_and!.
Qed.

(** The run of [send_notification] in any state. *)
Lemma send_notification_frame (E : Env) (s : State) :
  (forall e, notify E (notify_calls s) = Some e -> is_Exception e = true) ->
  exists b s',
    send_notification E s = (Ok b, s') /\
    config s' = config s /\ files s' = files s /\
    config_file s' = config_file s /\ stdin s' = stdin s /\
    shown s' = (if b then shown s ++ [(default PyNone (config s !! "title"),
                                         default PyNone (config s !! "message"))]
                else shown s) /\
    (b = true <-> is_Some (config s !! "title") /\
                  is_Some (config s !! "message") /\
                  notify E (notify_calls s) = None).
Proof.
  intros Hn.
  unfold send_notification, try_except, getitem, notification_notify,
    datetime_now, print, modify, gets, bind, ret, raise. cbn -[lookup].
  destruct (config s !! "title") as [t|] eqn:Ht; cbn -[lookup];
    [destruct (config s !! "message") as [m|] eqn:Hm; cbn -[lookup];
     [destruct (notify E (notify_calls s)) as [e|] eqn:He; cbn -[lookup];
      [rewrite (Hn e eq_refl)|]|]|];
    (do 2 eexists; split; [reflexivity|]; split_and!; try done;
     first [ split; [done|];
             first [by intros (_ & _ & ?) | by intros (_ & [? ?] & _)
                   | by intros ([? ?] & _)]
           | split; [|done]; intros _; split_and!; by eauto ]).
Qed.

(** X2. Whatever the state, as long as the notification call fails with
    errors only, [send_notification] raises nothing and changes neither
    the settings nor the files; it returns true exactly when the title
    and the message exist and the call returned, and exactly then one
    notification more is on display. *)
Theorem send_notification_never_raises (E : Env) (s : State) :
  (forall e, notify E (notify_calls s) = Some e -> is_Exception e = true) ->
  exists b s',
    send_notification E s = (Ok b, s') /\
    config s' = config s /\ files s' = files s /\
    length (shown s') = (length (shown s) + (if b then 1 else 0))%nat /\
    (b = true <-> is_Some (config s !! "title") /\
                  is_Some (config s !! "message") /\
                  notify E (notify_calls s) = None).
Proof.
  intros Hn.
  destruct (send_notification_frame E s Hn)
    as (b & s' & Hrun & Hc & Hf & _ & _ & Hs & Hb).
  exists b, s'. split_and!; try done.
  rewrite Hs. destruct b; [rewrite length_app; simpl|]; lia.
Qed.

(** The theorem with a notifier that raises [RuntimeError]. *)
Lemma send_notification_never_raises_witness :
  (forall e, notify failing_notifier_env (notify_calls default_state) = Some e ->
             is_Exception e = true) /\
  exists b s',
    send_notification failing_notifier_env default_state = (Ok b, s') /\
    config s' = config default_state /\ files s' = files default_state /\
    length (shown s') = (length (shown default_state) + (if b then 1 else 0))%nat /\
    (b = true <-> is_Some (config default_state !! "title") /\
                  is_Some (config default_state !! "message") /\
                  notify failing_notifier_env (notify_calls default_state) = None).
Proof.
  assert (H : forall e, notify failing_notifier_env (notify_calls default_state) = Some e ->
                        is_Exception e = true).
  { intros e [= <-]. reflexivity. }
  split; [exact H|].
  exact (send_notification_never_raises failing_notifier_env default_state H).
Defined.

(** ** The active-window check in any state *)

Lemma window_parses_inv (c : gmap string pyval) :
  window_parses c = true ->
  exists a b ta tb,
    c !! "start_time" = Some (PyStr a) /\ c !! "end_time" = Some (PyStr b) /\
    strptime_HM a = Some ta /\ strptime_HM b = Some tb.
Proof.
  unfold window_parses, parses. intros [H1 H2]%andb_prop.
  destruct (c !! "start_time") as [[| | |a| |]|]; try done.
  destruct (c !! "end_time") as [[| | |b| |]|]; try done.
  apply bool_decide_eq_true_1 in H1 as [ta Ha].
  apply bool_decide_eq_true_1 in H2 as [tb Hb].
  by exists a, b, ta, tb.
Qed.

(** The run of the check when both ends of the window parse. *)
Lemma is_within_active_hours_parses (E : Env) (s : State) :
  window_parses (config s) = true ->
  is_within_active_hours E s =
    (Ok (active_at (config s) (clock E (clock_reads s))),
     with_clock_reads (S (clock_reads s)) s).
Proof.
  intros (a & b & ta & tb & Hs & He & Ha & Hb)%window_parses_inv.
  rewrite (is_within_active_hours_eval E s a b ta tb Hs He Ha Hb).
  unfold active_at. by rewrite Hs, He, Ha, Hb.
Qed.

(** The run of the check when an end of the window does not parse. *)
Lemma is_within_active_hours_fails (E : Env) (s : State) :
  window_parses (config s) = false ->
  exists e,
    is_within_active_hours E s = (Raise e, with_clock_reads (S (clock_reads s)) s) /\
    (exn_cls e = KeyError \/ exn_cls e = TypeError \/ exn_cls e = ValueError) /\
    (exn_cls e = KeyError ->
     config s !! "start_time" = None \/ config s !! "end_time" = None).
Proof.
  unfold window_parses, parses, is_within_active_hours, datetime_now, getitem,
    strptime_time, modify, gets, bind, ret, raise. cbn -[lookup].
  destruct (config s !! "start_time") as [[| | |a| |]|]; cbn -[lookup];
    [..|destruct (strptime_HM a) as [ta|]; cbn -[lookup];
        [destruct (config s !! "end_time") as [[| | |b| |]|]; cbn -[lookup];
         [..|destruct (strptime_HM b) as [tb|]; cbn -[lookup]| | |]|]| | |];
    intros Hw;
    first [ done
          | eexists; split; [reflexivity|]; split; by auto ].
Qed.

(** X3. The active-window check reads the clock once and changes nothing
    else, whatever its outcome.  It returns exactly when both ends of the
    window are strings that [strptime] accepts; otherwise it raises
    [KeyError], [TypeError] or [ValueError], and never [KeyError] when the
    settings hold every documented field. *)
Theorem active_window_outcomes (E : Env) (s : State) :
  (is_within_active_hours E s).2 = with_clock_reads (S (clock_reads s)) s /\
  (window_parses (config s) = true ->
   (is_within_active_hours E s).1 =
     Ok (active_at (config s) (clock E (clock_reads s)))) /\
  (window_parses (config s) = false ->
   exists e, (is_within_active_hours E s).1 = Raise e /\
             (exn_cls e = KeyError \/ exn_cls e = TypeError \/ exn_cls e = ValueError) /\
             (has_all_fields (config s) = true -> exn_cls e <> KeyError)).
Proof.
  split; [|split].
  - destruct (window_parses (config s)) eqn:Hw.
    + by rewrite is_within_active_hours_parses.
    + by destruct (is_within_active_hours_fails E s Hw) as (e & -> & _).
  - intros Hw. by rewrite is_within_active_hours_parses.
  - intros Hw. destruct (is_within_active_hours_fails E s Hw) as (e & -> & Hc & Hk).
    exists e. split_and!; try done. intros Hall Hkey.
    destruct (Hk Hkey) as [Hn|Hn].
    + destruct (has_all_fields_lookup (config s) "start_time" Hall) as [v Hv].
      { unfold documented_fields. in_list. }
      congruence.
    + destruct (has_all_fields_lookup (config s) "end_time" Hall) as [v Hv].
      { unfold documented_fields. in_list. }
      congruence.
Qed.

(** The theorem at a settings record whose start time is a number, as a
    hand-edited settings file can hold it. *)
Lemma active_window_outcomes_witness :
  window_parses (<["start_time" := PyInt 8]> default_config) = false /\
  has_all_fields (<["start_time" := PyInt 8]> default_config) = true /\
  exists e,
    (is_within_active_hours working_env
       (with_config (<["start_time" := PyInt 8]> default_config) default_state)).1
      = Raise e /\
    (exn_cls e = KeyError \/ exn_cls e = TypeError \/ exn_cls e = ValueError) /\
    exn_cls e <> KeyError.
Proof.
  split; [vm_compute; reflexivity|].
  assert (Hall : has_all_fields (<["start_time" := PyInt 8]> default_config) = true)
    by (vm_compute; reflexivity).
  split; [exact Hall|].
  destruct (active_window_outcomes working_env
              (with_config (<["start_time" := PyInt 8]> default_config) default_state))
    as (_ & _ & Hfail).
  destruct (Hfail ltac:(vm_compute; reflexivity)) as (e & He & Hc & Hk).
  exists e. split; [exact He|]. split; [exact Hc|]. exact (Hk Hall).
Defined.


(** ** Interactive reconfiguration, in full *)

Lemma has_all_fields_set_opt (o : option pyval) (k : string)
    (c : gmap string pyval) :
  has_all_fields c = true -> has_all_fields (set_opt o k c) = true.
Proof. destruct o; simpl; [apply has_all_fields_insert|done]. Qed.

Lemma has_all_fields_configurable (c : gmap string pyval) :
  has_all_fields c = true ->
  exists i0 s0 e0 m0,
    c !! "interval_minutes" = Some i0 /\ c !! "start_time" = Some s0 /\
    c !! "end_time" = Some e0 /\ c !! "message" = Some m0.
Proof.
  intros Hall.
  destruct (has_all_fields_lookup c "interval_minutes" Hall) as [i0 Hi];
    [unfold documented_fields; in_list|].
  destruct (has_all_fields_lookup c "start_time" Hall) as [s0 Hs];
    [unfold documented_fields; in_list|].
  destruct (has_all_fields_lookup c "end_time" Hall) as [e0 He];
    [unfold documented_fields; in_list|].
  destruct (has_all_fields_lookup c "message" Hall) as [m0 Hm];
    [unfold documented_fields; in_list|].
  by exists i0, s0, e0, m0.
Qed.

Lemma configured_lookup_other (l1 l2 l3 l4 k : string) (c : gmap string pyval) :
  k ∉ configurable -> configured l1 l2 l3 l4 c !! k = c !! k.
Proof.
  unfold configurable, configured. intros Hk.
  rewrite !lookup_set_opt_ne; [done|..]; intros <-; apply Hk; in_list.
Qed.

Lemma configured_has_all_fields (l1 l2 l3 l4 : string) (c : gmap string pyval) :
  has_all_fields c = true -> has_all_fields (configured l1 l2 l3 l4 c) = true.
Proof. intros H. unfold configured. by do 4 apply has_all_fields_set_opt. Qed.

(** X4. With four lines of input, settings that hold every documented
    field and a settings file that can be written, [configure] returns;
    it leaves alone every field it does not
    ask about and every field whose answer is blank, the settings still
    hold every documented field, and no notification is sent. *)
Theorem configure_keeps_unanswered_fields (s : State) (l1 l2 l3 l4 : string)
    (rest : list string) :
  has_all_fields (config s) = true ->
  stdin s = l1 :: l2 :: l3 :: l4 :: rest ->
  writable s (config_file s) ->
  exists s',
    configure s = (Ok tt, s') /\
    has_all_fields (config s') = true /\
    (forall k, k ∉ configurable -> config s' !! k = config s !! k) /\
    (nonblank l1 = false ->
     config s' !! "interval_minutes" = config s !! "interval_minutes") /\
    (nonblank l2 = false ->
     config s' !! "start_time" = config s !! "start_time") /\
    (nonblank l3 = false ->
     config s' !! "end_time" = config s !! "end_time") /\
    (nonblank l4 = false ->
     config s' !! "message" = config s !! "message") /\
    stdin s' = rest /\ shown s' = shown s /\ notify_calls s' = notify_calls s.
Proof.
  intros Hall Hin Hw.
  destruct (has_all_fields_configurable _ Hall) as (i0 & s0 & e0 & m0 & Hi & Hs & He & Hm).
  destruct (configure_run s l1 l2 l3 l4 rest i0 s0 e0 m0 Hin Hi Hs He Hm Hw)
    as (s' & Hrun & Hc & _ & Hrest & _ & _ & Hsh & Hn & _).
  exists s'. rewrite Hc.
  split_and!; try done;
    [by apply configured_has_all_fields
    |intros k; apply configured_lookup_other|..];
    intros Hb; unfold configured, answer, interval_answer; rewrite Hb;
    by repeat first [ rewrite lookup_set_opt_ne by done
                    | rewrite lookup_set_opt_eq ].
Qed.

(** The theorem when only the message is answered. *)
Lemma configure_keeps_unanswered_fields_witness :
  let s := with_stdin [ ""; " "; ""; "Drink!" ] default_state in
  has_all_fields (config s) = true /\
  stdin s = [ ""; " "; ""; "Drink!" ] /\
  writable s (config_file s) /\
  exists s',
    configure s = (Ok tt, s') /\
    has_all_fields (config s') = true /\
    (forall k, k ∉ configurable -> config s' !! k = config s !! k) /\
    (nonblank "" = false ->
     config s' !! "interval_minutes" = config s !! "interval_minutes") /\
    (nonblank " " = false ->
     config s' !! "start_time" = config s !! "start_time") /\
    (nonblank "" = false ->
     config s' !! "end_time" = config s !! "end_time") /\
    (nonblank "Drink!" = false ->
     config s' !! "message" = config s !! "message") /\
    stdin s' = [] /\ shown s' = shown s /\ notify_calls s' = notify_calls s.
Proof.
  intros s.
  assert (Hw : writable s (config_file s)) by (by intros content).
  split; [vm_compute; reflexivity|]. split; [reflexivity|]. split; [exact Hw|].
  apply (configure_keeps_unanswered_fields s "" " " "" "Drink!" []);
    [vm_compute; reflexivity | reflexivity | exact Hw].
Defined.

(** X5. The interval answer of [configure] is checked by [int] and by
    nothing else: with a settings file that can be written, any integer
    that [int] reads, zero and negative ones included, becomes the
    interval; any other answer that is not blank (a literal of more than
    4300 digits among them) is reported and the interval stays as it
    was. *)
Theorem configure_interval_any_integer (s : State) (l1 l2 l3 l4 : string)
    (rest : list string) :
  has_all_fields (config s) = true ->
  stdin s = l1 :: l2 :: l3 :: l4 :: rest ->
  writable s (config_file s) ->
  nonblank l1 = true ->
  exists s',
    configure s = (Ok tt, s') /\
    match py_int l1 with
    | Some n => config s' !! "interval_minutes" = Some (PyInt n)
    | None =>
        config s' !! "interval_minutes" = config s !! "interval_minutes" /\
        "Invalid interval, keeping current value" ∈ stdout s'
    end.
Proof.
  intros Hall Hin Hw Hb.
  destruct (has_all_fields_configurable _ Hall) as (i0 & s0 & e0 & m0 & Hi & Hs & He & Hm).
  destruct (configure_run s l1 l2 l3 l4 rest i0 s0 e0 m0 Hin Hi Hs He Hm Hw)
    as (s' & Hrun & Hc & _ & _ & _ & _ & _ & _ & _ & Hout).
  exists s'. split; [done|]. rewrite Hc. unfold configured, interval_answer.
  rewrite Hb, !lookup_set_opt_ne, lookup_set_opt_eq by done.
  destruct (py_int l1) as [n|]; simpl; [done|]. split; [done|]. by apply Hout.
Qed.

(** The theorem at the answer [-5], which is stored. *)
Lemma configure_interval_any_integer_witness :
  let s := with_stdin [ "-5"; ""; ""; "" ] default_state in
  has_all_fields (config s) = true /\
  stdin s = [ "-5"; ""; ""; "" ] /\
  writable s (config_file s) /\
  nonblank "-5" = true /\
  py_int "-5" = Some (-5) /\
  exists s',
    configure s = (Ok tt, s') /\
    match py_int "-5" with
    | Some n => config s' !! "interval_minutes" = Some (PyInt n)
    | None =>
        config s' !! "interval_minutes" = config s !! "interval_minutes" /\
        "Invalid interval, keeping current value" ∈ stdout s'
    end.
Proof.
  intros s.
  assert (Hw : writable s (config_file s)) by (by intros content).
  split; [vm_compute; reflexivity|]. split; [reflexivity|]. split; [exact Hw|].
  split; [vm_compute; reflexivity|]. split; [vm_compute; reflexivity|].
  apply (configure_interval_any_integer s "-5" "" "" "" []);
    [vm_compute; reflexivity | reflexivity | exact Hw | vm_compute; reflexivity].
Defined.

(** A settings file that [save_config] wrote for a record with string
    keys only gives that record back, to any instance. *)
Lemma load_saved_settings (t : State) (c : gmap string pyval) :
  files t !! config_file t = Some (Document (settings_document c [])) ->
  has_all_fields c = true ->
  load_config t = (Ok c, t) /\ load_config_other t = (Ok [], t).
Proof.
  intros Hf Hall. rewrite load_config_eval, load_config_other_eval, Hf. simpl.
  by rewrite update_from_members_map_to_list, union_default_config.
Qed.

(** X6. What [configure] ends with is what it saved: with settings that
    have string keys only and a settings file that can be written, the
    file holds the settings of the instance afterwards; loading it gives
    them back, and so does constructing a new instance on the same file,
    whatever that instance held in memory before. *)
Theorem configure_persists_settings (s : State) (l1 l2 l3 l4 : string)
    (rest : list string) :
  has_all_fields (config s) = true ->
  config_other s = [] ->
  stdin s = l1 :: l2 :: l3 :: l4 :: rest ->
  writable s (config_file s) ->
  exists s',
    configure s = (Ok tt, s') /\
    files s' !! config_file s' =
      Some (Document (settings_document (config s') (config_other s'))) /\
    forall c0 o0,
      let fresh := with_config_other o0 (with_config c0 s') in
      load_config fresh = (Ok (config s'), fresh) /\
      exists s'',
        WaterReminder_init (config_file s') fresh = (Ok tt, s'') /\
        config s'' = config s' /\ config_other s'' = config_other s'.
Proof.
  intros Hall Ho Hin Hw.
  destruct (has_all_fields_configurable _ Hall) as (i0 & s0 & e0 & m0 & Hi & Hs & He & Hm).
  destruct (configure_run s l1 l2 l3 l4 rest i0 s0 e0 m0 Hin Hi Hs He Hm Hw)
    as (s' & Hrun & Hc & Ho' & _ & Hp & Hf & _).
  assert (Hall' : has_all_fields (config s') = true)
    by (rewrite Hc; by apply configured_has_all_fields).
  assert (Hfile : files s' !! config_file s' =
                    Some (Document (settings_document (config s') []))).
  { by rewrite Hf, Hp, Hc, Ho, lookup_insert_eq. }
  exists s'. split; [done|]. rewrite Ho', Ho. split; [done|].
  intros c0 o0 fresh. subst fresh.
  split; [by apply load_saved_settings|].
  destruct (load_saved_settings
              (with_config_file (config_file s')
                 (with_config_other o0 (with_config c0 s'))) (config s'))
    as (Hl & Hlo); [done|done|].
  unfold WaterReminder_init, modify. unfold bind at 1. unfold bind at 1.
  rewrite Hl. unfold bind at 1. rewrite Hlo.
  eexists. split; [reflexivity|]. done.
Qed.

(** The theorem when the interval and the end of the window are
    answered; the instance that loads holds an empty record. *)
Lemma configure_persists_settings_witness :
  let s := with_stdin [ "45"; ""; "21:30"; "" ] default_state in
  has_all_fields (config s) = true /\
  config_other s = [] /\
  stdin s = [ "45"; ""; "21:30"; "" ] /\
  writable s (config_file s) /\
  exists s',
    configure s = (Ok tt, s') /\
    files s' !! config_file s' =
      Some (Document (settings_document (config s') (config_other s'))) /\
    load_config (with_config_other [] (with_config ∅ s')) =
      (Ok (config s'), with_config_other [] (with_config ∅ s')).
Proof.
  intros s.
  assert (Hw : writable s (config_file s)) by (by intros content).
  split; [vm_compute; reflexivity|]. split; [reflexivity|].
  split; [reflexivity|]. split; [exact Hw|].
  destruct (configure_persists_settings s "45" "" "21:30" "" [])
    as (s' & Hrun & Hfile & Hload);
    [vm_compute; reflexivity | reflexivity | reflexivity | exact Hw |].
  exists s'. split; [exact Hrun|]. split; [exact Hfile|].
  exact (proj1 (Hload ∅ [])).
Defined.

(** X7. When the input ends before the fourth answer, [configure] raises
    [EOFError] and writes no file: answers given so far are not saved. *)
Theorem configure_eof_saves_nothing (s : State) :
  has_all_fields (config s) = true ->
  (length (stdin s) < 4)%nat ->
  exists e s',
    configure s = (Raise e, s') /\
    exn_cls e = EOFError /\
    files s' = files s /\ stdin s' = [] /\
    shown s' = shown s.
Proof.
  intros Hall Hlen.
  destruct (has_all_fields_configurable _ Hall) as (i0 & s0 & e0 & m0 & Hi & Hs & He & Hm).
  unfold configure.
  destruct (stdin s) as [|l1 [|l2 [|l3 [|l4 rest]]]] eqn:Hin;
    [..|simpl in Hlen; lia];
    repeat run_step;
    (erewrite bind_Raise
       by (apply input_eof; norm_state; first [eassumption | reflexivity]));
    do 2 eexists; (split; [reflexivity|]); norm_state; by rewrite ?Hin.
Qed.

(** The theorem when the input ends after the interval. *)
Lemma configure_eof_saves_nothing_witness :
  let s := with_stdin [ "45" ] default_state in
  has_all_fields (config s) = true /\
  (length (stdin s) < 4)%nat /\
  exists e s',
    configure s = (Raise e, s') /\
    exn_cls e = EOFError /\
    files s' = files s /\ stdin s' = [] /\
    shown s' = shown s.
Proof.
  intros s. split; [vm_compute; reflexivity|]. split; [simpl; lia|].
  apply (configure_eof_saves_nothing s); [vm_compute; reflexivity | simpl; lia].
Defined.


(** ** Setting up the scheduler *)

(** The run of [create_task_scheduler_batch] when the batch file can be
    written. *)
Lemma create_task_scheduler_batch_run (E : Env) (s : State) :
  writable s "water_reminder_task.bat" ->
  create_task_scheduler_batch E s =
    (Ok (abspath E "water_reminder_task.bat"),
     with_stdout (stdout s ++ ["✅ Created batch script: water_reminder_task.bat"])
       (with_files
          (<["water_reminder_task.bat" :=
               Text ("@echo off" +:+ nl +:+
                     "cd /d " +:+ dq +:+ dirname E (abspath E (script E)) +:+ dq +:+ nl +:+
                     "python " +:+ dq +:+ abspath E (script E) +:+ dq +:+
                       " --notify" +:+ nl)]> (files s)) s)).
Proof.
  intros Hw. unfold create_task_scheduler_batch, write_text.
  erewrite bind_Ok by (apply open_write_Ok, Hw). reflexivity.
Qed.

(** The run of [create_task_scheduler_xml] when the descriptor can be
    written. *)
Lemma create_task_scheduler_xml_run (E : Env) (s : State) (batch_path : string)
    (i0 s0 e0 : pyval) :
  config s !! "interval_minutes" = Some i0 ->
  config s !! "start_time" = Some s0 ->
  config s !! "end_time" = Some e0 ->
  writable s "WaterReminder_Task.xml" ->
  create_task_scheduler_xml E batch_path s =
    (Ok (abspath E "WaterReminder_Task.xml"),
     with_stdout (stdout s ++ ["✅ Created Task Scheduler XML: WaterReminder_Task.xml"])
       (with_files (<["WaterReminder_Task.xml" :=
                        Text (xml_content E i0 s0 e0 batch_path)]> (files s)) s)).
Proof.
  intros Hi Hs He Hw. unfold create_task_scheduler_xml, write_text.
  do 3 run_step.
  erewrite bind_Ok by (apply open_write_Ok, Hw). reflexivity.
Qed.

(** One statement of [setup_task_scheduler]. *)
Ltac setup_step :=
  first
    [ run_step
    | erewrite bind_Ok by (apply create_task_scheduler_batch_run; assumption)
    | erewrite bind_Ok
        by (apply create_task_scheduler_xml_run; norm_state; eassumption) ];
  norm_state.

(** The run of [setup_task_scheduler] when the settings hold the four
    fields it prints and both artifacts can be written. *)
Lemma setup_task_scheduler_run (E : Env) (s : State) (i0 s0 e0 m0 : pyval) :
  config s !! "interval_minutes" = Some i0 ->
  config s !! "start_time" = Some s0 ->
  config s !! "end_time" = Some e0 ->
  config s !! "message" = Some m0 ->
  writable s "water_reminder_task.bat" ->
  writable s "WaterReminder_Task.xml" ->
  exists s',
    setup_task_scheduler E s = (Ok tt, s') /\
    files s' =
      <["WaterReminder_Task.xml" :=
          Text (xml_content E i0 s0 e0 (abspath E "water_reminder_task.bat"))]>
        (<["water_reminder_task.bat" :=
             Text ("@echo off" +:+ nl +:+
                   "cd /d " +:+ dq +:+ dirname E (abspath E (script E)) +:+ dq +:+ nl +:+
                   "python " +:+ dq +:+ abspath E (script E) +:+ dq +:+
                     " --notify" +:+ nl)]> (files s)) /\
    config s' = config s /\ config_file s' = config_file s /\
    stdin s' = stdin s /\ shown s' = shown s /\
    notify_calls s' = notify_calls s /\ clock_reads s' = clock_reads s /\
    write_failure s' = write_failure s.
Proof.
  intros Hi Hs He Hm Hwb Hwx.
  unfold setup_task_scheduler.
  repeat setup_step. unfold print, modify. norm_state.
  eexists. split; [reflexivity|]. norm_state. by split_and!.
Qed.

Lemma setup_files_lookup (fs : gmap string file) (x b : file) :
  (<["WaterReminder_Task.xml" := x]> (<["water_reminder_task.bat" := b]> fs))
    !! "WaterReminder_Task.xml" = Some x /\
  (<["WaterReminder_Task.xml" := x]> (<["water_reminder_task.bat" := b]> fs))
    !! "water_reminder_task.bat" = Some b /\
  forall p, p <> "water_reminder_task.bat" -> p <> "WaterReminder_Task.xml" ->
    (<["WaterReminder_Task.xml" := x]> (<["water_reminder_task.bat" := b]> fs))
      !! p = fs !! p.
Proof.
  split_and!.
  - by rewrite lookup_insert_eq.
  - by rewrite lookup_insert_ne, lookup_insert_eq.
  - intros p H1 H2. by rewrite !lookup_insert_ne.
Qed.

(** X8. With settings that hold every documented field, and when the
    host lets both artifacts be written, [setup_task_scheduler] returns
    and leaves two files: the batch script,
    which changes to the directory of the program and runs it with
    [--notify], and the descriptor made from the current interval and
    window and from the absolute path of the batch script.  It touches no
    other file, changes no setting, reads no input and sends nothing. *)
Theorem setup_writes_both_artifacts (E : Env) (s : State) :
  has_all_fields (config s) = true ->
  writable s "water_reminder_task.bat" ->
  writable s "WaterReminder_Task.xml" ->
  exists s' interval start_time end_time,
    setup_task_scheduler E s = (Ok tt, s') /\
    config s !! "interval_minutes" = Some interval /\
    config s !! "start_time" = Some start_time /\
    config s !! "end_time" = Some end_time /\
    files s' !! "water_reminder_task.bat" =
      Some (Text ("@echo off" +:+ nl +:+
                  "cd /d " +:+ dq +:+ dirname E (abspath E (script E)) +:+ dq +:+ nl +:+
                  "python " +:+ dq +:+ abspath E (script E) +:+ dq +:+
                    " --notify" +:+ nl)) /\
    files s' !! "WaterReminder_Task.xml" =
      Some (Text (xml_content E interval start_time end_time
                    (abspath E "water_reminder_task.bat"))) /\
    (forall p, p <> "water_reminder_task.bat" -> p <> "WaterReminder_Task.xml" ->
               files s' !! p = files s !! p) /\
    config s' = config s /\ stdin s' = stdin s /\ shown s' = shown s /\
    notify_calls s' = notify_calls s.
Proof.
  intros Hall Hwb Hwx.
  destruct (has_all_fields_configurable _ Hall) as (i0 & s0 & e0 & m0 & Hi & Hs & He & Hm).
  destruct (setup_task_scheduler_run E s i0 s0 e0 m0 Hi Hs He Hm Hwb Hwx)
    as (s' & Hrun & Hf & Hc & _ & Hin & Hsh & Hn & _).
  exists s', i0, s0, e0. rewrite Hf.
  destruct (setup_files_lookup (files s)
              (Text (xml_content E i0 s0 e0 (abspath E "water_reminder_task.bat")))
              (Text ("@echo off" +:+ nl +:+
                     "cd /d " +:+ dq +:+ dirname E (abspath E (script E)) +:+ dq +:+ nl +:+
                     "python " +:+ dq +:+ abspath E (script E) +:+ dq +:+
                       " --notify" +:+ nl)))
    as (Hx & Hb & Ho).
  by split_and!.
Qed.

(** The theorem at the default settings. *)
Lemma setup_writes_both_artifacts_witness :
  has_all_fields (config default_state) = true /\
  writable default_state "water_reminder_task.bat" /\
  writable default_state "WaterReminder_Task.xml" /\
  exists s' interval start_time end_time,
    setup_task_scheduler working_env default_state = (Ok tt, s') /\
    config default_state !! "interval_minutes" = Some interval /\
    config default_state !! "start_time" = Some start_time /\
    config default_state !! "end_time" = Some end_time /\
    files s' !! "water_reminder_task.bat" =
      Some (Text ("@echo off" +:+ nl +:+
                  "cd /d " +:+ dq +:+ "C:/water" +:+ dq +:+ nl +:+
                  "python " +:+ dq +:+ "C:/water/main.py" +:+ dq +:+
                    " --notify" +:+ nl)) /\
    files s' !! "WaterReminder_Task.xml" =
      Some (Text (xml_content working_env interval start_time end_time
                    "C:/water/water_reminder_task.bat")) /\
    (forall p, p <> "water_reminder_task.bat" -> p <> "WaterReminder_Task.xml" ->
               files s' !! p = files default_state !! p) /\
    config s' = config default_state /\ stdin s' = stdin default_state /\
    shown s' = shown default_state /\
    notify_calls s' = notify_calls default_state.
Proof.
  assert (Hw : forall p, writable default_state p) by (by intros p content).
  split; [vm_compute; reflexivity|]. split; [apply Hw|]. split; [apply Hw|].
  apply (setup_writes_both_artifacts working_env default_state);
    [vm_compute; reflexivity | apply Hw | apply Hw].
Defined.

(** X9. When the host lets both artifacts be written, setting up a
    second time changes nothing more: the files and the settings after
    two runs of [setup_task_scheduler] are those after one. *)
Theorem setup_twice_same_files (E : Env) (s : State) :
  has_all_fields (config s) = true ->
  writable s "water_reminder_task.bat" ->
  writable s "WaterReminder_Task.xml" ->
  exists s1 s2,
    setup_task_scheduler E s = (Ok tt, s1) /\
    setup_task_scheduler E s1 = (Ok tt, s2) /\
    files s2 = files s1 /\ config s2 = config s1 /\ shown s2 = shown s.
Proof.
  intros Hall Hwb Hwx.
  destruct (has_all_fields_configurable _ Hall) as (i0 & s0 & e0 & m0 & Hi & Hs & He & Hm).
  destruct (setup_task_scheduler_run E s i0 s0 e0 m0 Hi Hs He Hm Hwb Hwx)
    as (s1 & Hrun1 & Hf1 & Hc1 & _ & _ & Hsh1 & _ & _ & Hwf).
  rewrite <- Hc1 in Hi, Hs, He, Hm.
  unfold writable in Hwb, Hwx. rewrite <- Hwf in Hwb, Hwx.
  destruct (setup_task_scheduler_run E s1 i0 s0 e0 m0 Hi Hs He Hm Hwb Hwx)
    as (s2 & Hrun2 & Hf2 & Hc2 & _ & _ & Hsh2 & _).
  exists s1, s2. split_and!; try done; [|congruence].
  rewrite Hf2, Hf1. apply map_eq. intros p.
  destruct (decide (p = "WaterReminder_Task.xml")) as [->|Hx];
    [by rewrite !lookup_insert_eq|].
  rewrite !(lookup_insert_ne _ "WaterReminder_Task.xml") by done.
  destruct (decide (p = "water_reminder_task.bat")) as [->|Hb];
    [by rewrite !lookup_insert_eq|].
  rewrite !(lookup_insert_ne _ "water_reminder_task.bat") by done.
  by rewrite !lookup_insert_ne.
Qed.

(** The theorem at the default settings. *)
Lemma setup_twice_same_files_witness :
  has_all_fields (config default_state) = true /\
  writable default_state "water_reminder_task.bat" /\
  writable default_state "WaterReminder_Task.xml" /\
  exists s1 s2,
    setup_task_scheduler working_env default_state = (Ok tt, s1) /\
    setup_task_scheduler working_env s1 = (Ok tt, s2) /\
    files s2 = files s1 /\ config s2 = config s1 /\
    shown s2 = shown default_state.
Proof.
  assert (Hw : forall p, writable default_state p) by (by intros p content).
  split; [vm_compute; reflexivity|]. split; [apply Hw|]. split; [apply Hw|].
  apply (setup_twice_same_files working_env default_state);
    [vm_compute; reflexivity | apply Hw | apply Hw].
Defined.

(** ** The status report *)

(** The query of the scheduler never raises and changes nothing; it
    answers true exactly for the return code 0. *)
Lemma check_task_scheduler_status_run (E : Env) (s : State) :
  check_task_scheduler_status E s = (Ok (bool_decide (schtasks E = Some 0)), s).
Proof.
  unfold check_task_scheduler_status, subprocess_run_schtasks, try_except,
    bind, ret, raise.
  destruct (schtasks E) as [[|p|p]|]; simpl; try done.
Qed.

(** The statements of [get_status_info] that precede the window check. *)
Lemma get_status_info_eval (E : Env) (s : State) :
  get_status_info E s =
    (is_active_time <- is_within_active_hours E ;;
     ret (PyDict
            [ ("files_created",
               PyBool (bool_decide (is_Some (files s !! "water_reminder_task.bat")) &&
                       bool_decide (is_Some (files s !! "WaterReminder_Task.xml"))));
              ("task_scheduled", PyBool (bool_decide (schtasks E = Some 0)));
              ("last_reminder", default PyNone (config s !! "last_reminder"));
              ("is_active_time", PyBool is_active_time) ])) s.
Proof.
  unfold get_status_info. unfold bind at 1 2 3 4.
  unfold path_exists, gets, config_get.
  by rewrite check_task_scheduler_status_run.
Qed.

(** X10. The status report changes nothing but the count of clock
    readings.  When both ends of the window parse it returns: the files
    count as created when both artifacts exist, the task as scheduled
    exactly when the query of the scheduler ran and returned 0, a
    missing [last_reminder] is reported as [None].  When an end of the
    window does not parse, the report raises. *)
Theorem status_report_outcomes (E : Env) (s : State) :
  (get_status_info E s).2 = with_clock_reads (S (clock_reads s)) s /\
  (window_parses (config s) = true ->
   (get_status_info E s).1 =
     Ok (PyDict
           [ ("files_created",
              PyBool (bool_decide (is_Some (files s !! "water_reminder_task.bat")) &&
                      bool_decide (is_Some (files s !! "WaterReminder_Task.xml"))));
             ("task_scheduled", PyBool (bool_decide (schtasks E = Some 0)));
             ("last_reminder", default PyNone (config s !! "last_reminder"));
             ("is_active_time",
              PyBool (active_at (config s) (clock E (clock_reads s)))) ])) /\
  (window_parses (config s) = false ->
   exists e, (get_status_info E s).1 = Raise e /\
             (exn_cls e = KeyError \/ exn_cls e = TypeError \/
              exn_cls e = ValueError)).
Proof.
  rewrite get_status_info_eval. unfold bind.
  destruct (window_parses (config s)) eqn:Hw.
  - rewrite is_within_active_hours_parses by done. by split_and!.
  - destruct (is_within_active_hours_fails E s Hw) as (e & -> & Hc & _).
    split_and!; [done|done|]. intros _. by exists e.
Qed.

(** X11. When the host lets both artifacts be written and both ends of
    the window parse, the status report that follows
    [setup_task_scheduler] counts the files as created, whether or not
    they existed before; whether the task counts as scheduled still
    depends on the scheduler alone. *)
Theorem setup_then_status (E : Env) (s : State) :
  has_all_fields (config s) = true ->
  window_parses (config s) = true ->
  writable s "water_reminder_task.bat" ->
  writable s "WaterReminder_Task.xml" ->
  exists s' s'' active,
    setup_task_scheduler E s = (Ok tt, s') /\
    get_status_info E s' =
      (Ok (PyDict
             [ ("files_created", PyBool true);
               ("task_scheduled", PyBool (bool_decide (schtasks E = Some 0)));
               ("last_reminder", default PyNone (config s !! "last_reminder"));
               ("is_active_time", PyBool active) ]), s'').
Proof.
  intros Hall Hw Hwb Hwx.
  destruct (has_all_fields_configurable _ Hall) as (i0 & s0 & e0 & m0 & Hi & Hs & He & Hm).
  destruct (setup_task_scheduler_run E s i0 s0 e0 m0 Hi Hs He Hm Hwb Hwx)
    as (s' & Hrun & Hf & Hc & _).
  exists s'. do 2 eexists. split; [done|].
  rewrite get_status_info_eval. unfold bind.
  rewrite is_within_active_hours_parses by (by rewrite Hc).
  rewrite Hf, Hc.
  rewrite lookup_insert_eq, lookup_insert_ne, lookup_insert_eq by done.
  rewrite !bool_decide_eq_true_2 by eauto. reflexivity.
Qed.

(** The theorem at the default settings, on a host where no such task is
    registered. *)
Lemma setup_then_status_witness :
  let E := unregistered_env in
  has_all_fields (config default_state) = true /\
  window_parses (config default_state) = true /\
  writable default_state "water_reminder_task.bat" /\
  writable default_state "WaterReminder_Task.xml" /\
  exists s' s'' active,
    setup_task_scheduler E default_state = (Ok tt, s') /\
    get_status_info E s' =
      (Ok (PyDict
             [ ("files_created", PyBool true);
               ("task_scheduled", PyBool (bool_decide (schtasks E = Some 0)));
               ("last_reminder",
                default PyNone (config default_state !! "last_reminder"));
               ("is_active_time", PyBool active) ]), s'').
Proof.
  intros E.
  assert (Hw : forall p, writable default_state p) by (by intros p content).
  split; [vm_compute; reflexivity|]. split; [vm_compute; reflexivity|].
  split; [apply Hw|]. split; [apply Hw|].
  apply (setup_then_status E default_state);
    [vm_compute; reflexivity | vm_compute; reflexivity | apply Hw | apply Hw].
Defined.


(** ** The menus *)

Lemma eqb_other (choice k : string) (known : list string) :
  choice ∉ known -> k ∈ known -> String.eqb choice k = false.
Proof. intros Hn Hk. apply String.eqb_neq. by intros ->. Qed.

(** X12. An answer that is none of the digits on offer makes each menu
    print [Invalid choice] and return; nothing is sent, set or written.
    The answer is compared as typed; in the two menus with five entries,
    6 is such an answer. *)
Theorem menus_reject_other_answers (E : Env) (s : State) (choice : string)
    (rest : list string) :
  stdin s = choice :: rest ->
  choice ∉ [ "1"; "2"; "3"; "4"; "5" ] ->
  forall menu,
    menu = menu_not_scheduled E \/ menu = menu_welcome E \/
    (choice <> "6" /\ menu = menu_scheduled E) ->
    exists s',
      menu s = (Ok tt, s') /\
      last (stdout s') = Some "Invalid choice" /\
      stdin s' = rest /\ config s' = config s /\ files s' = files s /\
      shown s' = shown s /\ notify_calls s' = notify_calls s.
Proof.
  intros Hin Hno menu Hmenu.
  assert (H1 := eqb_other choice "1" _ Hno ltac:(in_list)).
  assert (H2 := eqb_other choice "2" _ Hno ltac:(in_list)).
  assert (H3 := eqb_other choice "3" _ Hno ltac:(in_list)).
  assert (H4 := eqb_other choice "4" _ Hno ltac:(in_list)).
  assert (H5 := eqb_other choice "5" _ Hno ltac:(in_list)).
  destruct Hmenu as [-> | [-> | [H6%String.eqb_neq ->]]].
  - unfold menu_not_scheduled. do 7 run_step. rewrite H1, H2, H3, H4, H5.
    unfold print, modify. norm_state. eexists. split; [reflexivity|].
    norm_state. by rewrite last_snoc.
  - unfold menu_welcome. do 7 run_step. rewrite H1, H2, H3, H4, H5.
    unfold print, modify. norm_state. eexists. split; [reflexivity|].
    norm_state. by rewrite last_snoc.
  - unfold menu_scheduled. do 8 run_step. rewrite H1, H2, H3, H4, H5, H6.
    unfold print, modify. norm_state. eexists. split; [reflexivity|].
    norm_state. by rewrite last_snoc.
Qed.

(** The theorem at the answer 6 in the welcome menu. *)
Lemma menus_reject_other_answers_witness :
  let s := with_stdin [ "6" ] default_state in
  stdin s = [ "6" ] /\
  ("6" ∉ [ "1"; "2"; "3"; "4"; "5" ]) /\
  exists s',
    menu_welcome working_env s = (Ok tt, s') /\
    last (stdout s') = Some "Invalid choice" /\
    stdin s' = [] /\ config s' = config s /\ files s' = files s /\
    shown s' = shown s /\ notify_calls s' = notify_calls s.
Proof.
  intros s.
  assert (Hno : "6" ∉ [ "1"; "2"; "3"; "4"; "5" ]).
  { rewrite !elem_of_cons, elem_of_nil. intros H.
    repeat destruct H as [H|H]; done. }
  split; [reflexivity|]. split; [exact Hno|].
  apply (menus_reject_other_answers working_env s "6" [] eq_refl Hno).
  right. by left.
Defined.

(** ** Runs of the program *)

Lemma started_run (s : State) :
  WaterReminder_init "water_reminder_config.json" s = (Ok tt, started s) /\
  has_all_fields (config (started s)) = true /\
  config_file (started s) = "water_reminder_config.json" /\
  files (started s) = files s /\ stdin (started s) = stdin s /\
  stdout (started s) = stdout s /\ shown (started s) = shown s /\
  notify_calls (started s) = notify_calls s /\
  clock_reads (started s) = clock_reads s /\
  write_failure (started s) = write_failure s.
Proof.
  unfold started.
  destruct (WaterReminder_init_run "water_reminder_config.json" s)
    as (c & o & -> & _ & _ & Hall).
  by split_and!.
Qed.

(** The program constructs the instance and then takes the branch of its
    flags. *)
Lemma program_started (E : Env) (args : Args) (s : State) :
  plyer_installed E = true ->
  program E args s =
    (if arg_notify args then notify_once E
     else if arg_continuous args then call_ E "run_continuous"
     else if arg_configure args then call_ E "configure"
     else if arg_setup args then call_ E "setup_task_scheduler"
     else interactive E) (started s).
Proof.
  intros Hp. unfold program, main. rewrite Hp.
  destruct (started_run s) as (Hrun & _).
  by rewrite (bind_Ok _ _ _ _ _ Hrun).
Qed.

(** A call of a method that returns nothing, as a statement. *)
Lemma as_none_Ok (m : M unit) (s s' : State) :
  m s = (Ok tt, s') -> (as_none m ;; ret tt) s = (Ok tt, s').
Proof. unfold as_none, bind, ret. by intros ->. Qed.

Lemma as_none_Raise (m : M unit) (s s' : State) (e : exn) :
  m s = (Raise e, s') -> (as_none m ;; ret tt) s = (Raise e, s').
Proof. unfold as_none, bind, ret. by intros ->. Qed.

Lemma call_setup_task_scheduler (E : Env) (s : State) :
  call_ E "setup_task_scheduler" s =
    (as_none (setup_task_scheduler E) ;; ret tt) s.
Proof. reflexivity. Qed.

(** X13. Under [--setup], whenever the host lets both artifacts be
    written, the program returns, whatever the settings file holds: both
    artifacts exist afterwards, the settings file is as it was, and
    nothing is sent. *)
Theorem setup_mode_succeeds (E : Env) (args : Args) (s : State) :
  plyer_installed E = true ->
  arg_notify args = false -> arg_continuous args = false ->
  arg_configure args = false -> arg_setup args = true ->
  writable s "water_reminder_task.bat" ->
  writable s "WaterReminder_Task.xml" ->
  exists s',
    program E args s = (Ok tt, s') /\
    is_Some (files s' !! "water_reminder_task.bat") /\
    is_Some (files s' !! "WaterReminder_Task.xml") /\
    files s' !! "water_reminder_config.json" =
      files s !! "water_reminder_config.json" /\
    shown s' = shown s /\ notify_calls s' = notify_calls s.
Proof.
  intros Hp Hn Hc Hg Hs Hwb Hwx. rewrite program_started by done.
  rewrite Hn, Hc, Hg, Hs, call_setup_task_scheduler.
  destruct (started_run s) as (_ & Hall & _ & Hf & _ & _ & Hsh & Hnc & _ & Hwf).
  destruct (has_all_fields_configurable _ Hall) as (i0 & s0 & e0 & m0 & Hi & Hst & He & Hm).
  unfold writable in Hwb, Hwx. rewrite <- Hwf in Hwb, Hwx.
  destruct (setup_task_scheduler_run E (started s) i0 s0 e0 m0 Hi Hst He Hm Hwb Hwx)
    as (s' & Hrun & Hf' & _ & _ & _ & Hsh' & Hnc' & _).
  exists s'. rewrite (as_none_Ok _ _ _ Hrun). split; [done|].
  rewrite Hf', Hf.
  rewrite lookup_insert_eq, lookup_insert_ne, lookup_insert_eq by done.
  rewrite !lookup_insert_ne by done.
  split_and!; eauto; congruence.
Qed.

(** The theorem in a working directory whose settings file is not a
    JSON document of settings. *)
Lemma setup_mode_succeeds_witness :
  plyer_installed working_env = true /\
  writable malformed_state "water_reminder_task.bat" /\
  writable malformed_state "WaterReminder_Task.xml" /\
  exists s',
    program working_env setup_flags malformed_state = (Ok tt, s') /\
    is_Some (files s' !! "water_reminder_task.bat") /\
    is_Some (files s' !! "WaterReminder_Task.xml") /\
    files s' !! "water_reminder_config.json" =
      files malformed_state !! "water_reminder_config.json" /\
    shown s' = shown malformed_state /\
    notify_calls s' = notify_calls malformed_state.
Proof.
  assert (Hw : forall p, writable malformed_state p) by (by intros p content).
  split; [reflexivity|]. split; [apply Hw|]. split; [apply Hw|].
  apply (setup_mode_succeeds working_env setup_flags malformed_state);
    first [reflexivity | apply Hw].
Defined.

(** The window check as a method call. *)
Lemma call_is_within_active_hours_parses (E : Env) (s : State) :
  window_parses (config s) = true ->
  call E "is_within_active_hours" s =
    (Ok (PyBool (active_at (config s) (clock E (clock_reads s)))),
     with_clock_reads (S (clock_reads s)) s).
Proof.
  intros Hw. rewrite call_is_within_active_hours. unfold as_bool, bind.
  by rewrite is_within_active_hours_parses.
Qed.

Lemma call_is_within_active_hours_fails (E : Env) (s : State) :
  window_parses (config s) = false ->
  has_all_fields (config s) = true ->
  exists e,
    call E "is_within_active_hours" s =
      (Raise e, with_clock_reads (S (clock_reads s)) s) /\
    (exn_cls e = TypeError \/ exn_cls e = ValueError).
Proof.
  intros Hw Hall. rewrite call_is_within_active_hours. unfold as_bool, bind.
  destruct (is_within_active_hours_fails E s Hw) as (e & -> & Hc & Hk).
  exists e. split; [done|]. destruct Hc as [Hc|Hc]; [|done].
  destruct (has_all_fields_lookup _ "start_time" Hall) as [? ?];
    [unfold documented_fields; in_list|].
  destruct (has_all_fields_lookup _ "end_time" Hall) as [? ?];
    [unfold documented_fields; in_list|].
  destruct (Hk Hc); congruence.
Qed.

(** X14. Under [--notify] the program never displays a notification,
    never calls the notifier and never writes a file, in any state and
    at any time of day; it ends without an exception exactly when both
    ends of the window parse and the clock is outside the window. *)
Theorem notify_mode_never_notifies (E : Env) (args : Args) (s : State) :
  plyer_installed E = true ->
  arg_notify args = true ->
  let r := program E args s in
  shown r.2 = shown s /\ notify_calls r.2 = notify_calls s /\
  files r.2 = files s /\
  (r.1 = Ok tt <->
   window_parses (config (started s)) = true /\
   active_at (config (started s)) (clock E (clock_reads s)) = false).
Proof.
  intros Hp Hn r. subst r. rewrite program_started by done. rewrite Hn.
  destruct (started_run s) as (_ & Hall & _ & Hf & _ & _ & Hsh & Hnc & Hcr & _).
  assert (exists r,
            notify_once E (started s) =
              (r, with_clock_reads (S (clock_reads (started s))) (started s)) /\
            (r = Ok tt <->
             window_parses (config (started s)) = true /\
             active_at (config (started s)) (clock E (clock_reads s)) = false))
    as (r & -> & Hr).
  { unfold notify_once, bind at 1.
    destruct (window_parses (config (started s))) eqn:Hw.
    - rewrite call_is_within_active_hours_parses by done. rewrite Hcr.
      destruct (active_at _ _); simpl; eexists; (split; [reflexivity|]).
      + split; [done|]. by intros [_ ?].
      + done.
    - destruct (call_is_within_active_hours_fails E (started s) Hw Hall)
        as (e & -> & _).
      eexists. split; [reflexivity|]. split; [done|]. by intros [? _]. }
  by split_and!.
Qed.

(** The theorem at 09:00 with the default settings, inside the window. *)
Lemma notify_mode_never_notifies_witness :
  plyer_installed working_env = true /\
  arg_notify notify_flags = true /\
  let r := program working_env notify_flags empty_state in
  shown r.2 = shown empty_state /\ notify_calls r.2 = notify_calls empty_state /\
  files r.2 = files empty_state /\
  (r.1 = Ok tt <->
   window_parses (config (started empty_state)) = true /\
   active_at (config (started empty_state))
     (clock working_env (clock_reads empty_state)) = false).
Proof.
  split; [reflexivity|]. split; [reflexivity|].
  exact (notify_mode_never_notifies working_env notify_flags empty_state
           eq_refl eq_refl).
Defined.


(** ** The continuous loop *)

Lemma same_schedule_refl (c : gmap string pyval) : same_schedule c c.
Proof. by intros k _. Qed.

Lemma same_schedule_trans (c1 c2 c3 : gmap string pyval) :
  same_schedule c1 c2 -> same_schedule c2 c3 -> same_schedule c1 c3.
Proof. intros H1 H2 k Hk. by rewrite H1, H2. Qed.

Lemma same_schedule_insert (c : gmap string pyval) (v : pyval) :
  same_schedule (<["last_reminder" := v]> c) c.
Proof. intros k Hk. by rewrite lookup_insert_ne. Qed.

Lemma same_schedule_window (c1 c2 : gmap string pyval) :
  same_schedule c1 c2 ->
  window_parses c1 = window_parses c2 /\
  (forall E, sleepable E c1 = sleepable E c2) /\
  forall d, active_at c1 d = active_at c2 d.
Proof.
  intros H. unfold window_parses, sleepable, active_at.
  by rewrite !H.
Qed.

Lemma time_sleep_run (E : Env) (m : Z) (interrupted : bool) (s : State) :
  sleeps E m = true ->
  time_sleep E (PyInt m) interrupted s =
    (if interrupted then Raise (Exn KeyboardInterrupt "") else Ok tt, s).
Proof.
  unfold sleeps, time_sleep, sleep_seconds.
  intros [[H0%Z.leb_le Hmax%Z.leb_le]%andb_prop Hr]%andb_prop.
  destruct (m <? -9223372036) eqn:H1; [apply Z.ltb_lt in H1; lia|].
  destruct (9223372036 <? m) eqn:H2; [apply Z.ltb_lt in H2; lia|].
  destruct (m <? 0) eqn:H3; [apply Z.ltb_lt in H3; lia|]. cbn [orb].
  destruct (sleep_refused E m); [done|]. by destruct interrupted.
Qed.

(** The sleep at the end of an iteration, for an interval that
    [time.sleep] accepts. *)
Lemma sleep_run (E : Env) (c : gmap string pyval) :
  sleepable E c = true ->
  exists interval m,
    c !! "interval_minutes" = Some interval /\
    (forall s, py_mul interval 60 s = (Ok (PyInt m), s)) /\
    sleeps E m = true.
Proof.
  unfold sleepable.
  destruct (c !! "interval_minutes") as [[|b|i| | |]|]; try done.
  - intros H. by exists (PyBool b), ((if b then 1 else 0) * 60).
  - intros H. by exists (PyInt i), (i * 60).
Qed.

(** The statements of an iteration inside the window, up to the save. *)
Lemma reminder_block_eval (E : Env) (s : State) :
  (forall e, notify E (notify_calls s) = Some e -> is_Exception e = true) ->
  exists s0,
    (send_notification E ;;
     now <- datetime_now E ;;
     setitem "last_reminder" (PyStr (isoformat now)) ;;
     save_config) s = save_config s0 /\
    same_schedule (config s0) (config s) /\
    config_other s0 = config_other s /\
    config_file s0 = config_file s /\ stdin s0 = stdin s /\
    files s0 = files s /\ write_failure s0 = write_failure s /\
    (notify_calls s <= notify_calls s0 <= S (notify_calls s))%nat /\
    (is_Some (config s !! "title") -> is_Some (config s !! "message") ->
     notify_calls s0 = S (notify_calls s)) /\
    (length (shown s0) <= S (length (shown s)))%nat.
Proof.
  intros Hn.
  unfold send_notification, try_except, getitem, notification_notify,
    datetime_now, setitem, print, modify, gets, bind, ret, raise.
  cbn -[lookup insert isoformat save_config].
  destruct (config s !! "title") as [t|] eqn:Ht;
    cbn -[lookup insert isoformat save_config];
    [destruct (config s !! "message") as [m|] eqn:Hm;
       cbn -[lookup insert isoformat save_config];
     [destruct (notify E (notify_calls s)) as [e|] eqn:He;
        cbn -[lookup insert isoformat save_config];
      [rewrite (Hn e eq_refl)|]|]|];
    cbn -[lookup insert isoformat save_config];
    (eexists; split; [reflexivity|]);
    cbn -[lookup insert isoformat];
    rewrite ?length_app; simpl;
    (split_and!;
     [ apply same_schedule_insert | done | done | done | done | done | lia | lia
     | first [ done | by intros _ [? ?] | by intros [? ?] _ ]
     | lia ]).
Qed.

(** The statements of an iteration inside the window, when the settings
    file can be written. *)
Lemma reminder_block_run (E : Env) (s : State) :
  (forall e, notify E (notify_calls s) = Some e -> is_Exception e = true) ->
  writable s (config_file s) ->
  exists s1,
    (send_notification E ;;
     now <- datetime_now E ;;
     setitem "last_reminder" (PyStr (isoformat now)) ;;
     save_config) s = (Ok tt, s1) /\
    same_schedule (config s1) (config s) /\
    config_other s1 = config_other s /\
    config_file s1 = config_file s /\ stdin s1 = stdin s /\
    write_failure s1 = write_failure s /\
    (notify_calls s <= notify_calls s1 <= S (notify_calls s))%nat /\
    (is_Some (config s !! "title") -> is_Some (config s !! "message") ->
     notify_calls s1 = S (notify_calls s)) /\
    (length (shown s1) <= S (length (shown s)))%nat /\
    files s1 !! config_file s =
      Some (Document (settings_document (config s1) (config_other s1))).
Proof.
  intros Hn Hw.
  destruct (reminder_block_eval E s Hn)
    as (s0 & -> & Hsame & Ho & Hcf & Hin & Hf & Hwf & Hnc & Hnc' & Hsh).
  assert (Hw0 : writable s0 (config_file s0)).
  { unfold writable. by rewrite Hwf, Hcf. }
  rewrite (save_config_run s0 Hw0). eexists. split; [reflexivity|].
  cbn -[lookup insert settings_document].
  split_and!; try done; try lia. by rewrite Hcf, lookup_insert_eq.
Qed.

(** One iteration of the loop, up to the end of its sleep. *)
Lemma continuous_loop_iteration (E : Env) (n : nat) (s : State) :
  window_parses (config s) = true ->
  sleepable E (config s) = true ->
  notifier_errors_only E ->
  (active_at (config s) (clock E (clock_reads s)) = true ->
   writable s (config_file s)) ->
  exists s1,
    continuous_loop E n s =
      match n with
      | O => (Raise (Exn KeyboardInterrupt ""), s1)
      | S n' => continuous_loop E n' s1
      end /\
    same_schedule (config s1) (config s) /\
    config_file s1 = config_file s /\ stdin s1 = stdin s /\
    write_failure s1 = write_failure s /\
    (notify_calls s <= notify_calls s1 <= S (notify_calls s))%nat /\
    (length (shown s1) <= S (length (shown s)))%nat /\
    (active_at (config s) (clock E (clock_reads s)) = false ->
     s1 = with_clock_reads (S (clock_reads s)) s) /\
    (active_at (config s) (clock E (clock_reads s)) = true ->
     is_Some (config s !! "title") -> is_Some (config s !! "message") ->
     notify_calls s1 = S (notify_calls s)) /\
    (active_at (config s) (clock E (clock_reads s)) = true ->
     files s1 !! config_file s =
       Some (Document (settings_document (config s1) (config_other s1)))).
Proof.
  intros Hw Hs Hne Hwr.
  destruct (sleep_run E (config s) Hs) as (interval & m & Hi & Hmul & Hm).
  pose proof (is_within_active_hours_parses E s Hw) as Hcheck.
  destruct (active_at (config s) (clock E (clock_reads s))) eqn:Ha.
  - destruct (reminder_block_run E (with_clock_reads (S (clock_reads s)) s))
      as (s1 & Hblock & Hsame & _ & Hcf & Hin & Hwf & Hnc & Hnc' & Hsh & Hfile);
      [intros e; apply Hne|by apply Hwr|].
    simpl in Hsame, Hcf, Hin, Hwf, Hnc, Hnc', Hsh, Hfile.
    exists s1. split; [|split_and!; first [done | lia | by auto]].
    assert (Hi1 : config s1 !! "interval_minutes" = Some interval)
      by (by rewrite Hsame).
    destruct n; cbn [continuous_loop];
      rewrite (bind_Ok _ _ _ _ _ Hcheck); unfold when;
      rewrite (bind_Ok _ _ _ _ _ Hblock);
      rewrite (bind_Ok _ _ _ _ _ (getitem_Some _ _ _ Hi1));
      rewrite (bind_Ok _ _ _ _ _ (Hmul s1)).
    + by apply time_sleep_run.
    + by rewrite (bind_Ok _ _ _ _ _ (time_sleep_run E m false s1 Hm)).
  - exists (with_clock_reads (S (clock_reads s)) s).
    split; [|split_and!; try done; simpl; lia].
    destruct n; cbn [continuous_loop];
      rewrite (bind_Ok _ _ _ _ _ Hcheck); unfold when;
      (erewrite bind_Ok by reflexivity);
      rewrite (bind_Ok _ _ _ _ _
                 (getitem_Some _ _ (with_clock_reads (S (clock_reads s)) s) Hi));
      rewrite (bind_Ok _ _ _ _ _ (Hmul _)).
    + by apply time_sleep_run.
    + by rewrite (bind_Ok _ _ _ _ _ (time_sleep_run E m false _ Hm)).
Qed.

(** The loop runs until Ctrl+C arrives. *)
Lemma continuous_loop_run (E : Env) (n : nat) :
  notifier_errors_only E ->
  forall s,
    window_parses (config s) = true ->
    sleepable E (config s) = true ->
    (forall k, active_at (config s) (clock E k) = true ->
               writable s (config_file s)) ->
    exists s',
      continuous_loop E n s = (Raise (Exn KeyboardInterrupt ""), s') /\
      same_schedule (config s') (config s) /\
      config_file s' = config_file s /\ stdin s' = stdin s /\
      write_failure s' = write_failure s /\
      (notify_calls s <= notify_calls s' <= notify_calls s + S n)%nat /\
      (length (shown s') <= length (shown s) + S n)%nat /\
      ((forall k, active_at (config s) (clock E k) = false) ->
       s' = with_clock_reads (clock_reads s + S n) s) /\
      ((forall k, active_at (config s) (clock E k) = true) ->
       is_Some (config s !! "title") -> is_Some (config s !! "message") ->
       notify_calls s' = (notify_calls s + S n)%nat) /\
      ((forall k, active_at (config s) (clock E k) = true) ->
       files s' !! config_file s =
         Some (Document (settings_document (config s') (config_other s')))).
Proof.
  intros Hne. induction n as [|n IH]; intros s Hw Hs Hwr.
  - destruct (continuous_loop_iteration E 0 s Hw Hs Hne (Hwr _))
      as (s1 & Hrun & Hsame & Hcf & Hin & Hwf & Hnc & Hsh & Hidle & Hsent & Hfile).
    exists s1. split_and!; try done; try lia.
    + intros Ha. rewrite (Hidle (Ha _)).
      unfold with_clock_reads. f_equal. lia.
    + intros Ha Ht Hm. rewrite (Hsent (Ha _) Ht Hm). lia.
    + intros Ha. by apply Hfile.
  - destruct (continuous_loop_iteration E (S n) s Hw Hs Hne (Hwr _))
      as (s1 & Hrun & Hsame & Hcf & Hin & Hwf & Hnc & Hsh & Hidle & Hsent & Hfile).
    destruct (same_schedule_window _ _ Hsame) as (Hw1 & Hs1 & Ha1).
    destruct (IH s1)
      as (s' & Hrun' & Hsame' & Hcf' & Hin' & Hwf' & Hnc' & Hsh' & Hidle' & Hsent'
          & Hfile');
      [congruence | by rewrite Hs1
      | intros k Hk; unfold writable; rewrite Hwf, Hcf;
        apply (Hwr k); by rewrite <- Ha1 |].
    exists s'. split_and!; try congruence; try lia.
    + by eapply same_schedule_trans.
    + intros Ha. rewrite Hidle' by (intros k; by rewrite Ha1).
      rewrite (Hidle (Ha _)). unfold with_clock_reads. simpl. f_equal. lia.
    + intros Ha Ht Hm.
      rewrite Hsent' by (first [ intros k; by rewrite Ha1 | by rewrite Hsame ]).
      rewrite (Hsent (Ha _) Ht Hm). lia.
    + intros Ha. rewrite <- Hcf. apply Hfile'. intros k. by rewrite Ha1.
Qed.

(** The run of [run_continuous] up to the loop. *)
Lemma run_continuous_eval (E : Env) (s : State) (i0 s0 e0 : pyval) :
  config s !! "interval_minutes" = Some i0 ->
  config s !! "start_time" = Some s0 ->
  config s !! "end_time" = Some e0 ->
  run_continuous E s =
    try_except (continuous_loop E (sigint_after E)) is_KeyboardInterrupt
      (fun _ => print (nl +:+ "Water reminder stopped."))
      (with_stdout
         (stdout s ++
          [ "Water reminder started!";
            "Interval: " +:+ py_str i0 +:+ " minutes";
            "Active hours: " +:+ py_str s0 +:+ " - " +:+ py_str e0;
            "Press Ctrl+C to stop" ]) s).
Proof.
  intros Hi Hs He. unfold run_continuous. do 7 run_step.
  by rewrite <- !(assoc_L (++)).
Qed.

(** The run of [run_continuous] with settings that the loop accepts. *)
Lemma run_continuous_run (E : Env) (s : State) :
  window_parses (config s) = true ->
  sleepable E (config s) = true ->
  notifier_errors_only E ->
  (forall k, active_at (config s) (clock E k) = true ->
             writable s (config_file s)) ->
  exists i0 s0 e0 s1,
    config s !! "interval_minutes" = Some i0 /\
    config s !! "start_time" = Some s0 /\
    config s !! "end_time" = Some e0 /\
    run_continuous E s =
      (Ok tt, with_stdout (stdout s1 ++ [nl +:+ "Water reminder stopped."]) s1) /\
    same_schedule (config s1) (config s) /\
    config_file s1 = config_file s /\ stdin s1 = stdin s /\
    write_failure s1 = write_failure s /\
    (notify_calls s <= notify_calls s1 <= notify_calls s + S (sigint_after E))%nat /\
    (length (shown s1) <= length (shown s) + S (sigint_after E))%nat /\
    ((forall k, active_at (config s) (clock E k) = false) ->
     s1 = with_clock_reads (clock_reads s + S (sigint_after E))
            (with_stdout
               (stdout s ++
                [ "Water reminder started!";
                  "Interval: " +:+ py_str i0 +:+ " minutes";
                  "Active hours: " +:+ py_str s0 +:+ " - " +:+ py_str e0;
                  "Press Ctrl+C to stop" ]) s)) /\
    ((forall k, active_at (config s) (clock E k) = true) ->
     is_Some (config s !! "title") -> is_Some (config s !! "message") ->
     notify_calls s1 = (notify_calls s + S (sigint_after E))%nat) /\
    ((forall k, active_at (config s) (clock E k) = true) ->
     files s1 !! config_file s =
       Some (Document (settings_document (config s1) (config_other s1)))).
Proof.
  intros Hw Hs Hne Hwr.
  destruct (sleep_run _ _ Hs) as (i0 & m & Hi & _).
  destruct (window_parses_inv _ Hw) as (a & b & ta & tb & Ha & Hb & _).
  destruct (continuous_loop_run E (sigint_after E) Hne
              (with_stdout
                 (stdout s ++
                  [ "Water reminder started!";
                    "Interval: " +:+ py_str i0 +:+ " minutes";
                    "Active hours: " +:+ py_str (PyStr a) +:+ " - " +:+
                      py_str (PyStr b);
                    "Press Ctrl+C to stop" ]) s) Hw Hs Hwr)
    as (s1 & Hrun & Hfacts).
  exists i0, (PyStr a), (PyStr b), s1.
  do 3 (split; [done|]). split; [|exact Hfacts].
  rewrite (run_continuous_eval E s i0 (PyStr a) (PyStr b) Hi Ha Hb).
  unfold try_except. by rewrite Hrun.
Qed.



(** X16. Continuous mode has no due check: as long as the clock stays
    inside the window, every iteration calls the notifier and saves the
    settings, whatever [last_reminder] is and however short the interval
    (among those that [time.sleep] accepts); the calls number one more
    than the sleeps that were completed. *)
Theorem continuous_sends_every_iteration (E : Env) (s : State) :
  window_parses (config s) = true ->
  sleepable E (config s) = true ->
  notifier_errors_only E ->
  writable s (config_file s) ->
  is_Some (config s !! "title") -> is_Some (config s !! "message") ->
  (forall k, active_at (config s) (clock E k) = true) ->
  exists s',
    run_continuous E s = (Ok tt, s') /\
    notify_calls s' = (notify_calls s + S (sigint_after E))%nat /\
    files s' !! config_file s =
      Some (Document (settings_document (config s') (config_other s'))).
Proof.
  intros Hw Hs Hne Hwr Ht Hm Hact.
  destruct (run_continuous_run E s Hw Hs Hne (fun _ _ => Hwr))
    as (i0 & s0 & e0 & s1 & _ & _ & _ & Hrun & _ & _ & _ & _ & _ & _ & _ & Hsent
        & Hfile).
  eexists. split; [exact Hrun|]. simpl. split; [by apply Hsent|by apply Hfile].
Qed.

(** The theorem with an interval of zero minutes at 09:00, Ctrl+C
    arriving during the third sleep: three calls of the notifier. *)
Lemma continuous_sends_every_iteration_witness :
  let s := with_config (<["interval_minutes" := PyInt 0]> default_config)
             default_state in
  window_parses (config s) = true /\
  sleepable (host_at 9 2) (config s) = true /\
  notifier_errors_only (host_at 9 2) /\
  writable s (config_file s) /\
  is_Some (config s !! "title") /\ is_Some (config s !! "message") /\
  (forall k, active_at (config s) (clock (host_at 9 2) k) = true) /\
  exists s',
    run_continuous (host_at 9 2) s = (Ok tt, s') /\
    notify_calls s' = (notify_calls s + S (sigint_after (host_at 9 2)))%nat /\
    files s' !! config_file s =
      Some (Document (settings_document (config s') (config_other s'))).
Proof.
  intros s.
  assert (Hne : notifier_errors_only (host_at 9 2)) by (by intros k e).
  assert (Hwr : writable s (config_file s)) by (by intros content).
  assert (Hact : forall k, active_at (config s) (clock (host_at 9 2) k) = true)
    by (intros k; vm_compute; reflexivity).
  assert (Ht : is_Some (config s !! "title")) by (vm_compute; eauto).
  assert (Hm : is_Some (config s !! "message")) by (vm_compute; eauto).
  split; [vm_compute; reflexivity|]. split; [vm_compute; reflexivity|].
  split; [exact Hne|]. split; [exact Hwr|]. split; [exact Ht|]. split; [exact Hm|].
  split; [exact Hact|].
  apply (continuous_sends_every_iteration (host_at 9 2) s);
    [vm_compute; reflexivity | vm_compute; reflexivity | exact Hne | exact Hwr
    | exact Ht | exact Hm | exact Hact].
Defined.

(** X17. While the clock stays outside the window, continuous mode with
    an interval that [time.sleep] accepts only prints its banner, sleeps,
    and prints the farewell: no notifier call, no display, no change of
    the settings or of any file. *)
Theorem continuous_outside_window_idle (E : Env) (s : State) :
  window_parses (config s) = true ->
  sleepable E (config s) = true ->
  notifier_errors_only E ->
  (forall k, active_at (config s) (clock E k) = false) ->
  exists s' banner,
    run_continuous E s = (Ok tt, s') /\
    config s' = config s /\ files s' = files s /\ shown s' = shown s /\
    notify_calls s' = notify_calls s /\
    clock_reads s' = (clock_reads s + S (sigint_after E))%nat /\
    stdout s' = stdout s ++ banner ++ [nl +:+ "Water reminder stopped."] /\
    length banner = 4%nat.
Proof.
  intros Hw Hs Hne Hact.
  destruct (run_continuous_run E s Hw Hs Hne)
    as (i0 & s0 & e0 & s1 & _ & _ & _ & Hrun & _ & _ & _ & _ & _ & _ & Hidle & _);
    [intros k Hk; by rewrite Hact in Hk|].
  rewrite (Hidle Hact) in Hrun.
  eexists.
  exists [ "Water reminder started!";
           "Interval: " +:+ py_str i0 +:+ " minutes";
           "Active hours: " +:+ py_str s0 +:+ " - " +:+ py_str e0;
           "Press Ctrl+C to stop" ].
  split; [exact Hrun|]. simpl.
  split_and!; try done. by rewrite <- (assoc_L (++)).
Qed.

(** The theorem at the default settings at 23:00. *)
Lemma continuous_outside_window_idle_witness :
  window_parses (config default_state) = true /\
  sleepable (host_at 23 2) (config default_state) = true /\
  notifier_errors_only (host_at 23 2) /\
  (forall k, active_at (config default_state) (clock (host_at 23 2) k) = false) /\
  exists s' banner,
    run_continuous (host_at 23 2) default_state = (Ok tt, s') /\
    config s' = config default_state /\ files s' = files default_state /\
    shown s' = shown default_state /\
    notify_calls s' = notify_calls default_state /\
    clock_reads s' = (clock_reads default_state + S (sigint_after (host_at 23 2)))%nat /\
    stdout s' = stdout default_state ++ banner ++ [nl +:+ "Water reminder stopped."] /\
    length banner = 4%nat.
Proof.
  assert (Hne : notifier_errors_only (host_at 23 2)) by (by intros k e).
  assert (Hact : forall k, active_at (config default_state)
                             (clock (host_at 23 2) k) = false)
    by (intros k; vm_compute; reflexivity).
  split; [vm_compute; reflexivity|]. split; [vm_compute; reflexivity|].
  split; [exact Hne|]. split; [exact Hact|].
  apply (continuous_outside_window_idle (host_at 23 2) default_state);
    [vm_compute; reflexivity | vm_compute; reflexivity | exact Hne | exact Hact].
Defined.


(** ** Settings that a mode cannot run with *)

(** The sleep with an interval that [time.sleep] accepts on no host. *)
Lemma sleep_fails (E : Env) (v : pyval) (cls : exn_class) :
  interval_error v = Some cls ->
  exists e,
    exn_cls e = cls /\
    ((forall s, py_mul v 60 s = (Raise e, s)) \/
     exists w, (forall s, py_mul v 60 s = (Ok w, s)) /\
               (forall b s, time_sleep E w b s = (Raise e, s))).
Proof.
  unfold interval_error.
  destruct v as [|b|i|str|l|d]; try done.
  - intros [= <-]. exists (Exn TypeError "unsupported operand type(s) for *").
    split; [done|by left].
  - destruct ((i * 60 <? -9223372036) || (9223372036 <? i * 60)) eqn:Hout;
      [|destruct (i * 60 <? 0) eqn:Hneg; [|done]]; intros [= <-].
    + exists (Exn OverflowError "timestamp too large to convert to C _PyTime_t").
      split; [done|]. right. eexists. split; [done|].
      intros b s. unfold time_sleep, sleep_seconds. by rewrite Hout.
    + exists (Exn ValueError "sleep length must be non-negative").
      split; [done|]. right. eexists. split; [done|].
      intros b s. unfold time_sleep, sleep_seconds. by rewrite Hout, Hneg.
  - intros [= <-]. exists (Exn TypeError "an integer is required").
    split; [done|]. right. eexists. by split.
  - intros [= <-]. exists (Exn TypeError "an integer is required").
    split; [done|]. right. eexists. by split.
  - intros [= <-]. exists (Exn TypeError "unsupported operand type(s) for *").
    split; [done|by left].
Qed.

Lemma interval_error_class (v : pyval) (cls : exn_class) :
  interval_error v = Some cls ->
  cls = ValueError \/ cls = TypeError \/ cls = OverflowError.
Proof.
  unfold interval_error. destruct v as [|b|i|str|l|d]; try done;
    try (intros [= <-]; tauto).
  destruct (_ || _); [intros [= <-]; tauto|].
  destruct (_ <? _); [intros [= <-]; tauto|done].
Qed.

Lemma not_KeyboardInterrupt (e : exn) :
  exn_cls e = ValueError \/ exn_cls e = TypeError \/ exn_cls e = OverflowError ->
  is_KeyboardInterrupt e = false.
Proof. unfold is_KeyboardInterrupt. by intros [-> | [-> | ->]]. Qed.

(** X18. Continuous mode does not survive an interval that
    [time.sleep] accepts on no host.  With a window that parses, a
    notifier that fails with errors only and a settings file that can be
    written, the first iteration ends with an exception that no handler
    catches, after at most one call of the notifier: [ValueError] for a
    negative number of seconds down to -9223372036, [OverflowError] for a
    number of seconds beyond 9223372036 either way, [TypeError] for an
    interval that is not a number. *)
Theorem continuous_rejects_interval
    (E : Env) (s : State) (v : pyval) (cls : exn_class) :
  window_parses (config s) = true ->
  notifier_errors_only E ->
  writable s (config_file s) ->
  config s !! "interval_minutes" = Some v ->
  interval_error v = Some cls ->
  exists e s',
    run_continuous E s = (Raise e, s') /\
    exn_cls e = cls /\
    (notify_calls s' <= S (notify_calls s))%nat.
Proof.
  intros Hw Hne Hwr Hi Hs.
  destruct (window_parses_inv _ Hw) as (a & b & ta & tb & Ha & Hb & _).
  destruct (sleep_fails E _ _ Hs) as (e & Hcls & Hrun).
  rewrite (run_continuous_eval E s v (PyStr a) (PyStr b) Hi Ha Hb).
  set (s0 := with_stdout _ s).
  assert (exists s1, continuous_loop E (sigint_after E) s0 = (Raise e, s1) /\
                     (notify_calls s1 <= S (notify_calls s))%nat)
    as (s1 & Hloop & Hnc).
  { pose proof (is_within_active_hours_parses E s0 Hw) as Hcheck.
    assert (exists s1,
              when (active_at (config s0) (clock E (clock_reads s0)))
                (send_notification E ;;
                 now <- datetime_now E ;;
                 setitem "last_reminder" (PyStr (isoformat now)) ;;
                 save_config) (with_clock_reads (S (clock_reads s0)) s0) =
                (Ok tt, s1) /\
              config s1 !! "interval_minutes" = Some v /\
              (notify_calls s1 <= S (notify_calls s))%nat)
      as (s1 & Hblock & Hi1 & Hnc).
    { destruct (active_at _ _).
      - destruct (reminder_block_run E (with_clock_reads (S (clock_reads s0)) s0))
          as (s1 & Hblock & Hsame & _ & _ & _ & _ & Hnc & _);
          [intros x; apply Hne|exact Hwr|].
        exists s1. split; [exact Hblock|]. split; [by rewrite Hsame|].
        simpl in Hnc. lia.
      - eexists. split; [reflexivity|]. split; [done|]. simpl. lia. }
    exists s1. split; [|done].
    destruct (sigint_after E); cbn [continuous_loop];
      rewrite (bind_Ok _ _ _ _ _ Hcheck);
      rewrite (bind_Ok _ _ _ _ _ Hblock);
      rewrite (bind_Ok _ _ _ _ _ (getitem_Some _ _ _ Hi1));
      (destruct Hrun as [Hmul | (w & Hmul & Hsleep)];
       [ by rewrite (bind_Raise _ _ _ _ _ (Hmul s1))
       | rewrite (bind_Ok _ _ _ _ _ (Hmul s1)) ]).
    - apply Hsleep.
    - by rewrite (bind_Raise _ _ _ _ _ (Hsleep false s1)). }
  exists e, s1. unfold try_except. rewrite Hloop.
  rewrite (not_KeyboardInterrupt e);
    [done | rewrite Hcls; by apply (interval_error_class v)].
Qed.

(** The theorem at an interval of -5 minutes, as [configure] stores it. *)
Lemma continuous_rejects_interval_witness :
  let s := with_config (<["interval_minutes" := PyInt (-5)]> default_config)
             default_state in
  window_parses (config s) = true /\
  notifier_errors_only working_env /\
  writable s (config_file s) /\
  config s !! "interval_minutes" = Some (PyInt (-5)) /\
  interval_error (PyInt (-5)) = Some ValueError /\
  exists e s',
    run_continuous working_env s = (Raise e, s') /\
    exn_cls e = ValueError /\
    (notify_calls s' <= S (notify_calls s))%nat.
Proof.
  intros s.
  assert (Hne : notifier_errors_only working_env) by (by intros k e).
  assert (Hwr : writable s (config_file s)) by (by intros content).
  split; [vm_compute; reflexivity|]. split; [exact Hne|]. split; [exact Hwr|].
  split; [vm_compute; reflexivity|]. split; [vm_compute; reflexivity|].
  apply (continuous_rejects_interval working_env s (PyInt (-5)) ValueError);
    [vm_compute; reflexivity | exact Hne | exact Hwr | vm_compute; reflexivity
    | vm_compute; reflexivity].
Defined.

Lemma call_run_continuous (E : Env) (s : State) :
  call_ E "run_continuous" s = (as_none (run_continuous E) ;; ret tt) s.
Proof. reflexivity. Qed.

Lemma call_get_status_info (E : Env) (s : State) :
  call E "get_status_info" s = get_status_info E s.
Proof. reflexivity. Qed.

(** The status report with a window that does not parse. *)
Lemma get_status_info_fails (E : Env) (s : State) :
  window_parses (config s) = false ->
  has_all_fields (config s) = true ->
  exists e,
    get_status_info E s = (Raise e, with_clock_reads (S (clock_reads s)) s) /\
    (exn_cls e = ValueError \/ exn_cls e = TypeError).
Proof.
  intros Hw Hall. rewrite get_status_info_eval. unfold bind.
  destruct (is_within_active_hours_fails E s Hw) as (e & -> & Hcls & Hkey).
  exists e. split; [done|]. destruct Hcls as [Hk|Hcls]; [|tauto].
  destruct (has_all_fields_lookup _ "start_time" Hall) as [? ?];
    [unfold documented_fields; in_list|].
  destruct (has_all_fields_lookup _ "end_time" Hall) as [? ?];
    [unfold documented_fields; in_list|].
  destruct (Hkey Hk); congruence.
Qed.

(** A run of the program that checks the window, with a window that
    does not parse. *)
Lemma program_malformed_window (E : Env) (args : Args) (s : State) :
  plyer_installed E = true ->
  window_parses (config (started s)) = false ->
  arg_notify args || arg_continuous args ||
    negb (arg_configure args || arg_setup args) = true ->
  exists e s',
    program E args s = (Raise e, s') /\
    (exn_cls e = ValueError \/ exn_cls e = TypeError) /\
    shown s' = shown s /\ notify_calls s' = notify_calls s /\
    files s' = files s.
Proof.
  intros Hp Hw Hmode. rewrite program_started by done.
  destruct (started_run s) as (_ & Hall & _ & Hf & _ & _ & Hsh & Hnc & _).
  destruct (arg_notify args); [|destruct (arg_continuous args)].
  - destruct (call_is_within_active_hours_fails E (started s) Hw Hall)
      as (e & Hrun & Hcls).
    exists e. eexists. unfold notify_once.
    rewrite (bind_Raise _ _ _ _ _ Hrun). split; [done|]. split; [tauto|done].
  - destruct (has_all_fields_configurable _ Hall)
      as (i0 & s0 & e0 & m0 & Hi & Hs & He & _).
    rewrite call_run_continuous.
    set (s1 := with_stdout
                 (stdout (started s) ++
                  [ "Water reminder started!";
                    "Interval: " +:+ py_str i0 +:+ " minutes";
                    "Active hours: " +:+ py_str s0 +:+ " - " +:+ py_str e0;
                    "Press Ctrl+C to stop" ]) (started s)).
    destruct (is_within_active_hours_fails E s1 Hw) as (e & Hrun & Hcls & Hkey).
    assert (Hcls' : exn_cls e = ValueError \/ exn_cls e = TypeError).
    { destruct Hcls as [Hk|Hcls]; [|tauto].
      destruct (Hkey Hk) as [Hn|Hn]; simpl in Hn; congruence. }
    assert (Hkb : is_KeyboardInterrupt e = false)
      by (apply not_KeyboardInterrupt; tauto).
    assert (Hloop : continuous_loop E (sigint_after E) s1 =
                      (Raise e, with_clock_reads (S (clock_reads s1)) s1)).
    { destruct (sigint_after E); cbn [continuous_loop];
        by rewrite (bind_Raise _ _ _ _ _ Hrun). }
    exists e. eexists. split; [|split; [exact Hcls'|]].
    + apply as_none_Raise.
      rewrite (run_continuous_eval E (started s) i0 s0 e0 Hi Hs He).
      fold s1. unfold try_except. rewrite Hloop.
      by rewrite Hkb.
    + done.
  - simpl in Hmode. apply negb_true_iff in Hmode.
    apply orb_false_iff in Hmode as [-> ->].
    unfold interactive. do 3 (erewrite bind_Ok by reflexivity).
    destruct (get_status_info_fails E
                (with_stdout (stdout (started s) ++
                              ["🚰 === Windows Water Reminder ==="]) (started s))
                Hw Hall) as (e & Hrun & Hcls).
    rewrite <- call_get_status_info in Hrun.
    exists e. eexists. rewrite (bind_Raise _ _ _ _ _ Hrun).
    split; [done|]. split; [tauto|done].
Qed.

(** X19. When an end of the window in the settings file is not a time
    that [strptime] accepts, the program ends with an uncaught
    [ValueError] or [TypeError] under [--notify], under [--continuous]
    and in the interactive start, before anything is sent or written. *)
Theorem malformed_window_stops_program (E : Env) (args : Args) (s : State) :
  plyer_installed E = true ->
  window_parses (config (started s)) = false ->
  arg_notify args || arg_continuous args ||
    negb (arg_configure args || arg_setup args) = true ->
  exists e s',
    program E args s = (Raise e, s') /\
    (exn_cls e = ValueError \/ exn_cls e = TypeError) /\
    shown s' = shown s /\ notify_calls s' = notify_calls s /\
    files s' = files s.
Proof. apply program_malformed_window. Qed.

(** The theorem at a settings file that gives [8am] as the start of the
    window, in continuous mode. *)
Lemma malformed_window_stops_program_witness :
  plyer_installed working_env = true /\
  window_parses (config (started malformed_state)) = false /\
  exists e s',
    program working_env continuous_flags malformed_state = (Raise e, s') /\
    (exn_cls e = ValueError \/ exn_cls e = TypeError) /\
    shown s' = shown malformed_state /\
    notify_calls s' = notify_calls malformed_state /\
    files s' = files malformed_state.
Proof.
  split; [reflexivity|]. split; [vm_compute; reflexivity|].
  apply (malformed_window_stops_program working_env continuous_flags malformed_state);
    [reflexivity | vm_compute; reflexivity | reflexivity].
Defined.

(** ** The interactive start *)

(** The status report with a window that parses. *)
Lemma get_status_info_parses (E : Env) (s : State) :
  window_parses (config s) = true ->
  call E "get_status_info" s =
    (Ok (PyDict
           [ ("files_created",
              PyBool (bool_decide (is_Some (files s !! "water_reminder_task.bat")) &&
                      bool_decide (is_Some (files s !! "WaterReminder_Task.xml"))));
             ("task_scheduled", PyBool (bool_decide (schtasks E = Some 0)));
             ("last_reminder", default PyNone (config s !! "last_reminder"));
             ("is_active_time",
              PyBool (active_at (config s) (clock E (clock_reads s)))) ]),
     with_clock_reads (S (clock_reads s)) s).
Proof.
  intros Hw. rewrite call_get_status_info, get_status_info_eval. unfold bind.
  by rewrite is_within_active_hours_parses.
Qed.

(** X20. With a window that parses, and unless both scheduler
    artifacts exist in the working directory, the interactive start goes
    to the welcome menu, whether or not the task is registered with the
    scheduler; by then it has printed its banner twice and changed
    nothing else. *)
Theorem interactive_welcome_without_files (E : Env) (s : State) :
  window_parses (config s) = true ->
  files s !! "water_reminder_task.bat" = None \/
  files s !! "WaterReminder_Task.xml" = None ->
  exists s1,
    interactive E s = menu_welcome E s1 /\
    stdout s1 = stdout s ++ [ "🚰 === Windows Water Reminder ===";
                              "🚰 === Windows Water Reminder ===" ] /\
    config s1 = config s /\ files s1 = files s /\ stdin s1 = stdin s /\
    shown s1 = shown s /\ notify_calls s1 = notify_calls s.
Proof.
  intros Hw Hfiles. unfold interactive.
  do 3 (erewrite bind_Ok by reflexivity).
  erewrite bind_Ok by (by apply get_status_info_parses).
  do 2 (erewrite bind_Ok by reflexivity).
  norm_state.
  assert (bool_decide (is_Some (files s !! "water_reminder_task.bat")) &&
          bool_decide (is_Some (files s !! "WaterReminder_Task.xml")) = false)
    as ->.
  { destruct Hfiles as [-> | ->]; by rewrite ?andb_false_r. }
  eexists. simpl truthy. cbv iota. split; [reflexivity|]. norm_state.
  by rewrite <- (assoc_L (++)).
Qed.

(** The theorem in an empty working directory. *)
Lemma interactive_welcome_without_files_witness :
  window_parses (config default_state) = true /\
  (files default_state !! "water_reminder_task.bat" = None \/
   files default_state !! "WaterReminder_Task.xml" = None) /\
  exists s1,
    interactive working_env default_state = menu_welcome working_env s1 /\
    stdout s1 = stdout default_state ++
                [ "🚰 === Windows Water Reminder ===";
                  "🚰 === Windows Water Reminder ===" ] /\
    config s1 = config default_state /\ files s1 = files default_state /\
    stdin s1 = stdin default_state /\
    shown s1 = shown default_state /\
    notify_calls s1 = notify_calls default_state.
Proof.
  split; [vm_compute; reflexivity|]. split; [by left|].
  apply (interactive_welcome_without_files working_env default_state);
    [vm_compute; reflexivity | by left].
Defined.


(** X21. With a window that parses and both scheduler artifacts in
    place, a [last_reminder] that [datetime.fromisoformat] rejects ends
    the interactive start with a [ValueError] before any menu is shown:
    no input is read, nothing is sent or written. *)
Theorem interactive_rejects_last_reminder (E : Env) (s : State) (t : string) :
  window_parses (config s) = true ->
  is_Some (files s !! "water_reminder_task.bat") ->
  is_Some (files s !! "WaterReminder_Task.xml") ->
  config s !! "last_reminder" = Some (PyStr t) ->
  t <> "" ->
  fromisoformat E t = None ->
  exists e s',
    interactive E s = (Raise e, s') /\
    exn_cls e = ValueError /\
    stdin s' = stdin s /\ shown s' = shown s /\ files s' = files s /\
    config s' = config s.
Proof.
  intros Hw Hb Hx Hlast Ht Hiso. unfold interactive.
  do 3 (erewrite bind_Ok by reflexivity).
  erewrite bind_Ok by (by apply get_status_info_parses).
  norm_state. rewrite Hlast, !bool_decide_eq_true_2 by done.
  do 2 (erewrite bind_Ok by reflexivity).
  cbn [andb truthy default from_option]. norm_state.
  do 6 (erewrite bind_Ok by reflexivity).
  cbn [truthy id]. case_bool_decide; [done|]. cbn [negb].
  erewrite bind_Raise
    by (erewrite bind_Ok by reflexivity;
        apply bind_Raise; unfold fromisoformat_of; rewrite Hiso; reflexivity).
  do 2 eexists. split; [reflexivity|]. by split_and!.
Qed.

(** The theorem at a settings record whose [last_reminder] is the word
    [yesterday]. *)
Lemma interactive_rejects_last_reminder_witness :
  window_parses (config edited_state) = true /\
  is_Some (files edited_state !! "water_reminder_task.bat") /\
  is_Some (files edited_state !! "WaterReminder_Task.xml") /\
  config edited_state !! "last_reminder" = Some (PyStr "yesterday") /\
  "yesterday" <> "" /\
  fromisoformat working_env "yesterday" = None /\
  exists e s',
    interactive working_env edited_state = (Raise e, s') /\
    exn_cls e = ValueError /\
    stdin s' = stdin edited_state /\ shown s' = shown edited_state /\
    files s' = files edited_state /\ config s' = config edited_state.
Proof.
  assert (Hb : is_Some (files edited_state !! "water_reminder_task.bat"))
    by (vm_compute; eauto).
  assert (Hx : is_Some (files edited_state !! "WaterReminder_Task.xml"))
    by (vm_compute; eauto).
  split; [vm_compute; reflexivity|]. split; [exact Hb|]. split; [exact Hx|].
  split; [vm_compute; reflexivity|]. split; [done|]. split; [reflexivity|].
  apply (interactive_rejects_last_reminder working_env edited_state "yesterday");
    [vm_compute; reflexivity | exact Hb | exact Hx | vm_compute; reflexivity
    | done | reflexivity].
Defined.

(** ** The test notification of the menus *)






(** ** Reconfiguration and the runs that follow *)

Lemma call_configure (E : Env) (s : State) :
  call_ E "configure" s = (as_none configure ;; ret tt) s.
Proof. reflexivity. Qed.

(** The numeral of a number starts with a digit or a minus sign. *)
Lemma pretty_N_go_head (c : ascii) (x : N) (s s' : string) :
  (forall d, pretty_N_char d <> c) ->
  s <> String c s' -> pretty_N_go x s <> String c s'.
Proof.
  intros Hc. revert s. induction (N.lt_wf_0 x) as [x _ IH]; intros s Hs.
  assert (x = 0 \/ 0 < x)%N as [->|Hx] by lia.
  - by rewrite pretty_N_go_0.
  - rewrite pretty_N_go_step by done. apply IH.
    { by apply N.div_lt. }
    intros [= Hd _]. by apply (Hc _ Hd).
Qed.

Lemma pretty_Z_head (c : ascii) (n : Z) (s' : string) :
  (forall d, pretty_N_char d <> c) -> c <> "-"%char ->
  pretty n <> String c s'.
Proof.
  intros Hc Hdash. destruct n as [|p|p]; unfold pretty, pretty_Z.
  - intros [= H _]. by apply (Hc 0%N).
  - unfold pretty_positive, pretty, pretty_N. case_decide; [done|].
    by apply pretty_N_go_head.
  - intros [= H _]. by apply Hdash.
Qed.

(** No key that is not a string is written under the name of a
    documented field. *)
Lemma json_key_not_documented (k : pykey) (name : string) :
  name ∈ documented_fields -> json_key k <> name.
Proof.
  unfold documented_fields. intros Hname.
  repeat (apply elem_of_cons in Hname as [->|Hname]);
    [..|by apply elem_of_nil in Hname];
    (destruct k as [|[|]|n]; [done|done|done|]);
    apply pretty_Z_head; try done;
    intros d; unfold pretty_N_char; by repeat case_match.
Qed.

Lemma dumped_lookup (c : gmap string pyval) (o : list other_item) (k : string) :
  (forall x, json_key x <> k) -> dumped c o !! k = c !! k.
Proof.
  intros Hk. unfold dumped.
  induction o as [|i o IH] using rev_ind; [done|].
  rewrite foldl_app. simpl. destruct (_ && _); [done|].
  by rewrite lookup_insert_ne.
Qed.

Lemma dumped_has_all_fields (c : gmap string pyval) (o : list other_item) :
  has_all_fields c = true -> has_all_fields (dumped c o) = true.
Proof.
  unfold has_all_fields. rewrite !forallb_forall. intros Hall k Hk.
  rewrite dumped_lookup; [by apply Hall|].
  intros x. apply json_key_not_documented. by apply list_elem_of_In.
Qed.

(** The instance constructed on a settings file that [save_config]
    wrote. *)
Lemma started_after_save (s : State) (c : gmap string pyval)
    (o : list other_item) :
  files s !! "water_reminder_config.json" =
    Some (Document (settings_document c o)) ->
  has_all_fields c = true ->
  config (started s) = dumped c o.
Proof.
  intros Hf Hall. unfold started, WaterReminder_init, modify.
  unfold bind at 1. unfold bind at 1.
  rewrite load_config_eval. simpl. rewrite Hf.
  unfold bind at 1. rewrite load_config_other_eval. simpl.
  rewrite update_from_members_map_to_list, union_default_config; [done|].
  by apply dumped_has_all_fields.
Qed.

(** The run of the program under [--configure], when the settings file
    can be written. *)
Lemma configure_mode_run (E : Env) (args : Args) (s : State)
    (l1 l2 l3 l4 : string) (rest : list string) :
  plyer_installed E = true ->
  arg_notify args = false -> arg_continuous args = false ->
  arg_configure args = true ->
  stdin s = l1 :: l2 :: l3 :: l4 :: rest ->
  writable s "water_reminder_config.json" ->
  exists s',
    program E args s = (Ok tt, s') /\
    (forall k, k ∈ documented_fields ->
       config (started s') !! k =
         configured l1 l2 l3 l4 (config (started s)) !! k) /\
    shown s' = shown s /\ notify_calls s' = notify_calls s.
Proof.
  intros Hp Hn Hc Hg Hin Hw. rewrite program_started by done.
  rewrite Hn, Hc, Hg, call_configure.
  destruct (started_run s)
    as (_ & Hall & Hcf & _ & Hin0 & _ & Hsh & Hnc & _ & Hwf).
  destruct (has_all_fields_configurable _ Hall)
    as (i0 & s0 & e0 & m0 & Hi & Hs & He & Hm).
  rewrite <- Hin0 in Hin.
  assert (Hw' : writable (started s) (config_file (started s))).
  { intros content. by rewrite Hwf, Hcf. }
  destruct (configure_run (started s) l1 l2 l3 l4 rest i0 s0 e0 m0
              Hin Hi Hs He Hm Hw')
    as (s' & Hrun & Hcfg & _ & _ & _ & Hf & Hsh' & Hnc' & _).
  exists s'. rewrite (as_none_Ok _ _ _ Hrun). split; [done|].
  split; [|split; congruence].
  intros k Hk.
  rewrite (started_after_save s' (configured l1 l2 l3 l4 (config (started s)))
             (config_other (started s))).
  - apply dumped_lookup. intros x. by apply json_key_not_documented.
  - by rewrite Hf, Hcf, lookup_insert_eq.
  - by apply configured_has_all_fields.
Qed.

(** X23. A start of the window typed into [--configure] that [strptime]
    rejects is saved all the same when the settings file can be written,
    and from then on every run that checks the window ([--notify],
    [--continuous], the menu) ends with an uncaught [ValueError] or
    [TypeError]. *)
Theorem configure_can_break_later_runs (E : Env) (args : Args) (s : State)
    (l1 l2 l3 l4 : string) (rest : list string) :
  plyer_installed E = true ->
  arg_notify args = false -> arg_continuous args = false ->
  arg_configure args = true ->
  stdin s = l1 :: l2 :: l3 :: l4 :: rest ->
  writable s "water_reminder_config.json" ->
  nonblank l2 = true ->
  strptime_HM l2 = None ->
  exists s',
    program E args s = (Ok tt, s') /\
    window_parses (config (started s')) = false /\
    forall E' args',
      plyer_installed E' = true ->
      arg_notify args' || arg_continuous args' ||
        negb (arg_configure args' || arg_setup args') = true ->
      exists e s'',
        program E' args' s' = (Raise e, s'') /\
        (exn_cls e = ValueError \/ exn_cls e = TypeError).
Proof.
  intros Hp Hn Hc Hg Hin Hwr Hb Hparse.
  destruct (configure_mode_run E args s l1 l2 l3 l4 rest Hp Hn Hc Hg Hin Hwr)
    as (s' & Hrun & Hcfg & _).
  assert (Hw : window_parses (config (started s')) = false).
  { unfold window_parses.
    rewrite (Hcfg "start_time") by (unfold documented_fields; in_list).
    unfold configured, answer. rewrite Hb.
    rewrite !lookup_set_opt_ne, lookup_set_opt_eq by done.
    unfold parses. rewrite Hparse. done. }
  exists s'. split_and!; try done.
  intros E' args' Hp' Hmode.
  destruct (program_malformed_window E' args' s' Hp' Hw Hmode)
    as (e & s'' & Hrun' & Hcls & _).
  by exists e, s''.
Qed.

(** The theorem at the answer [8am] for the start of the window. *)
Lemma configure_can_break_later_runs_witness :
  let s := with_stdin [ ""; "8am"; ""; "" ] empty_state in
  plyer_installed working_env = true /\
  stdin s = [ ""; "8am"; ""; "" ] /\
  writable s "water_reminder_config.json" /\
  nonblank "8am" = true /\
  strptime_HM "8am" = None /\
  exists s',
    program working_env configure_flags s = (Ok tt, s') /\
    window_parses (config (started s')) = false /\
    forall E' args',
      plyer_installed E' = true ->
      arg_notify args' || arg_continuous args' ||
        negb (arg_configure args' || arg_setup args') = true ->
      exists e s'',
        program E' args' s' = (Raise e, s'') /\
        (exn_cls e = ValueError \/ exn_cls e = TypeError).
Proof.
  intros s.
  assert (Hwr : writable s "water_reminder_config.json") by (by intros content).
  split; [reflexivity|]. split; [reflexivity|]. split; [exact Hwr|].
  split; [vm_compute; reflexivity|]. split; [vm_compute; reflexivity|].
  apply (configure_can_break_later_runs working_env configure_flags s
           "" "8am" "" "" []);
    first [exact Hwr | reflexivity | vm_compute; reflexivity].
Defined.

(** X24. [--configure] runs whatever the window in the settings file
    is, and when the settings file can be written, answers for both ends
    that [strptime] accepts leave a settings file with which the window
    parses again. *)
Theorem configure_repairs_window (E : Env) (args : Args) (s : State)
    (l1 l2 l3 l4 : string) (rest : list string) :
  plyer_installed E = true ->
  arg_notify args = false -> arg_continuous args = false ->
  arg_configure args = true ->
  stdin s = l1 :: l2 :: l3 :: l4 :: rest ->
  writable s "water_reminder_config.json" ->
  nonblank l2 = true -> nonblank l3 = true ->
  is_Some (strptime_HM l2) -> is_Some (strptime_HM l3) ->
  exists s',
    program E args s = (Ok tt, s') /\
    window_parses (config (started s')) = true /\
    config (started s') !! "start_time" = Some (PyStr l2) /\
    config (started s') !! "end_time" = Some (PyStr l3).
Proof.
  intros Hp Hn Hc Hg Hin Hwr Hb2 Hb3 Hp2 Hp3.
  destruct (configure_mode_run E args s l1 l2 l3 l4 rest Hp Hn Hc Hg Hin Hwr)
    as (s' & Hrun & Hcfg & _).
  assert (Hs : config (started s') !! "start_time" = Some (PyStr l2)).
  { rewrite (Hcfg "start_time") by (unfold documented_fields; in_list).
    unfold configured, answer. rewrite Hb2.
    by rewrite !lookup_set_opt_ne, lookup_set_opt_eq by done. }
  assert (He : config (started s') !! "end_time" = Some (PyStr l3)).
  { rewrite (Hcfg "end_time") by (unfold documented_fields; in_list).
    unfold configured, answer. rewrite Hb3.
    by rewrite !lookup_set_opt_ne, lookup_set_opt_eq by done. }
  exists s'. split_and!; try done.
  unfold window_parses, parses. rewrite Hs, He.
  by rewrite !bool_decide_eq_true_2.
Qed.

(** The theorem at a settings file whose start of the window is [8am],
    with the answers 07:30 and 21:00. *)
Lemma configure_repairs_window_witness :
  let s := with_stdin [ ""; "07:30"; "21:00"; "" ] malformed_state in
  plyer_installed working_env = true /\
  window_parses (config (started s)) = false /\
  stdin s = [ ""; "07:30"; "21:00"; "" ] /\
  writable s "water_reminder_config.json" /\
  nonblank "07:30" = true /\ nonblank "21:00" = true /\
  is_Some (strptime_HM "07:30") /\ is_Some (strptime_HM "21:00") /\
  exists s',
    program working_env configure_flags s = (Ok tt, s') /\
    window_parses (config (started s')) = true /\
    config (started s') !! "start_time" = Some (PyStr "07:30") /\
    config (started s') !! "end_time" = Some (PyStr "21:00").
Proof.
  intros s.
  assert (H2 : is_Some (strptime_HM "07:30")) by (vm_compute; eauto).
  assert (H3 : is_Some (strptime_HM "21:00")) by (vm_compute; eauto).
  assert (Hwr : writable s "water_reminder_config.json") by (by intros content).
  split; [reflexivity|]. split; [vm_compute; reflexivity|].
  split; [reflexivity|]. split; [exact Hwr|].
  split; [vm_compute; reflexivity|]. split; [vm_compute; reflexivity|].
  split; [exact H2|]. split; [exact H3|].
  apply (configure_repairs_window working_env configure_flags s
           "" "07:30" "21:00" "" []);
    first [exact Hwr | reflexivity | vm_compute; reflexivity | assumption].
Defined.

(** ** Writes that the host refuses *)




(** X26. When the host fails the write of the batch script,
    [setup_task_scheduler] ends with the exception of the write before
    it turns to the descriptor: the descriptor file is as it was, no
    setting is changed and nothing is sent. *)
Theorem setup_unwritable_batch (E : Env) (s : State) (e : exn)
    (f : option file) :
  write_failure s "water_reminder_task.bat"
    (Text ("@echo off" +:+ nl +:+
           "cd /d " +:+ dq +:+ dirname E (abspath E (script E)) +:+ dq +:+ nl +:+
           "python " +:+ dq +:+ abspath E (script E) +:+ dq +:+
             " --notify" +:+ nl)) = Some (e, f) ->
  exists s',
    setup_task_scheduler E s = (Raise e, s') /\
    files s' !! "WaterReminder_Task.xml" = files s !! "WaterReminder_Task.xml" /\
    files s' !! "water_reminder_task.bat" =
      match f with
      | None => files s !! "water_reminder_task.bat"
      | Some x => Some x
      end /\
    config s' = config s /\ shown s' = shown s /\
    notify_calls s' = notify_calls s.
Proof.
  intros Hw. unfold setup_task_scheduler. do 2 run_step.
  unfold create_task_scheduler_batch, write_text.
  destruct f as [x|];
    (eexists;
     erewrite bind_Raise
       by (apply bind_Raise; unfold open_write; norm_state; rewrite Hw;
           reflexivity);
     split; [reflexivity|]; norm_state; split_and!; try done).
  - by rewrite lookup_insert_ne.
  - by rewrite lookup_insert_eq.
Qed.

(** The theorem in a read-only working directory. *)
Lemma setup_unwritable_batch_witness :
  (forall content,
     write_failure readonly_state "water_reminder_task.bat" content =
       Some (Exn OSError "[Errno 13] Permission denied", None)) /\
  exists s',
    setup_task_scheduler working_env readonly_state =
      (Raise (Exn OSError "[Errno 13] Permission denied"), s') /\
    files s' !! "WaterReminder_Task.xml" =
      files readonly_state !! "WaterReminder_Task.xml" /\
    files s' !! "water_reminder_task.bat" =
      files readonly_state !! "water_reminder_task.bat" /\
    config s' = config readonly_state /\ shown s' = shown readonly_state /\
    notify_calls s' = notify_calls readonly_state.
Proof.
  split; [reflexivity|].
  apply (setup_unwritable_batch working_env readonly_state
           (Exn OSError "[Errno 13] Permission denied") None).
  reflexivity.
Defined.

